(** * DNS monitoring: device registry and log analysis

    A shallow embedding of [dns-monitoring/device-mapper.py] (class
    [DeviceMapper] and [main]) and of the line parser, the log loop and the
    rankings of [dns-monitoring/dns-traffic-analyzer.py] (class
    [DNSTrafficAnalyzer]).

    Conventions of the embedding.
    - A Python object read from or written to JSON is a [value]; a [dict] is
      an association list in insertion order, its keys distinct.
    - A Python [str] is a Rocq [string]; a character is a code point below
      256.  Code points above that are outside the model.
    - A float is carried as the text of its literal and never computed on.
    - The library calls of the programs ([json.loads], [json.dump],
      [re.search] with the programs' one pattern, [str.strip], [sorted],
      [Counter.most_common], the format [{s:<n}] of a str) are embedded from
      their documented behaviour, in [Json], [Re], [Py], [Commands] and
      [TrafficReport].
    - A method that mutates [self.data], reads the clock or touches a file is
      a function from a [world] to an outcome and the next [world]; an
      exception is the outcome [Raise e], and the world it carries is the one
      the mutation had reached when the exception was raised.
    - The file system knows two failures: a file that does not exist, and a
      path that cannot be opened for writing.
    - Console output ([print]) is not modelled, except for [list_devices],
      which does nothing else and answers the strings it printed.  Nor is
      [os.path.abspath]: [device_map_file] is the path as [__init__] stored
      it.
    - [datetime.now().isoformat()] shows the microseconds, which a
      [datetime] of the model does not have: the text is a parameter
      ([isoformat_now]).
    - Of the report of the analyzer the rankings are embedded; what it
      prints is not (the percentages are floats, and a timestamp may be any
      JSON value), nor is [get_client_analysis].

    The file has the embedding first ([Py], [Json], [Re], [DeviceMapper],
    [DNSTrafficAnalyzer], [Commands], [TrafficReport]), then the vocabulary
    of the statements ([Registry], [Text], [Tables], [Runs], [Samples],
    [Scenarios]), then the proofs, by component: the codec, the line parser,
    the registry, the reconciliation and the routing table; then the
    lookup, the listing, the export and the command line; then the tables
    and the rankings of the analyzer. *)

From Stdlib Require Import String Ascii List ZArith Lia Bool Arith.
From Stdlib Require Import Permutation Sorted DecimalString Decimal DecimalFacts DecimalN DecimalZ.
Import ListNotations.
Set Warnings "-register-all".
Local Open Scope list_scope.
Local Open Scope string_scope.

(* ===================================================================== *)
(** ** Python values, exceptions and the built-in operations the code uses *)
(* ===================================================================== *)

Module Py.

Inductive exn : Set :=
| KeyError | TypeError | AttributeError | JSONDecodeError | FileNotFoundError | OSError.

Inductive result (A : Type) : Type :=
| Ok (a : A)
| Raise (e : exn).
Arguments Ok {A} a.
Arguments Raise {A} e.

(** What [json.load] can return and [json.dump] can write.  A float is kept
    as the text of its literal; no operation of the program computes on it. *)
Inductive value : Type :=
| VNone
| VBool (b : bool)
| VInt (n : Z)
| VFloat (lit : string)
| VStr (s : string)
| VList (xs : list value)
| VDict (kvs : list (string * value)).

(** *** dict: insertion-ordered, keyed by [str] *)

Definition dict (A : Type) : Type := list (string * A).

Fixpoint dict_get {A} (k : string) (d : dict A) : option A :=
  match d with
  | [] => None
  | (k', v) :: d' => if (k' =? k)%string then Some v else dict_get k d'
  end.

(** [d[k] = v]: an existing key keeps its position, a new key goes last. *)
Fixpoint dict_set {A} (k : string) (v : A) (d : dict A) : dict A :=
  match d with
  | [] => [(k, v)]
  | (k', v') :: d' =>
      if (k' =? k)%string then (k, v) :: d' else (k', v') :: dict_set k v d'
  end.

Definition dict_keys {A} (d : dict A) : list string := map fst d.

Definition dict_mem {A} (k : string) (d : dict A) : bool :=
  match dict_get k d with Some _ => true | None => false end.

(** [d.get(k, default)] *)
Definition dict_get_default {A} (k : string) (default : A) (d : dict A) : A :=
  match dict_get k d with Some v => v | None => default end.

(** [dict(pairs)]: a later pair with a key already seen replaces its value. *)
Definition dict_of_pairs {A} (pairs : list (string * A)) : dict A :=
  fold_left (fun d kv => dict_set (fst kv) (snd kv) d) pairs [].

(** *** set of str

    A set is represented by its elements in the order they were first added.
    The order in which Python iterates it depends on the hashes of the
    elements, which vary from one process to the next; the iteration order
    is therefore a parameter of the operations that use it ([set_order]
    below in [DeviceMapper]). *)

Definition pyset : Type := list string.

Definition set_add (x : string) (s : pyset) : pyset :=
  if existsb (String.eqb x) s then s else (s ++ [x])%list.

(** *** str *)

(** [needle in haystack] for two strings. *)
Fixpoint str_contains (needle haystack : string) : bool :=
  prefix needle haystack
  || match haystack with
     | EmptyString => false
     | String _ rest => str_contains needle rest
     end.

(** The characters [str.strip()] removes, among code points below 256. *)
Definition is_space (c : ascii) : bool :=
  let n := nat_of_ascii c in
  ((9 <=? n)%nat && (n <=? 13)%nat) || ((28 <=? n)%nat && (n <=? 32)%nat)
  || (n =? 133)%nat || (n =? 160)%nat.

Fixpoint lstrip (s : string) : string :=
  match s with
  | String c rest => if is_space c then lstrip rest else s
  | EmptyString => EmptyString
  end.

Fixpoint rstrip (s : string) : string :=
  match s with
  | EmptyString => EmptyString
  | String c rest =>
      match rstrip rest with
      | EmptyString => if is_space c then EmptyString else String c EmptyString
      | rest' => String c rest'
      end
  end.

Definition strip (s : string) : string := rstrip (lstrip s).

(** [s.split('.')[-1]]: what follows the last dot, the whole of [s] when it
    has none. *)
Fixpoint last_dot_field (s : string) : string :=
  match s with
  | EmptyString => EmptyString
  | String c rest =>
      if str_contains "." rest then last_dot_field rest
      else if (c =? ".")%char then rest
      else s
  end.

(** [str(n)] for an int. *)
Definition str_of_int (n : Z) : string := NilZero.string_of_int (Z.to_int n).

(** *** Subscripts, membership and [len] on a value, with a [str] key *)

(** [v[k]] *)
Definition getitem (v : value) (k : string) : result value :=
  match v with
  | VDict kvs =>
      match dict_get k kvs with
      | Some x => Ok x
      | None => Raise KeyError
      end
  | _ => Raise TypeError
  end.

(** [v[k] = x] *)
Definition setitem (v : value) (k : string) (x : value) : result value :=
  match v with
  | VDict kvs => Ok (VDict (dict_set k x kvs))
  | _ => Raise TypeError
  end.

Definition is_str (s : string) (v : value) : bool :=
  match v with
  | VStr s' => (s' =? s)%string
  | _ => false
  end.

(** [k in v] *)
Definition contains (v : value) (k : string) : result bool :=
  match v with
  | VDict kvs => Ok (dict_mem k kvs)
  | VList xs => Ok (existsb (is_str k) xs)
  | VStr s => Ok (str_contains k s)
  | _ => Raise TypeError
  end.

(** [len(v)] *)
Definition len (v : value) : result Z :=
  match v with
  | VDict kvs => Ok (Z.of_nat (List.length kvs))
  | VList xs => Ok (Z.of_nat (List.length xs))
  | VStr s => Ok (Z.of_nat (String.length s))
  | _ => Raise TypeError
  end.

(** [v.get(k, default)]: only a dict has the method. *)
Definition get_method (v : value) (k : string) (default : value) : result value :=
  match v with
  | VDict kvs => Ok (dict_get_default k default kvs)
  | _ => Raise AttributeError
  end.

(** [v[:n]]: the first [n] items of a list, the first [n] characters of a
    str; nothing else can be sliced (a dict raises too: TypeError up to
    Python 3.11, where a slice is not hashable). *)
Fixpoint str_take (n : nat) (s : string) : string :=
  match n, s with
  | S n', String c rest => String c (str_take n' rest)
  | _, _ => EmptyString
  end.

Definition slice_to (n : nat) (v : value) : result value :=
  match v with
  | VList xs => Ok (VList (firstn n xs))
  | VStr s => Ok (VStr (str_take n s))
  | _ => Raise TypeError
  end.

End Py.
Import Py.

(* ===================================================================== *)
(** ** The [json] module: [json.loads] and [json.dump(..., indent=2)] *)
(* ===================================================================== *)

Module Json.

Definition dquote : ascii := "034"%char.
Definition backslash : ascii := "092"%char.
Definition newline : ascii := "010"%char.

Fixpoint str_drop (n : nat) (s : string) : string :=
  match n, s with
  | S n', String _ rest => str_drop n' rest
  | _, _ => s
  end.

(** [s] starts with [word]: what follows it. *)
Definition literal (word s : string) : option string :=
  if prefix word s then Some (str_drop (String.length word) s) else None.

(** *** Decoding *)

(** The decoder's whitespace: space, tab, line feed, carriage return. *)
Definition is_ws (c : ascii) : bool :=
  (c =? " ")%char || (c =? "009")%char || (c =? "010")%char || (c =? "013")%char.

Fixpoint skip_ws (s : string) : string :=
  match s with
  | String c rest => if is_ws c then skip_ws rest else s
  | EmptyString => EmptyString
  end.

Definition digit_of_char (c : ascii) : option (uint -> uint) :=
  if (c =? "0")%char then Some D0 else if (c =? "1")%char then Some D1
  else if (c =? "2")%char then Some D2 else if (c =? "3")%char then Some D3
  else if (c =? "4")%char then Some D4 else if (c =? "5")%char then Some D5
  else if (c =? "6")%char then Some D6 else if (c =? "7")%char then Some D7
  else if (c =? "8")%char then Some D8 else if (c =? "9")%char then Some D9
  else None.

(** The longest run of decimal digits [s] starts with, and what follows. *)
Fixpoint scan_digits (s : string) : uint * string :=
  match s with
  | String c rest =>
      match digit_of_char c with
      | Some d => let (u, r) := scan_digits rest in (d u, r)
      | None => (Nil, s)
      end
  | EmptyString => (Nil, s)
  end.

(** [0|[1-9]\d*] *)
Definition scan_integer (s : string) : option (uint * string) :=
  match s with
  | String c rest =>
      if (c =? "0")%char then Some (D0 Nil, rest)
      else match scan_digits s with
           | (Nil, _) => None
           | (u, r) => Some (u, r)
           end
  | EmptyString => None
  end.

(** [(\.\d+)?]: the text matched (empty when the group is absent). *)
Definition scan_frac (s : string) : string * string :=
  match s with
  | String c rest =>
      if (c =? ".")%char then
        match scan_digits rest with
        | (Nil, _) => (EmptyString, s)
        | (u, r) => (String "." (NilEmpty.string_of_uint u), r)
        end
      else (EmptyString, s)
  | EmptyString => (EmptyString, s)
  end.

(** [([eE][-+]?\d+)?] *)
Definition scan_exp (s : string) : string * string :=
  match s with
  | String c rest =>
      if (c =? "e")%char || (c =? "E")%char then
        let (sign, rest') :=
          match rest with
          | String c' r' =>
              if (c' =? "-")%char || (c' =? "+")%char
              then (String c' EmptyString, r') else (EmptyString, rest)
          | EmptyString => (EmptyString, rest)
          end in
        match scan_digits rest' with
        | (Nil, _) => (EmptyString, s)
        | (u, r) => (String c (sign ++ NilEmpty.string_of_uint u), r)
        end
      else (EmptyString, s)
  | EmptyString => (EmptyString, s)
  end.

(** NUMBER_RE: an int when neither fraction nor exponent is present. *)
Definition match_number (s : string) : option (value * string) :=
  let (negative, s1) :=
    match s with
    | String c rest => if (c =? "-")%char then (true, rest) else (false, s)
    | EmptyString => (false, s)
    end in
  match scan_integer s1 with
  | None => None
  | Some (u, s2) =>
      let (frac, s3) := scan_frac s2 in
      let (exp, s4) := scan_exp s3 in
      match frac, exp with
      | EmptyString, EmptyString =>
          Some (VInt (Z.of_int (if negative then Neg u else Pos u)), s4)
      | _, _ =>
          Some (VFloat ((if negative then "-" else "")
                        ++ NilEmpty.string_of_uint u ++ frac ++ exp), s4)
      end
  end.

Definition hex_value (c : ascii) : option nat :=
  let n := nat_of_ascii c in
  if ((48 <=? n) && (n <=? 57))%nat then Some (n - 48)
  else if ((65 <=? n) && (n <=? 70))%nat then Some (n - 55)
  else if ((97 <=? n) && (n <=? 102))%nat then Some (n - 87)
  else None.

Definition hex4 (a b c d : ascii) : option nat :=
  match hex_value a, hex_value b, hex_value c, hex_value d with
  | Some x, Some y, Some z, Some w => Some (((x * 16 + y) * 16 + z) * 16 + w)
  | _, _, _, _ => None
  end.

(** The character a one-letter escape stands for. *)
Definition unescape (e : ascii) : option ascii :=
  if (e =? dquote)%char then Some dquote
  else if (e =? backslash)%char then Some backslash
  else if (e =? "/")%char then Some "/"%char
  else if (e =? "b")%char then Some "008"%char
  else if (e =? "f")%char then Some "012"%char
  else if (e =? "n")%char then Some "010"%char
  else if (e =? "r")%char then Some "013"%char
  else if (e =? "t")%char then Some "009"%char
  else None.

Definition push (c : ascii) (r : option (string * string)) : option (string * string) :=
  match r with
  | Some (str, rest) => Some (String c str, rest)
  | None => None
  end.

(** [scanstring], strict: [s] starts after the opening quote.  An escape
    [\uXXXX] of a code point above 255 is outside the model and is refused. *)
Fixpoint scanstring (s : string) : option (string * string) :=
  match s with
  | EmptyString => None
  | String c rest =>
      if (c =? dquote)%char then Some (EmptyString, rest)
      else if (c =? backslash)%char then
        match rest with
        | EmptyString => None
        | String e rest1 =>
            if (e =? "u")%char then
              match rest1 with
              | String h1 (String h2 (String h3 (String h4 rest2))) =>
                  match hex4 h1 h2 h3 h4 with
                  | Some n =>
                      if (n <? 256)%nat then push (ascii_of_nat n) (scanstring rest2)
                      else None
                  | None => None
                  end
              | _ => None
              end
            else
              match unescape e with
              | Some ch => push ch (scanstring rest1)
              | None => None
              end
        end
      else if (nat_of_ascii c <? 32)%nat then None
      else push c (scanstring rest)
  end.

(** What a scanner returns: the thing read and the text after it. *)
Definition scanned (A : Type) : Type := option (A * string).

(** [scan_once] at one character of [s]; [object] reads the pairs of an
    object and [array] the items of an array. *)
Definition scan_once_step
    (object : string -> scanned (list (string * value)))
    (array : string -> scanned (list value))
    (s : string) : scanned value :=
  match s with
  | EmptyString => None
  | String c rest =>
      if (c =? dquote)%char then
        match scanstring rest with
        | Some (str, r) => Some (VStr str, r)
        | None => None
        end
      else if (c =? "{")%char then
        match skip_ws rest with
        | String c1 r1 =>
            if (c1 =? "}")%char then Some (VDict [], r1)
            else if (c1 =? dquote)%char then
              match object r1 with
              | Some (pairs, r) => Some (VDict (dict_of_pairs pairs), r)
              | None => None
              end
            else None
        | EmptyString => None
        end
      else if (c =? "[")%char then
        match skip_ws rest with
        | String c1 r1 =>
            if (c1 =? "]")%char then Some (VList [], r1)
            else
              match array (String c1 r1) with
              | Some (items, r) => Some (VList items, r)
              | None => None
              end
        | EmptyString => None
        end
      else
        match literal "null" s with
        | Some r => Some (VNone, r)
        | None =>
        match literal "true" s with
        | Some r => Some (VBool true, r)
        | None =>
        match literal "false" s with
        | Some r => Some (VBool false, r)
        | None =>
        match match_number s with
        | Some res => Some res
        | None =>
        match literal "NaN" s with
        | Some r => Some (VFloat "NaN", r)
        | None =>
        match literal "Infinity" s with
        | Some r => Some (VFloat "Infinity", r)
        | None =>
        match literal "-Infinity" s with
        | Some r => Some (VFloat "-Infinity", r)
        | None => None
        end end end end end end end
  end.

(** One turn of the loop of [JSONObject]: a key, a colon, a value, and then
    the closing brace or a comma and the [next] pairs.  [s] starts after the
    opening quote of the key. *)
Definition object_pairs_step
    (scan : string -> scanned value)
    (next : string -> scanned (list (string * value)))
    (s : string) : scanned (list (string * value)) :=
  match scanstring s with
  | None => None
  | Some (key, s1) =>
      match skip_ws s1 with
      | String c2 s2 =>
          if (c2 =? ":")%char then
            match scan (skip_ws s2) with
            | None => None
            | Some (v, s3) =>
                match skip_ws s3 with
                | String c4 s4 =>
                    if (c4 =? "}")%char then Some ([(key, v)], s4)
                    else if (c4 =? ",")%char then
                      match skip_ws s4 with
                      | String c5 s5 =>
                          if (c5 =? dquote)%char then
                            match next s5 with
                            | Some (pairs, r) => Some ((key, v) :: pairs, r)
                            | None => None
                            end
                          else None
                      | EmptyString => None
                      end
                    else None
                | EmptyString => None
                end
            end
          else None
      | EmptyString => None
      end
  end.

(** One turn of the loop of [JSONArray]: a value, and then the closing
    bracket or a comma and the [next] items.  [s] starts at the value. *)
Definition array_items_step
    (scan : string -> scanned value)
    (next : string -> scanned (list value))
    (s : string) : scanned (list value) :=
  match scan s with
  | None => None
  | Some (v, s1) =>
      match skip_ws s1 with
      | String c2 s2 =>
          if (c2 =? "]")%char then Some ([v], s2)
          else if (c2 =? ",")%char then
            match next (skip_ws s2) with
            | Some (items, r) => Some (v :: items, r)
            | None => None
            end
          else None
      | EmptyString => None
      end
  end.

(** The scanner.  Python recurses on the nesting of the text; here [fuel]
    bounds the recursion, and the length of the text is always enough of it
    ([scan_once_enough_fuel] below). *)
Fixpoint scan_once (fuel : nat) (s : string) : scanned value :=
  match fuel with
  | O => None
  | S fuel' => scan_once_step (object_pairs fuel') (array_items fuel') s
  end

with object_pairs (fuel : nat) (s : string) : scanned (list (string * value)) :=
  match fuel with
  | O => None
  | S fuel' => object_pairs_step (scan_once fuel') (object_pairs fuel') s
  end

with array_items (fuel : nat) (s : string) : scanned (list value) :=
  match fuel with
  | O => None
  | S fuel' => array_items_step (scan_once fuel') (array_items fuel') s
  end.

(** [json.loads(s)]: one value, whitespace around it, nothing after. *)
Definition loads (s : string) : result value :=
  let s0 := skip_ws s in
  match scan_once (S (String.length s0)) s0 with
  | Some (v, r) =>
      match skip_ws r with
      | EmptyString => Ok v
      | String _ _ => Raise JSONDecodeError
      end
  | None => Raise JSONDecodeError
  end.

(** *** Encoding *)

Definition hex_digit (n : nat) : ascii :=
  if (n <? 10)%nat then ascii_of_nat (48 + n) else ascii_of_nat (87 + n).

(** [encode_basestring_ascii] on one character: everything outside
    [' '..'~'] is escaped, as are the quote and the backslash. *)
Definition escape_char (c : ascii) : string :=
  let n := nat_of_ascii c in
  if (c =? dquote)%char then String backslash (String dquote EmptyString)
  else if (c =? backslash)%char then String backslash (String backslash EmptyString)
  else if (n =? 10)%nat then String backslash "n"
  else if (n =? 13)%nat then String backslash "r"
  else if (n =? 9)%nat then String backslash "t"
  else if (n =? 8)%nat then String backslash "b"
  else if (n =? 12)%nat then String backslash "f"
  else if ((n <? 32) || (126 <? n))%nat then
    String backslash
      (String "u" (String "0" (String "0"
         (String (hex_digit (n / 16)) (String (hex_digit (n mod 16)) EmptyString)))))
  else String c EmptyString.

Fixpoint escape (s : string) : string :=
  match s with
  | EmptyString => EmptyString
  | String c rest => escape_char c ++ escape rest
  end.

Definition encode_str (s : string) : string :=
  String dquote (escape s ++ String dquote EmptyString).

Fixpoint spaces (n : nat) : string :=
  match n with
  | O => EmptyString
  | S n' => String " " (spaces n')
  end.

(** ['\n' + ' ' * (indent * level)] with [indent = 2] *)
Definition newline_indent (level : nat) : string :=
  String newline (spaces (2 * level)).

(** The text [json.dump(v, f, indent=2)] writes for [v] nested [level] deep. *)
Fixpoint encode (level : nat) (v : value) : string :=
  match v with
  | VNone => "null"
  | VBool true => "true"
  | VBool false => "false"
  | VInt n => str_of_int n
  | VFloat lit => lit
  | VStr s => encode_str s
  | VList [] => "[]"
  | VList (x :: xs) =>
      "[" ++ newline_indent (S level) ++ encode (S level) x
      ++ (fix items (l : list value) : string :=
            match l with
            | [] => EmptyString
            | y :: l' =>
                "," ++ newline_indent (S level) ++ encode (S level) y ++ items l'
            end) xs
      ++ newline_indent level ++ "]"
  | VDict [] => "{}"
  | VDict ((k, x) :: kvs) =>
      "{" ++ newline_indent (S level) ++ encode_str k ++ ": " ++ encode (S level) x
      ++ (fix pairs (l : list (string * value)) : string :=
            match l with
            | [] => EmptyString
            | (k', y) :: l' =>
                "," ++ newline_indent (S level) ++ encode_str k' ++ ": "
                ++ encode (S level) y ++ pairs l'
            end) kvs
      ++ newline_indent level ++ "}"
  end.

Definition dumps (v : value) : string := encode 0 v.

(** *** The values the round trip is stated for

    A Python dict has no key twice, which the association list must be told;
    and a float is left out, since [json.dump] writes [repr] of the number
    and not the literal it was read from. *)
Fixpoint distinct_keys (keys : list string) : bool :=
  match keys with
  | [] => true
  | k :: rest => negb (existsb (String.eqb k) rest) && distinct_keys rest
  end.

Fixpoint serializable (v : value) : bool :=
  match v with
  | VFloat _ => false
  | VList xs =>
      (fix all (l : list value) : bool :=
         match l with
         | [] => true
         | x :: l' => serializable x && all l'
         end) xs
  | VDict kvs =>
      distinct_keys (map fst kvs)
      && (fix all (l : list (string * value)) : bool :=
            match l with
            | [] => true
            | (_, x) :: l' => serializable x && all l'
            end) kvs
  | _ => true
  end.

End Json.

(* ===================================================================== *)
(** ** The query pattern of both programs *)
(* ===================================================================== *)

Module Re.

(** The longest prefix of [s] whose characters satisfy [p], and the rest. *)
Fixpoint span (p : ascii -> bool) (s : string) : string * string :=
  match s with
  | String c rest =>
      if p c then let (a, r) := span p rest in (String c a, r)
      else (EmptyString, s)
  | EmptyString => (EmptyString, EmptyString)
  end.

(** [class+], greedy *)
Definition plus (p : ascii -> bool) (s : string) : option (string * string) :=
  match span p s with
  | (EmptyString, _) => None
  | (a, r) => Some (a, r)
  end.

(** [\d] *)
Definition is_digit (c : ascii) : bool :=
  let n := nat_of_ascii c in ((48 <=? n) && (n <=? 57))%nat.

(** [\w]: letters, digits and numeric signs below 256, and the underscore. *)
Definition is_word (c : ascii) : bool :=
  let n := nat_of_ascii c in
  (((48 <=? n) && (n <=? 57)) || ((65 <=? n) && (n <=? 90)) || (n =? 95)
   || ((97 <=? n) && (n <=? 122))
   || (n =? 170) || (n =? 178) || (n =? 179) || (n =? 181) || (n =? 185)
   || (n =? 186) || ((188 <=? n) && (n <=? 190))
   || ((192 <=? n) && (n <=? 214)) || ((216 <=? n) && (n <=? 246))
   || (248 <=? n))%nat.

(** [[^)]] *)
Definition not_rparen (c : ascii) : bool := negb (c =? ")")%char.

(** [.] *)
Definition not_newline (c : ascii) : bool := negb (c =? "010")%char.

(** Every character of [s] is in the class [p]. *)
Fixpoint all_chars (p : ascii -> bool) (s : string) : bool :=
  match s with
  | EmptyString => true
  | String c rest => p c && all_chars p rest
  end.

(** A run of characters of the class [p] cannot go on into [s]. *)
Definition stops (p : ascii -> bool) (s : string) : bool :=
  match s with
  | EmptyString => true
  | String c _ => negb (p c)
  end.

Record query_match : Type := {
  client_ip : string;
  resolver_info : string;
  query_type : string;
  domain : string
}.

Definition bind {A B} (x : option A) (f : A -> option B) : option B :=
  match x with Some a => f a | None => None end.

(** The pattern
    [(\d+\.\d+\.\d+\.\d+):\d+ \(([^)]+)\) -> listener\.\d+: (\w+) (.+)]
    anchored at the start of [s].  Each repetition is followed by a character
    outside its class, so the greedy choice is the only one that can match. *)
Definition match_here (s : string) : option query_match :=
  bind (plus is_digit s) (fun '(a, s) =>
  bind (Json.literal "." s) (fun s =>
  bind (plus is_digit s) (fun '(b, s) =>
  bind (Json.literal "." s) (fun s =>
  bind (plus is_digit s) (fun '(c, s) =>
  bind (Json.literal "." s) (fun s =>
  bind (plus is_digit s) (fun '(d, s) =>
  bind (Json.literal ":" s) (fun s =>
  bind (plus is_digit s) (fun '(_, s) =>
  bind (Json.literal " (" s) (fun s =>
  bind (plus not_rparen s) (fun '(info, s) =>
  bind (Json.literal ") -> listener." s) (fun s =>
  bind (plus is_digit s) (fun '(_, s) =>
  bind (Json.literal ": " s) (fun s =>
  bind (plus is_word s) (fun '(qtype, s) =>
  bind (Json.literal " " s) (fun s =>
  bind (plus not_newline s) (fun '(dom, _) =>
  Some {| client_ip := a ++ "." ++ b ++ "." ++ c ++ "." ++ d;
          resolver_info := info;
          query_type := qtype;
          domain := dom |}))))))))))))))))).

(** [re.search]: the match at the leftmost position that has one. *)
Fixpoint search (s : string) : option query_match :=
  match match_here s with
  | Some m => Some m
  | None =>
      match s with
      | String _ rest => search rest
      | EmptyString => None
      end
  end.

End Re.

(* ===================================================================== *)
(** ** device-mapper.py: class DeviceMapper *)
(* ===================================================================== *)

Module DeviceMapper.

(** *** The clock *)

Record datetime : Set := {
  year : nat; month : nat; day : nat;
  hour : nat; minute : nat; second : nat
}.

Fixpoint zeros (n : nat) : string :=
  match n with
  | O => EmptyString
  | S n' => String "0" (zeros n')
  end.

(** A number in decimal, padded with zeros on the left to [width] digits. *)
Definition zero_pad (width n : nat) : string :=
  let s := NilZero.string_of_uint (Nat.to_uint n) in
  zeros (width - String.length s) ++ s.

(** [strftime("%Y-%m-%d")] *)
Definition strftime_date (t : datetime) : string :=
  zero_pad 4 (year t) ++ "-" ++ zero_pad 2 (month t) ++ "-" ++ zero_pad 2 (day t).

(** [strftime("%Y-%m-%d %H:%M:%S")] *)
Definition strftime_seconds (t : datetime) : string :=
  strftime_date t ++ " " ++ zero_pad 2 (hour t) ++ ":" ++ zero_pad 2 (minute t)
  ++ ":" ++ zero_pad 2 (second t).

(** *** The file system *)

Definition filesystem : Type := string -> option string.

(** What a write does to the files, one step at a time. *)
Inductive fs_effect : Set :=
| Truncate (path : string)                 (* open(path, 'w') *)
| Append (path : string) (text : string).  (* f.write(text) *)

Definition apply_effect (fs : filesystem) (e : fs_effect) : filesystem :=
  match e with
  | Truncate path =>
      fun p => if (p =? path)%string then Some EmptyString else fs p
  | Append path text =>
      fun p => if (p =? path)%string
               then Some (match fs p with Some old => old ++ text | None => text end)
               else fs p
  end.

Definition run_effects (fs : filesystem) (es : list fs_effect) : filesystem :=
  fold_left apply_effect es fs.

(** *** The state the methods work on

    [data] is [self.data]; [files] and [read_only] are the file system (a
    path in [read_only] cannot be opened for writing); [clock_reads] counts
    the calls of [datetime.now()] made so far. *)
Record world : Type := {
  data : value;
  files : filesystem;
  read_only : string -> bool;
  clock_reads : nat
}.

Definition M (A : Type) : Type := world -> result A * world.

Definition ret {A} (a : A) : M A := fun w => (Ok a, w).

Definition bind {A B} (m : M A) (f : A -> M B) : M B :=
  fun w =>
    match m w with
    | (Ok a, w') => f a w'
    | (Raise e, w') => (Raise e, w')
    end.

Definition lift {A} (r : result A) : M A := fun w => (r, w).

Notation "x <- m ;; k" := (bind m (fun x => k))
  (at level 61, m at next level, right associativity).
Notation "m ;; k" := (bind m (fun _ => k))
  (at level 61, right associativity).

Definition get_data : M value := fun w => (Ok (data w), w).

Definition with_data (w : world) (v : value) : world :=
  {| data := v; files := files w; read_only := read_only w;
     clock_reads := clock_reads w |}.

Definition with_files (w : world) (fs : filesystem) : world :=
  {| data := data w; files := fs; read_only := read_only w;
     clock_reads := clock_reads w |}.

Definition tick (w : world) : world :=
  {| data := data w; files := files w; read_only := read_only w;
     clock_reads := S (clock_reads w) |}.

Definition put_data (v : value) : M unit := fun w => (Ok tt, with_data w v).

(** [self.data[k1][k2] = x].  The inner dict is changed in place, so
    [self.data] holds the changed dict afterwards. *)
Definition setitem2 (k1 k2 : string) (x : value) : M unit :=
  d <- get_data ;;
  inner <- lift (getitem d k1) ;;
  inner' <- lift (setitem inner k2 x) ;;
  d' <- lift (setitem d k1 inner') ;;
  put_data d'.

(** [self.data[k1][k2][k3] = x] *)
Definition setitem3 (k1 k2 k3 : string) (x : value) : M unit :=
  d <- get_data ;;
  mid <- lift (getitem d k1) ;;
  inner <- lift (getitem mid k2) ;;
  inner' <- lift (setitem inner k3 x) ;;
  mid' <- lift (setitem mid k2 inner') ;;
  d' <- lift (setitem d k1 mid') ;;
  put_data d'.

(** [d.items()] *)
Definition items_method (v : value) : result (list (string * value)) :=
  match v with
  | VDict kvs => Ok kvs
  | _ => Raise AttributeError
  end.

(** [sorted(d.items())]: the keys of a dict are distinct, so the pairs are
    ordered by their keys, compared as strings. *)
Fixpoint insert_sorted (kv : string * value) (l : list (string * value))
  : list (string * value) :=
  match l with
  | [] => [kv]
  | kv' :: l' =>
      if (fst kv <=? fst kv')%string then kv :: l else kv' :: insert_sorted kv l'
  end.

Definition sorted_items (l : list (string * value)) : list (string * value) :=
  fold_right insert_sorted [] l.

(** The lines of a text file, each ended by a line feed when the file has
    one there (['\r'] and ['\r\n'] are read as ['\n']). *)
Fixpoint readlines (s : string) : list string :=
  match s with
  | EmptyString => []
  | String c rest =>
      if (c =? "010")%char then String "010" EmptyString :: readlines rest
      else if (c =? "013")%char then
        match rest with
        | String c' rest' =>
            if (c' =? "010")%char then String "010" EmptyString :: readlines rest'
            else String "010" EmptyString :: readlines rest
        | EmptyString => [String "010" EmptyString]
        end
      else
        match readlines rest with
        | [] => [String c EmptyString]
        | l :: ls => String c l :: ls
        end
  end.

(** What one pass over a log gathers: [device_activity] (a
    [defaultdict(int)]) and [device_domains] (a [defaultdict(set)]). *)
Record activity : Type := {
  device_activity : dict Z;
  device_domains : dict pyset
}.

Definition no_activity : activity :=
  {| device_activity := []; device_domains := [] |}.

(** [device_activity[ip] += 1; device_domains[ip].add(domain)] *)
Definition record_query (ip dom : string) (acc : activity) : activity :=
  {| device_activity :=
       dict_set ip (dict_get_default ip 0%Z (device_activity acc) + 1)%Z
                (device_activity acc);
     device_domains :=
       dict_set ip (set_add dom (dict_get_default ip [] (device_domains acc)))
                (device_domains acc) |}.

(** The body of the loop over the lines of the log (lines 104-117). *)
Definition scan_line (line : string) (acc : activity) : result activity :=
  match Json.loads (strip line) with
  | Raise JSONDecodeError => Ok acc
  | Raise e => Raise e
  | Ok log_entry =>
      match get_method log_entry "message" (VStr "") with
      | Raise e => Raise e
      | Ok msg =>
          match contains msg "QUERY" with
          | Raise e => Raise e
          | Ok false => Ok acc
          | Ok true =>
              match getitem log_entry "message" with
              | Raise e => Raise e
              | Ok (VStr message) =>
                  match Re.search message with
                  | Some m => Ok (record_query (Re.client_ip m) (Re.domain m) acc)
                  | None => Ok acc
                  end
              | Ok _ => Raise TypeError
              end
          end
      end
  end.

Fixpoint scan_lines (lines : list string) (acc : activity) : result activity :=
  match lines with
  | [] => Ok acc
  | line :: rest =>
      match scan_line line acc with
      | Ok acc' => scan_lines rest acc'
      | Raise e => Raise e
      end
  end.

Section Methods.

(** [self.device_map_file] *)
Variable device_map_file : string.

(** [datetime.now()] at its first, second, ... call. *)
Variable now : nat -> datetime.

(** [list(s)] for a set [s]: the order is the interpreter's. *)
Variable set_order : pyset -> list string.

Definition read_clock : M datetime :=
  fun w => (Ok (now (clock_reads w)), tick w).

Definition _create_empty_map : M value :=
  t <- read_clock ;;
  ret (VDict
         [("metadata",
           VDict [("last_updated", VStr (strftime_date t));
                  ("network_range", VStr "192.168.1.0/24");
                  ("total_devices", VInt 0);
                  ("source", VStr "Control D DNS log analysis")]);
          ("devices", VDict []);
          ("network_insights",
           VDict [("device_types", VDict []);
                  ("top_services", VDict []);
                  ("activity_patterns", VDict [])])]).

Definition _load_device_map : M value :=
  fun w =>
    match files w device_map_file with
    | None => _create_empty_map w                 (* FileNotFoundError *)
    | Some text =>
        match Json.loads text with
        | Ok v => (Ok v, w)
        | Raise JSONDecodeError => _create_empty_map w
        | Raise e => (Raise e, w)
        end
    end.

(** [__init__] *)
Definition init : M unit :=
  v <- _load_device_map ;;
  put_data v.

(** The writes of [json.dump(self.data, f, indent=2)] under
    [open(self.device_map_file, 'w')]. *)
Definition save_effects (d : value) : list fs_effect :=
  [Truncate device_map_file; Append device_map_file (Json.dumps d)].

(** [save_device_map], stopped after the first [steps] effects of its write
    when [steps] is given: what is on disk if the process dies there. *)
Definition save_upto (steps : option nat) : M bool :=
  t <- read_clock ;;
  setitem2 "metadata" "last_updated" (VStr (strftime_date t)) ;;
  d <- get_data ;;
  devices <- lift (getitem d "devices") ;;
  n <- lift (len devices) ;;
  setitem2 "metadata" "total_devices" (VInt n) ;;
  fun w =>
    if read_only w device_map_file then (Ok false, w)   (* except Exception *)
    else
      let es := save_effects (data w) in
      let done := match steps with Some k => firstn k es | None => es end in
      (Ok true, with_files w (run_effects (files w) done)).

Definition save_device_map : M bool := save_upto None.

Definition add_device (ip name device_type category description : string) : M unit :=
  t <- read_clock ;;
  setitem2 "devices" ip
    (VDict [("name", VStr name);
            ("type", VStr device_type);
            ("category", VStr category);
            ("description", VStr description);
            ("added", VStr (strftime_seconds t))]).

(** [ip in self.data["devices"]] *)
Definition is_registered (ip : string) : M bool :=
  d <- get_data ;;
  devices <- lift (getitem d "devices") ;;
  lift (contains devices ip).

(** [list(device_domains[ip])[:5]] *)
Definition top_domains (ip : string) (domains : dict pyset) : value :=
  VList (map VStr (firstn 5 (set_order (dict_get_default ip [] domains)))).

(** The body of the loop over [device_activity.items()] (lines 121-134). *)
Definition reconcile_one (ip : string) (count : Z) (domains : dict pyset) : M unit :=
  known <- is_registered ip ;;
  if known then
    setitem3 "devices" ip "query_count" (VInt count) ;;
    setitem3 "devices" ip "common_domains" (top_domains ip domains)
  else
    add_device ip ("Auto-detected-" ++ last_dot_field ip) "Unknown" "Unknown"
      ("Auto-detected from DNS logs with " ++ str_of_int count ++ " queries") ;;
    setitem3 "devices" ip "query_count" (VInt count) ;;
    setitem3 "devices" ip "common_domains" (top_domains ip domains).

Fixpoint reconcile_items (items : list (string * Z)) (domains : dict pyset) : M unit :=
  match items with
  | [] => ret tt
  | (ip, count) :: rest =>
      reconcile_one ip count domains ;;
      reconcile_items rest domains
  end.

(** Lines 119-134: the registry brought up to date with one run. *)
Definition reconcile (acc : activity) : M unit :=
  reconcile_items (device_activity acc) (device_domains acc).

Definition analyze_dns_log (log_file : string) : M bool :=
  fun w =>
    match files w log_file with
    | None => (Ok false, w)                          (* FileNotFoundError *)
    | Some text =>
        match scan_lines (readlines text) no_activity with
        | Raise _ => (Ok false, w)                   (* except Exception *)
        | Ok acc =>
            match reconcile acc w with
            | (Ok _, w') => (Ok true, w')
            | (Raise _, w') => (Ok false, w')        (* except Exception *)
            end
        end
    end.

(** One entry of the routing table (lines 151-159). *)
Definition routing_entry (ip : string) (info : value) : result value :=
  match get_method info "name" (VStr "Unknown") with
  | Raise e => Raise e
  | Ok name =>
  match get_method info "type" (VStr "Unknown") with
  | Raise e => Raise e
  | Ok type =>
  match get_method info "category" (VStr "Unknown") with
  | Raise e => Raise e
  | Ok category =>
  match get_method info "query_count" (VInt 0) with
  | Raise e => Raise e
  | Ok activity =>
  match get_method info "common_domains" (VList []) with
  | Raise e => Raise e
  | Ok common =>
  match slice_to 3 common with
  | Raise e => Raise e
  | Ok top =>
  match get_method info "added" (VStr "Unknown") with
  | Raise e => Raise e
  | Ok added =>
      Ok (VDict [("ip", VStr ip); ("name", name); ("type", type);
                 ("category", category); ("activity", activity);
                 ("top_domains", top); ("last_seen", added)])
  end end end end end end end.

Fixpoint routing_entries (items : list (string * value)) : result (list value) :=
  match items with
  | [] => Ok []
  | (ip, info) :: rest =>
      match routing_entry ip info with
      | Raise e => Raise e
      | Ok entry =>
          match routing_entries rest with
          | Raise e => Raise e
          | Ok entries => Ok (entry :: entries)
          end
      end
  end.

Definition generate_routing_table : M (list value) :=
  d <- get_data ;;
  devices <- lift (getitem d "devices") ;;
  items <- lift (items_method devices) ;;
  lift (routing_entries (sorted_items items)).

End Methods.

End DeviceMapper.

(* ===================================================================== *)
(** ** dns-traffic-analyzer.py: class DNSTrafficAnalyzer *)
(* ===================================================================== *)

Module DNSTrafficAnalyzer.

(** The attributes [parse_log_line] updates: [queries] (a list),
    [client_stats] (a [defaultdict(list)]), [domain_stats] and [query_types]
    (two [Counter]s). *)
Record analyzer : Type := {
  queries : list value;
  client_stats : dict (list value);
  domain_stats : dict Z;
  query_types : dict Z
}.

Definition new_analyzer : analyzer :=
  {| queries := []; client_stats := []; domain_stats := []; query_types := [] |}.

Definition count_up (k : string) (c : dict Z) : dict Z :=
  dict_set k (dict_get_default k 0%Z c + 1)%Z c.

(** Lines 36-47: the query is built and counted. *)
Definition record (query_info : value) (m : Re.query_match) (self : analyzer) : analyzer :=
  {| queries := (queries self ++ [query_info])%list;
     client_stats :=
       dict_set (Re.client_ip m)
         (dict_get_default (Re.client_ip m) [] (client_stats self) ++ [query_info])%list
         (client_stats self);
     domain_stats := count_up (Re.domain m) (domain_stats self);
     query_types := count_up (Re.query_type m) (query_types self) |}.

(** [parse_log_line]: the query found ([None] when there is none) or the
    exception that leaves the method, and the analyzer afterwards. *)
Definition parse_log_line (line : string) (self : analyzer)
  : result (option value) * analyzer :=
  match Json.loads (strip line) with
  | Raise JSONDecodeError => (Ok None, self)       (* except: pass *)
  | Raise e => (Raise e, self)
  | Ok log_entry =>
      match get_method log_entry "message" (VStr "") with
      | Raise e => (Raise e, self)
      | Ok msg =>
          match contains msg "QUERY" with
          | Raise e => (Raise e, self)
          | Ok false => (Ok None, self)
          | Ok true =>
              match getitem log_entry "message" with
              | Raise e => (Raise e, self)
              | Ok (VStr message) =>
                  match Re.search message with
                  | None => (Ok None, self)
                  | Some m =>
                      match get_method log_entry "time" (VStr "") with
                      | Raise e => (Raise e, self)
                      | Ok timestamp =>
                          match get_method log_entry "level" (VStr "info") with
                          | Raise e => (Raise e, self)
                          | Ok level =>
                              let query_info :=
                                VDict [("timestamp", timestamp);
                                       ("client_ip", VStr (Re.client_ip m));
                                       ("query_type", VStr (Re.query_type m));
                                       ("domain", VStr (Re.domain m));
                                       ("level", level)] in
                              (Ok (Some query_info), record query_info m self)
                          end
                      end
                  end
              | Ok _ => (Raise TypeError, self)
              end
          end
      end
  end.

(** The loop of [analyze_log_file] over the lines: nothing catches what
    [parse_log_line] raises. *)
Fixpoint parse_lines (lines : list string) (self : analyzer) : result unit * analyzer :=
  match lines with
  | [] => (Ok tt, self)
  | line :: rest =>
      match parse_log_line line self with
      | (Ok _, self') => parse_lines rest self'
      | (Raise e, self') => (Raise e, self')
      end
  end.

Definition analyze_log_file (files : DeviceMapper.filesystem) (log_file : string)
    (self : analyzer) : result bool * analyzer :=
  match files log_file with
  | None => (Ok false, self)                       (* FileNotFoundError *)
  | Some text =>
      match parse_lines (DeviceMapper.readlines text) self with
      | (Ok _, self') => (Ok true, self')
      | (Raise e, self') => (Raise e, self')
      end
  end.

End DNSTrafficAnalyzer.

(* ===================================================================== *)
(** ** device-mapper.py: lookup, listing, export and the command line *)
(* ===================================================================== *)

Module Commands.

Import DeviceMapper.

(** *** [get_device_info] *)

(** The dict built for an IP the registry does not hold (lines 74-79). *)
Definition unknown_device (ip : string) : value :=
  VDict [("name", VStr ("Unknown-" ++ last_dot_field ip));
         ("type", VStr "Unknown");
         ("category", VStr "Unknown");
         ("description", VStr "Unidentified network device")].

Definition get_device_info (ip : string) : M value :=
  d <- get_data ;;
  devices <- lift (getitem d "devices") ;;
  lift (get_method devices ip (unknown_device ip)).

(** *** [list_devices]

    The method does nothing but print: its outcome is the strings it gave to
    [print], one per call and in order, and how it ended. *)

(** [c * n] for a str of one character. *)
Fixpoint repeat_char (c : ascii) (n : nat) : string :=
  match n with
  | O => EmptyString
  | S n' => String c (repeat_char c n')
  end.

(** [f"{s:<width}"] for a str: spaces are added on the right up to [width];
    a longer str is left whole. *)
Definition pad_right (width : nat) (s : string) : string :=
  s ++ Json.spaces (width - String.length s).

(** [info.get(field, 'Unknown')[:n]] *)
Definition column (info : value) (field : string) (n : nat) : result value :=
  match get_method info field (VStr "Unknown") with
  | Raise e => Raise e
  | Ok v => slice_to n v
  end.

(** [f"{v:<width}"] for what a slice gives: a str is padded, a list has no
    such format. *)
Definition format_left (width : nat) (v : value) : result string :=
  match v with
  | VStr s => Ok (pad_right width s)
  | _ => Raise TypeError
  end.

(** The line printed for one device (lines 89-92). *)
Definition device_row (ip : string) (info : value) : result string :=
  match column info "name" 24 with
  | Raise e => Raise e
  | Ok name =>
  match column info "type" 14 with
  | Raise e => Raise e
  | Ok device_type =>
  match column info "category" 14 with
  | Raise e => Raise e
  | Ok category =>
  match format_left 25 name with
  | Raise e => Raise e
  | Ok name_text =>
  match format_left 15 device_type with
  | Raise e => Raise e
  | Ok type_text =>
  match format_left 15 category with
  | Raise e => Raise e
  | Ok category_text =>
      Ok (pad_right 15 ip ++ " " ++ name_text ++ " " ++ type_text ++ " "
          ++ category_text)
  end end end end end end.

(** The loop over the devices: the lines printed, and whether the loop ran
    to its end. *)
Fixpoint device_rows (items : list (string * value)) : list string * result unit :=
  match items with
  | [] => ([], Ok tt)
  | (ip, info) :: rest =>
      match device_row ip info with
      | Raise e => ([], Raise e)
      | Ok line =>
          let (lines, r) := device_rows rest in
          (line :: lines, r)
      end
  end.

(** Lines 83-86. *)
Definition listing_header : list string :=
  [String Json.newline "Device Routing Table:";
   repeat_char "=" 80;
   pad_right 15 "IP Address" ++ " " ++ pad_right 25 "Name" ++ " "
   ++ pad_right 15 "Type" ++ " " ++ pad_right 15 "Category";
   repeat_char "-" 80].

(** Line 94. *)
Definition total_line (n : Z) : string :=
  String Json.newline ("Total devices: " ++ str_of_int n).

Definition list_devices (w : world) : list string * result unit :=
  match getitem (data w) "devices" with
  | Raise e => (listing_header, Raise e)
  | Ok devices =>
      match items_method devices with
      | Raise e => (listing_header, Raise e)
      | Ok items =>
          match device_rows (sorted_items items) with
          | (rows, Raise e) => ((listing_header ++ rows)%list, Raise e)
          | (rows, Ok _) =>
              match len devices with
              | Raise e => ((listing_header ++ rows)%list, Raise e)
              | Ok n => ((listing_header ++ rows ++ [total_line n])%list, Ok tt)
              end
          end
      end
  end.

Section Run.

(** [datetime.now().isoformat()] at the first, second, ... reading of the
    clock. *)
Variable isoformat_now : nat -> string.

(** [export_routing_table].  The file is opened, and so emptied, before the
    dict to be written is built; an exception raised while it is built is
    caught like one of the write. *)
Definition export_routing_table (output_file : string) : M bool :=
  routing_table <- generate_routing_table ;;
  fun w =>
    if read_only w output_file then (Ok false, w)          (* except Exception *)
    else
      let w1 := with_files w (apply_effect (files w) (Truncate output_file)) in
      let generated := isoformat_now (clock_reads w1) in
      let w2 := tick w1 in
      match getitem (data w2) "metadata" with
      | Raise _ => (Ok false, w2)                          (* except Exception *)
      | Ok metadata =>
          match getitem metadata "network_range" with
          | Raise _ => (Ok false, w2)                      (* except Exception *)
          | Ok network_range =>
              let report :=
                VDict [("generated", VStr generated);
                       ("total_devices", VInt (Z.of_nat (List.length routing_table)));
                       ("network_range", network_range);
                       ("routing_table", VList routing_table)] in
              (Ok true,
               with_files w2
                 (apply_effect (files w2) (Append output_file (Json.dumps report))))
          end
      end.

(** *** [main]

    What [argparse] hands over: [--list] (a flag), [--add] (five strs, or
    None), [--analyze] and [--export] (a str, or None) and [--device-map]
    (a str, device-map.json unless given). *)
Record args : Type := {
  arg_list : bool;
  arg_add : option (string * string * string * string * string);
  arg_analyze : option string;
  arg_export : option string;
  arg_device_map : string
}.

(** An argument that is a str or None, as a condition: the str when it is
    not empty. *)
Definition given (a : option string) : option string :=
  match a with
  | Some (String c s) => Some (String c s)
  | _ => None
  end.

Variable now : nat -> datetime.
Variable set_order : pyset -> list string.

(** [main], but for what it prints. *)
Definition main (a : args) : M unit :=
  init (arg_device_map a) now ;;
  if arg_list a then
    fun w => (snd (list_devices w), w)
  else
    match arg_add a with
    | Some (ip, name, device_type, category, description) =>
        add_device now ip name device_type category description ;;
        save_device_map (arg_device_map a) now ;;
        ret tt
    | None =>
        match given (arg_analyze a) with
        | Some log_file =>
            ok <- analyze_dns_log now set_order log_file ;;
            if ok then save_device_map (arg_device_map a) now ;; ret tt
            else ret tt
        | None =>
            match given (arg_export a) with
            | Some output_file => export_routing_table output_file ;; ret tt
            | None => ret tt
            end
        end
    end.

End Run.

End Commands.

(* ===================================================================== *)
(** ** dns-traffic-analyzer.py: the rankings of the report *)
(* ===================================================================== *)

Module TrafficReport.

Import DNSTrafficAnalyzer.

(** [sorted(items, key=lambda x: x[1], reverse=True)]: by count, the largest
    first.  The sort is stable, also when reversed: items of equal count
    keep the order they had. *)
Fixpoint insert_by_count (kv : string * Z) (l : list (string * Z))
  : list (string * Z) :=
  match l with
  | [] => [kv]
  | kv' :: l' =>
      if (snd kv' <=? snd kv)%Z then kv :: l else kv' :: insert_by_count kv l'
  end.

Definition sorted_by_count (items : list (string * Z)) : list (string * Z) :=
  fold_right insert_by_count [] items.

(** [Counter.most_common(n)]; [most_common()] when [n] is [None]. *)
Definition most_common (n : option nat) (c : dict Z) : list (string * Z) :=
  match n with
  | None => sorted_by_count c
  | Some k => firstn k (sorted_by_count c)
  end.

(** Line 83: [{ip: len(queries) for ip, queries in self.client_stats.items()}] *)
Definition client_counts (self : analyzer) : dict Z :=
  map (fun kv => (fst kv, Z.of_nat (List.length (snd kv)))) (client_stats self).

(** Line 84: the clients the report lists. *)
Definition top_clients (self : analyzer) : list (string * Z) :=
  firstn 10 (sorted_by_count (client_counts self)).

(** Line 90: the domains the report lists. *)
Definition top_domains_queried (self : analyzer) : list (string * Z) :=
  most_common (Some 20) (domain_stats self).

(** Line 96: [sum(self.query_types.values())] *)
Definition total_queries (self : analyzer) : Z :=
  fold_right Z.add 0%Z (map snd (query_types self)).

(** Line 97: the query types the report lists. *)
Definition query_type_distribution (self : analyzer) : list (string * Z) :=
  most_common None (query_types self).

End TrafficReport.

(* ===================================================================== *)
(** ** Reading the registry: the vocabulary of the statements *)
(* ===================================================================== *)

Module Registry.

Import DeviceMapper.

(** [d["devices"][ip]] *)
Definition device (ip : string) (d : value) : result value :=
  match getitem d "devices" with
  | Ok devices => getitem devices ip
  | Raise e => Raise e
  end.

(** [d["devices"][ip][field]] *)
Definition device_field (ip field : string) (d : value) : result value :=
  match device ip d with
  | Ok info => getitem info field
  | Raise e => Raise e
  end.

(** [d["metadata"][field]] *)
Definition metadata_field (field : string) (d : value) : result value :=
  match getitem d "metadata" with
  | Ok meta => getitem meta field
  | Raise e => Raise e
  end.

Definition is_dict (v : value) : bool :=
  match v with
  | VDict _ => true
  | _ => false
  end.

(** A registry whose ["devices"] is a dict of dicts: every record can be
    updated. *)
Definition registry_ok (d : value) : bool :=
  match getitem d "devices" with
  | Ok (VDict devices) => forallb (fun kv => is_dict (snd kv)) devices
  | _ => false
  end.

(** The record of a device the run has just discovered, before its
    activity is filled in (lines 126-132, through [add_device]). *)
Definition discovered (ip : string) (count : Z) (t : datetime) : dict value :=
  [("name", VStr ("Auto-detected-" ++ last_dot_field ip));
   ("type", VStr "Unknown");
   ("category", VStr "Unknown");
   ("description",
    VStr ("Auto-detected from DNS logs with " ++ str_of_int count ++ " queries"));
   ("added", VStr (strftime_seconds t))].

(** A record with the activity of the run written into it. *)
Definition observed (count : Z) (domains : value) (info : dict value) : dict value :=
  dict_set "common_domains" domains (dict_set "query_count" (VInt count) info).

(** [self.data] with the record of [ip] replaced by [info]. *)
Definition with_device (ip : string) (info : dict value) (devices top : dict value)
  : value :=
  VDict (dict_set "devices" (VDict (dict_set ip (VDict info) devices)) top).

(** [self.data] as [save_device_map] leaves it: the date and the number of
    devices written into the metadata, everything else as it was. *)
Definition stamped (date : string) (n : Z) (meta top : dict value) : value :=
  VDict (dict_set "metadata"
           (VDict (dict_set "total_devices" (VInt n)
                     (dict_set "last_updated" (VStr date) meta)))
           top).

(** A record the routing table can be built from: a dict whose
    common_domains, when it has the field, is a list. *)
Definition device_ok (info : value) (fields : dict value) (common : list value) : Prop :=
  info = VDict fields
  /\ dict_get_default "common_domains" (VList []) fields = VList common.

(** The routing-table entry of a device: a field the record lacks is
    reported as Unknown (name, type, category, last_seen), 0 (activity) or
    the empty list (top_domains). *)
Definition routing_row (ip : string) (fields : dict value) (common : list value) : value :=
  VDict [("ip", VStr ip);
         ("name", dict_get_default "name" (VStr "Unknown") fields);
         ("type", dict_get_default "type" (VStr "Unknown") fields);
         ("category", dict_get_default "category" (VStr "Unknown") fields);
         ("activity", dict_get_default "query_count" (VInt 0) fields);
         ("top_domains", VList (firstn 3 common));
         ("last_seen", dict_get_default "added" (VStr "Unknown") fields)].

(** Ascending order of the keys, compared as strings. *)
Definition key_le (a b : string * value) : Prop := (fst a <=? fst b)%string = true.

(** What a pass over a log gathers is well formed: the keys of
    [device_activity] are distinct and no set holds an element twice. *)
Definition activity_ok (acc : activity) : Prop :=
  NoDup (dict_keys (device_activity acc))
  /\ Forall (fun kv => NoDup (snd kv)) (device_domains acc).

(** An order in which a set may be iterated: each element once. *)
Definition iteration_order (set_order : pyset -> list string) : Prop :=
  forall s, NoDup s -> Permutation (set_order s) s.

(** A non-empty run of characters of the class [p]. *)
Definition run (p : ascii -> bool) (s : string) : Prop :=
  s <> EmptyString /\ Re.all_chars p s = true.

(** The text of a query as the resolver logs it:
    [<client_ip>:<port> (<resolver_info>) -> listener.<n>: <query_type> <domain>]
    with the client IP [a.b.c.d]. *)
Definition query_text (a b c d port info n qtype dom : string) : string :=
  a ++ "." ++ b ++ "." ++ c ++ "." ++ d ++ ":" ++ port ++ " (" ++ info
  ++ ") -> listener." ++ n ++ ": " ++ qtype ++ " " ++ dom.

(** The record of [ip] holds the activity of the run. *)
Definition settled (ip : string) (count : Z) (domains : value) (d : value) : Prop :=
  exists info,
    device ip d = Ok (VDict info)
    /\ dict_get "query_count" info = Some (VInt count)
    /\ dict_get "common_domains" info = Some domains.

End Registry.
Import Registry.

(* ===================================================================== *)
(** ** The text of a value: the vocabulary of the codec proofs *)
(* ===================================================================== *)

Module Text.

Import Json.

(** What may follow a value in the output of the encoder: nothing, a comma
    or a line feed. *)
Definition delimited (rest : string) : bool :=
  match rest with
  | EmptyString => true
  | String c _ => (c =? ",")%char || (c =? newline)%char
  end.

(** The text of an int starts with a digit or a minus sign. *)
Definition starts_number (s : string) : bool :=
  match s with
  | String c _ =>
      match digit_of_char c with
      | Some _ => true
      | None => (c =? "-")%char
      end
  | EmptyString => false
  end.

Definition items_text (level : nat) (xs : list value) : string :=
  (fix items (l : list value) : string :=
     match l with
     | [] => EmptyString
     | y :: l' => "," ++ newline_indent level ++ encode level y ++ items l'
     end) xs.

Definition pairs_text (level : nat) (kvs : list (string * value)) : string :=
  (fix pairs (l : list (string * value)) : string :=
     match l with
     | [] => EmptyString
     | (k', y) :: l' =>
         "," ++ newline_indent level ++ encode_str k' ++ ": "
         ++ encode level y ++ pairs l'
     end) kvs.

(** The first character of a value as the encoder writes it: not
    whitespace, and not a closing bracket. *)
Definition value_head (s : string) : bool :=
  match s with
  | String c _ => negb (is_ws c) && negb (c =? "]")%char
  | EmptyString => false
  end.

(** The fuel the decoder needs to read a value back. *)
Fixpoint cost (v : value) : nat :=
  match v with
  | VList xs =>
      S ((fix go (l : list value) : nat :=
            match l with
            | [] => 0
            | x :: l' => S (cost x + go l')
            end) xs)
  | VDict kvs =>
      S ((fix go (l : list (string * value)) : nat :=
            match l with
            | [] => 0
            | (_, x) :: l' => S (cost x + go l')
            end) kvs)
  | _ => 1
  end.

Definition cost_items (xs : list value) : nat :=
  (fix go (l : list value) : nat :=
     match l with
     | [] => 0
     | x :: l' => S (cost x + go l')
     end) xs.

Definition cost_pairs (kvs : list (string * value)) : nat :=
  (fix go (l : list (string * value)) : nat :=
     match l with
     | [] => 0
     | (_, x) :: l' => S (cost x + go l')
     end) kvs.

Definition all_serializable (xs : list value) : bool :=
  (fix all (l : list value) : bool :=
     match l with
     | [] => true
     | x :: l' => serializable x && all l'
     end) xs.

Definition all_values_serializable (kvs : list (string * value)) : bool :=
  (fix all (l : list (string * value)) : bool :=
     match l with
     | [] => true
     | (_, x) :: l' => serializable x && all l'
     end) kvs.

(** What the induction proves of a value: its text, followed by anything
    that may follow a value, is read back as the value. *)
Definition reads_back (v : value) : Prop :=
  serializable v = true ->
  forall level rest fuel,
    delimited rest = true ->
    cost v <= fuel ->
    scan_once fuel (encode level v ++ rest) = Some (v, rest).

(** A scanner that reads at least one character. *)
Definition shrinking {A} (g : string -> scanned A) : Prop :=
  forall x a r, g x = Some (a, r) -> String.length r < String.length x.

(** [g'] gives what [g] gives wherever [g] reads at most [n] characters. *)
Definition covers {A} (n : nat) (g g' : string -> scanned A) : Prop :=
  forall x a r,
    g x = Some (a, r) -> String.length x - String.length r <= n -> g' x = Some (a, r).

Section ValueInduction.

Variable P : value -> Prop.
Hypothesis HNone : P VNone.
Hypothesis HBool : forall b, P (VBool b).
Hypothesis HInt : forall n, P (VInt n).
Hypothesis HFloat : forall lit, P (VFloat lit).
Hypothesis HStr : forall s, P (VStr s).
Hypothesis HList : forall xs, Forall P xs -> P (VList xs).
Hypothesis HDict : forall kvs, Forall (fun kv => P (snd kv)) kvs -> P (VDict kvs).

(** Induction on a value, with the hypothesis for every item of a list and
    every value of a dict. *)
Fixpoint value_nested_ind (v : value) : P v :=
  match v with
  | VNone => HNone
  | VBool b => HBool b
  | VInt n => HInt n
  | VFloat lit => HFloat lit
  | VStr s => HStr s
  | VList xs =>
      HList xs
        ((fix all (l : list value) : Forall P l :=
            match l with
            | [] => Forall_nil P
            | x :: l' => Forall_cons x (value_nested_ind x) (all l')
            end) xs)
  | VDict kvs =>
      HDict kvs
        ((fix all (l : list (string * value)) : Forall (fun kv => P (snd kv)) l :=
            match l with
            | [] => Forall_nil _
            | (k, x) :: l' =>
                Forall_cons (P := fun kv => P (snd kv)) (k, x)
                  (value_nested_ind x) (all l')
            end) kvs)
  end.

End ValueInduction.

End Text.
Import Text.

(* ===================================================================== *)
(** ** Reading the analyzer and the listings: more vocabulary *)
(* ===================================================================== *)

Module Tables.

Import DNSTrafficAnalyzer.

(** The query [q] holds the str [s] in [field]. *)
Definition field_is (field s : string) (q : value) : bool :=
  match getitem q field with
  | Ok v => is_str s v
  | Raise _ => false
  end.

(** How many of the queries hold [s] in [field]. *)
Definition count_where (field s : string) (qs : list value) : Z :=
  Z.of_nat (List.length (filter (field_is field s) qs)).

(** The three tables of an analyzer say what its list of queries says:
    [client_stats] holds, per client, the queries of that client in the
    order of the list; the two counters hold, per domain and per query
    type, the number of queries. *)
Definition tables_consistent (self : analyzer) : Prop :=
  (forall ip,
      dict_get_default ip [] (client_stats self)
      = filter (field_is "client_ip" ip) (queries self))
  /\ (forall dom,
        dict_get_default dom 0%Z (domain_stats self)
        = count_where "domain" dom (queries self))
  /\ (forall qtype,
        dict_get_default qtype 0%Z (query_types self)
        = count_where "query_type" qtype (queries self)).

(** The domains of a list of queries, each once, in the order in which they
    are first asked for. *)
Definition domains_of (qs : list value) : pyset :=
  fold_left (fun s q =>
               match getitem q "domain" with
               | Ok (VStr dom) => set_add dom s
               | _ => s
               end) qs [].

(** Descending order of the counts. *)
Definition count_ge (a b : string * Z) : Prop := (snd b <= snd a)%Z.

Definition has_count (n : Z) (kv : string * Z) : bool := (snd kv =? n)%Z.

(** [ranked] is the ranking of [items] cut after [n] places: the whole
    ranking [ranked ++ rest] holds the items, each once, by descending
    count, and items of equal count in the order they have in [items]. *)
Definition ranking_of (n : nat) (items ranked : list (string * Z)) : Prop :=
  List.length ranked = Nat.min n (List.length items)
  /\ exists rest,
       Permutation (ranked ++ rest) items
       /\ StronglySorted count_ge (ranked ++ rest)
       /\ forall c, filter (has_count c) (ranked ++ rest) = filter (has_count c) items.

(** The dict [parse_log_line] builds for a query (lines 36-42). *)
Definition built_query (m : Re.query_match) (timestamp level : value) : value :=
  VDict [("timestamp", timestamp);
         ("client_ip", VStr (Re.client_ip m));
         ("query_type", VStr (Re.query_type m));
         ("domain", VStr (Re.domain m));
         ("level", level)].

(** The sum of the counts of a counter. *)
Definition sum_counts (c : dict Z) : Z := fold_right Z.add 0%Z (map snd c).

(** A counter as counting leaves it: no key twice, every count at least
    one. *)
Definition counter_ok (c : dict Z) : Prop :=
  NoDup (dict_keys c) /\ Forall (fun kv => (1 <= snd kv)%Z) c.

(** The tables of an analyzer are well formed: no client twice and none
    without a query, both counters as counting leaves them, and as many
    counts as queries. *)
Definition tables_ok (self : analyzer) : Prop :=
  NoDup (dict_keys (client_stats self))
  /\ Forall (fun kv => snd kv <> []) (client_stats self)
  /\ counter_ok (domain_stats self)
  /\ counter_ok (query_types self)
  /\ sum_counts (domain_stats self) = Z.of_nat (List.length (queries self))
  /\ sum_counts (query_types self) = Z.of_nat (List.length (queries self)).

(** What the mapper has gathered is what the analyzer has, counted. *)
Definition gathered_alike (acc : DeviceMapper.activity) (self : analyzer) : Prop :=
  DeviceMapper.device_activity acc
  = map (fun kv => (fst kv, Z.of_nat (List.length (snd kv)))) (client_stats self)
  /\ DeviceMapper.device_domains acc
     = map (fun kv => (fst kv, domains_of (snd kv))) (client_stats self).

End Tables.
Import Tables.

Module Runs.

Import DeviceMapper Commands.

(** The record [add_device] stores. *)
Definition added_record (name device_type category description stamp : string)
  : dict value :=
  [("name", VStr name); ("type", VStr device_type); ("category", VStr category);
   ("description", VStr description); ("added", VStr stamp)].

(** The one file a run of [main] may write: none for [--list] and for the
    usage text, the registry file for [--add] and [--analyze], the output
    file for [--export]; the first of the commands given decides. *)
Definition target (a : args) : option string :=
  if arg_list a then None
  else
    match arg_add a with
    | Some _ => Some (arg_device_map a)
    | None =>
        match given (arg_analyze a) with
        | Some _ => Some (arg_device_map a)
        | None => given (arg_export a)
        end
    end.

(** A str field of a record as the listing shows it: the default when the
    record lacks the field, nothing when the field is not a str. *)
Definition shown (field : string) (fields : dict value) : option string :=
  match dict_get_default field (VStr "Unknown") fields with
  | VStr s => Some s
  | _ => None
  end.

(** A record the listing can show. *)
Definition listable (info : value) (fields : dict value)
    (name device_type category : string) : Prop :=
  info = VDict fields
  /\ shown "name" fields = Some name
  /\ shown "type" fields = Some device_type
  /\ shown "category" fields = Some category.

(** The line of a device in the listing: four columns, the name cut to 24
    characters, the type and the category to 14. *)
Definition listing_row (ip name device_type category : string) : string :=
  pad_right 15 ip ++ " " ++ pad_right 25 (str_take 24 name) ++ " "
  ++ pad_right 15 (str_take 14 device_type) ++ " "
  ++ pad_right 15 (str_take 14 category).

(** What [export_routing_table] writes. *)
Definition exported (generated : string) (network_range : value) (rows : list value)
  : value :=
  VDict [("generated", VStr generated);
         ("total_devices", VInt (Z.of_nat (List.length rows)));
         ("network_range", network_range);
         ("routing_table", VList rows)].

(** No IP is there twice among the devices of the registry. *)
Definition distinct_devices (d : value) : Prop :=
  forall devices, getitem d "devices" = Ok (VDict devices) -> NoDup (dict_keys devices).

End Runs.
Import Runs.

(* ===================================================================== *)
(** ** Sample worlds *)
(* ===================================================================== *)

Module Samples.

Import DeviceMapper.

(** A clock that advances one second per reading. *)
Definition clock (n : nat) : datetime :=
  {| year := 2024; month := 3; day := 7; hour := 9; minute := 5; second := n |}.

(** Iteration orders of a set: first added first, and last added first. *)
Definition insertion_order (s : pyset) : list string := s.
Definition reverse_order (s : pyset) : list string := List.rev s.

Definition quoted (s : string) : string :=
  String Json.dquote (s ++ String Json.dquote EmptyString).

(** A log record with the given message, on a line of its own. *)
Definition log_line (message : string) : string :=
  "{" ++ quoted "message" ++ ": " ++ quoted message ++ "}"
  ++ String Json.newline EmptyString.

Definition query_line (ip dom : string) : string :=
  log_line ("QUERY " ++ ip ++ ":5353 (udp) -> listener.0: A " ++ dom).

Definition no_files : filesystem := fun _ => None.

Definition one_file (path text : string) : filesystem :=
  fun p => if (p =? path)%string then Some text else None.

Definition world_of (d : value) (fs : filesystem) : world :=
  {| data := d; files := fs; read_only := fun _ => false; clock_reads := 0 |}.

(** The registry [__init__] builds when there is no registry file. *)
Definition fresh_world (fs : filesystem) : world :=
  snd (init "device-map.json" clock (world_of VNone fs)).

Definition tv : value :=
  VDict [("name", VStr "Smart TV"); ("type", VStr "Entertainment");
         ("category", VStr "Media"); ("description", VStr "Living room TV");
         ("added", VStr "2023-12-24 18:00:00");
         ("query_count", VInt 40);
         ("common_domains", VList [VStr "a.tv"; VStr "b.tv"; VStr "c.tv"; VStr "d.tv"])].

Definition printer : value :=
  VDict [("name", VStr "Printer"); ("type", VStr "Office");
         ("category", VStr "Work"); ("description", VStr "");
         ("added", VStr "2023-11-02 08:30:00")].

Definition registry_of (devices : dict value) : value :=
  VDict [("metadata",
          VDict [("last_updated", VStr "2023-12-24");
                 ("network_range", VStr "192.168.1.0/24");
                 ("total_devices", VInt 0);
                 ("source", VStr "Control D DNS log analysis")]);
         ("devices", VDict devices);
         ("network_insights",
          VDict [("device_types", VDict []);
                 ("top_services", VDict []);
                 ("activity_patterns", VDict [])])].

(** A log of three queries, one each from 10.0.0.1, 10.0.0.2 and 10.0.0.3,
    and a registry in which the record of 10.0.0.2 is a string. *)
Definition three_clients_log : string :=
  query_line "10.0.0.1" "x.com" ++ query_line "10.0.0.2" "y.com"
  ++ query_line "10.0.0.3" "z.com".

(** One client asking for x.com and then for y.com, with a line that is not
    JSON in between. *)
Definition two_queries_log : string :=
  query_line "192.168.1.10" "x.com" ++ "not a record" ++ String Json.newline EmptyString
  ++ query_line "192.168.1.10" "y.com".

(** Three devices; as strings, 10.0.0.10 comes before 10.0.0.9. *)
Definition three_devices : dict value :=
  [("192.168.1.50", tv); ("10.0.0.9", printer); ("10.0.0.10", printer)].

(** A line that holds the JSON number 42, then a query from 10.0.0.5. *)
Definition number_then_query_log : string :=
  "42" ++ String Json.newline EmptyString ++ query_line "10.0.0.5" "x.com".

(** A world started from a registry file that holds one device. *)
Definition tv_registry_text : string :=
  Json.dumps (registry_of [("192.168.1.50", tv)]).

Definition tv_world : world :=
  snd (init "device-map.json" clock
         (world_of VNone (one_file "device-map.json" tv_registry_text))).

Definition damaged_world : world :=
  world_of
    (registry_of [("10.0.0.1", printer); ("10.0.0.2", VStr "damaged"); ("10.0.0.3", tv)])
    (one_file "ctrld.log" three_clients_log).

End Samples.

(* ===================================================================== *)
(** ** Sample runs *)
(* ===================================================================== *)

Module Scenarios.

Import DeviceMapper Commands.

Definition two_files (path1 text1 path2 text2 : string) : filesystem :=
  fun p =>
    if (p =? path1)%string then Some text1
    else if (p =? path2)%string then Some text2
    else None.

(** A disk with the registry of one device and a log of two queries. *)
Definition tv_disk : filesystem :=
  two_files "device-map.json" Samples.tv_registry_text
            "ctrld.log" Samples.two_queries_log.

(** A disk whose registry file holds a string where the record of 10.0.0.2
    should be, and a log with a query of each of three clients. *)
Definition damaged_registry : value :=
  Samples.registry_of
    [("10.0.0.1", Samples.printer); ("10.0.0.2", VStr "damaged");
     ("10.0.0.3", Samples.tv)].

Definition damaged_disk : filesystem :=
  two_files "device-map.json" (Json.dumps damaged_registry)
            "ctrld.log" Samples.three_clients_log.

(** A process as it starts: nothing loaded yet. *)
Definition start (fs : filesystem) : world := Samples.world_of VNone fs.

(** A registry whose metadata does not name the network range, and an
    output file left by an earlier export. *)
Definition no_range_world : world :=
  Samples.world_of
    (VDict [("metadata", VDict [("source", VStr "by hand")]);
            ("devices", VDict [("192.168.1.50", Samples.tv)])])
    (Samples.one_file "device-routing-table.json" "an earlier table").

(** A registry file written by hand: devices, and no metadata. *)
Definition bare_disk : filesystem :=
  Samples.one_file "device-map.json"
    (Json.dumps (VDict [("devices", VDict [("192.168.1.50", Samples.tv)])])).

Definition isoformat_clock (n : nat) : string := "2024-03-07T09:05:00.250000".

Definition no_command : args :=
  {| arg_list := false; arg_add := None; arg_analyze := None; arg_export := None;
     arg_device_map := "device-map.json" |}.

(** [--add 192.168.1.60 Printer Office Work 'Laser printer'] *)
Definition add_printer : args :=
  {| arg_list := false;
     arg_add := Some ("192.168.1.60", "Printer", "Office", "Work", "Laser printer");
     arg_analyze := None; arg_export := None;
     arg_device_map := "device-map.json" |}.

(** [--analyze ctrld.log] *)
Definition analyze_log : args :=
  {| arg_list := false; arg_add := None; arg_analyze := Some "ctrld.log";
     arg_export := None; arg_device_map := "device-map.json" |}.

End Scenarios.

(* ===================================================================== *)
(** ** The built-ins on a few inputs *)
(* ===================================================================== *)

Example last_dot_field_of_ip : last_dot_field "10.0.0.5" = "5".
Proof. reflexivity. Qed.

Example last_dot_field_without_dot : last_dot_field "localhost" = "localhost".
Proof. reflexivity. Qed.

Example str_of_int_negative : str_of_int (-42) = "-42".
Proof. reflexivity. Qed.

Example strip_line : strip "  a b
" = "a b".
Proof. reflexivity. Qed.

Example loads_number : Json.loads "42" = Ok (VInt 42).
Proof. reflexivity. Qed.

Example loads_leading_zero : Json.loads "042" = Raise JSONDecodeError.
Proof. reflexivity. Qed.

Example loads_array : Json.loads " [1, -2.5e3, true, null, [ ]] "
  = Ok (VList [VInt 1; VFloat "-2.5e3"; VBool true; VNone; VList []]).
Proof. reflexivity. Qed.

Example loads_trailing_comma : Json.loads "[1,]" = Raise JSONDecodeError.
Proof. reflexivity. Qed.

Example loads_log_record :
  Json.loads (strip (Samples.query_line "10.0.0.5" "x.com"))
  = Ok (VDict [("message", VStr "QUERY 10.0.0.5:5353 (udp) -> listener.0: A x.com")]).
Proof. reflexivity. Qed.

Example search_takes_leftmost_match :
  Re.search "QUERY 1.2.3.4.5.6.7.8:53 (x) -> listener.0: AAAA a.b c"
  = Some {| Re.client_ip := "5.6.7.8"; Re.resolver_info := "x";
            Re.query_type := "AAAA"; Re.domain := "a.b c" |}.
Proof. reflexivity. Qed.

Example readlines_of_two_lines :
  DeviceMapper.readlines "ab
cd" = ["ab
"; "cd"].
Proof. reflexivity. Qed.

(* ===================================================================== *)
(** ** Facts about dicts *)
(* ===================================================================== *)

Section DictFacts.

Context {A : Type}.
Implicit Types (d : dict A) (k : string) (v : A).

Lemma dict_get_set_eq k v d : dict_get k (dict_set k v d) = Some v.
Proof.
  induction d as [|[k' v'] d IH]; simpl.
  - now rewrite String.eqb_refl.
  - destruct (k' =? k)%string eqn:E; simpl.
    + now rewrite String.eqb_refl.
    + now rewrite E.
Qed.

Lemma dict_get_set_ne k k' v d :
  k <> k' -> dict_get k' (dict_set k v d) = dict_get k' d.
Proof.
  intros Hne. induction d as [|[k0 v0] d IH]; simpl.
  - destruct (k =? k')%string eqn:E; [apply String.eqb_eq in E; contradiction | reflexivity].
  - destruct (k0 =? k)%string eqn:E; simpl.
    + apply String.eqb_eq in E. subst k0.
      destruct (k =? k')%string eqn:E'; [apply String.eqb_eq in E'; contradiction | reflexivity].
    + destruct (k0 =? k')%string; [reflexivity | exact IH].
Qed.

Lemma dict_set_set_eq k v v' d :
  dict_set k v (dict_set k v' d) = dict_set k v d.
Proof.
  induction d as [|[k0 v0] d IH]; simpl.
  - now rewrite String.eqb_refl.
  - destruct (k0 =? k)%string eqn:E; simpl.
    + now rewrite String.eqb_refl.
    + now rewrite E, IH.
Qed.

Lemma dict_set_same k v d : dict_get k d = Some v -> dict_set k v d = d.
Proof.
  induction d as [|[k0 v0] d IH]; simpl; [discriminate|].
  destruct (k0 =? k)%string eqn:E.
  - intros [= ->]. apply String.eqb_eq in E. now subst.
  - intros H. now rewrite IH.
Qed.

Lemma dict_keys_set_present k v d :
  dict_get k d <> None -> dict_keys (dict_set k v d) = dict_keys d.
Proof.
  unfold dict_keys.
  induction d as [|[k0 v0] d IH]; simpl; [congruence|].
  destruct (k0 =? k)%string eqn:E; simpl.
  - intros _. apply String.eqb_eq in E. now subst.
  - intros H. now rewrite IH.
Qed.

Lemma dict_keys_set_absent k v d :
  dict_get k d = None -> dict_keys (dict_set k v d) = (dict_keys d ++ [k])%list.
Proof.
  unfold dict_keys.
  induction d as [|[k0 v0] d IH]; simpl; [reflexivity|].
  destruct (k0 =? k)%string eqn:E; [discriminate|].
  intros H. simpl. now rewrite IH.
Qed.

Lemma dict_get_In k v d : dict_get k d = Some v -> In (k, v) d.
Proof.
  induction d as [|[k0 v0] d IH]; simpl; [discriminate|].
  destruct (k0 =? k)%string eqn:E.
  - intros [= ->]. apply String.eqb_eq in E. subst. now left.
  - intros H. right. now apply IH.
Qed.

Lemma dict_get_None_keys k d : dict_get k d = None <-> ~ In k (dict_keys d).
Proof.
  unfold dict_keys.
  induction d as [|[k0 v0] d IH]; simpl.
  - tauto.
  - destruct (k0 =? k)%string eqn:E.
    + apply String.eqb_eq in E. subst. split; [discriminate | intros H; exfalso; apply H; now left].
    + apply String.eqb_neq in E. rewrite IH. tauto.
Qed.

Lemma In_dict_get k v d :
  NoDup (dict_keys d) -> In (k, v) d -> dict_get k d = Some v.
Proof.
  unfold dict_keys.
  induction d as [|[k0 v0] d IH]; simpl; [tauto|].
  intros Hnd [[= -> ->]|Hin].
  - now rewrite String.eqb_refl.
  - inversion Hnd as [|? ? Hnot Hnd']; subst.
    destruct (k0 =? k)%string eqn:E.
    + apply String.eqb_eq in E. subst. exfalso. apply Hnot.
      change (In (fst (k, v)) (map fst d)). now apply in_map.
    + now apply IH.
Qed.

End DictFacts.

Lemma distinct_NoDup (keys : list string) :
  Json.distinct_keys keys = true <-> NoDup keys.
Proof.
  induction keys as [|k rest IH]; simpl.
  - split; [constructor | reflexivity].
  - rewrite andb_true_iff, negb_true_iff, IH. split.
    + intros [Hn Hd]. constructor; [|assumption].
      intros Hin. assert (existsb (String.eqb k) rest = true) as E.
      { apply existsb_exists. exists k. split; [assumption | apply String.eqb_refl]. }
      congruence.
    + intros H. inversion H as [|? ? Hnot Hnd]; subst. split; [|assumption].
      destruct (existsb (String.eqb k) rest) eqn:E; [|reflexivity].
      apply existsb_exists in E. destruct E as [x [Hin Hx]].
      apply String.eqb_eq in Hx. subst. contradiction.
Qed.

Section ListFacts.

Lemma dict_set_keys_NoDup {A} (k : string) (v : A) (d : dict A) :
  NoDup (dict_keys d) -> NoDup (dict_keys (dict_set k v d)).
Proof.
  intros Hnd. destruct (dict_get k d) eqn:E.
  - rewrite dict_keys_set_present; [assumption | congruence].
  - rewrite dict_keys_set_absent by assumption.
    apply NoDup_rev in Hnd. rewrite <- (rev_involutive (dict_keys d ++ [k])).
    apply NoDup_rev. rewrite rev_app_distr. simpl. constructor; [|assumption].
    rewrite <- in_rev. now apply dict_get_None_keys.
Qed.

Lemma dict_set_Forall {A} (Q : A -> Prop) (k : string) (v : A) (d : dict A) :
  Forall (fun kv => Q (snd kv)) d -> Q v ->
  Forall (fun kv => Q (snd kv)) (dict_set k v d).
Proof.
  intros Hall Hv. induction d as [|[k' v'] d IH]; simpl.
  - constructor; [assumption | constructor].
  - inversion Hall as [|? ? Hhd Htl]; subst.
    destruct (k' =? k)%string; constructor; auto.
Qed.

Lemma dict_get_default_Forall {A} (Q : A -> Prop) (k : string) (default : A)
    (d : dict A) :
  Forall (fun kv => Q (snd kv)) d -> Q default -> Q (dict_get_default k default d).
Proof.
  intros Hall Hdef. unfold dict_get_default.
  destruct (dict_get k d) eqn:E; [|assumption].
  apply dict_get_In in E. rewrite Forall_forall in Hall. exact (Hall _ E).
Qed.

Lemma firstn_NoDup {A} (n : nat) (l : list A) : NoDup l -> NoDup (firstn n l).
Proof.
  intros Hnd. rewrite <- (firstn_skipn n l) in Hnd.
  exact (NoDup_app_remove_r _ _ Hnd).
Qed.

Lemma firstn_incl {A} (n : nat) (l : list A) : incl (firstn n l) l.
Proof.
  intros x Hin. rewrite <- (firstn_skipn n l). apply in_or_app. now left.
Qed.

Lemma dict_set_absent {A} (k : string) (v : A) (d : dict A) :
  ~ In k (dict_keys d) -> dict_set k v d = (d ++ [(k, v)])%list.
Proof.
  unfold dict_keys. induction d as [|[k' v'] d IH]; simpl; intros Hnot; [reflexivity|].
  destruct (k' =? k)%string eqn:E.
  - apply String.eqb_eq in E. tauto.
  - rewrite IH by tauto. reflexivity.
Qed.

Lemma dict_of_pairs_from {A} (pairs acc : list (string * A)) :
  NoDup (dict_keys acc ++ dict_keys pairs) ->
  fold_left (fun d kv => dict_set (fst kv) (snd kv) d) pairs acc = (acc ++ pairs)%list.
Proof.
  unfold dict_keys. revert acc.
  induction pairs as [|[k v] pairs IH]; intros acc Hnd; simpl.
  - now rewrite List.app_nil_r.
  - rewrite dict_set_absent.
    + rewrite IH.
      * now rewrite <- List.app_assoc.
      * rewrite List.map_app. simpl. now rewrite <- List.app_assoc.
    + simpl in Hnd. apply NoDup_remove_2 in Hnd. intros Hin. apply Hnd.
      apply in_or_app. now left.
Qed.

End ListFacts.

(* ===================================================================== *)
(** ** The JSON codec: what is written is read back *)
(* ===================================================================== *)

Section StringFacts.

Lemma append_assoc (a b c : string) : ((a ++ b) ++ c = a ++ (b ++ c))%string.
Proof. induction a as [|x a IH]; simpl; [reflexivity | now rewrite IH]. Qed.

Lemma append_nil_r (a : string) : (a ++ "")%string = a.
Proof. induction a as [|x a IH]; simpl; [reflexivity | now rewrite IH]. Qed.

Lemma length_append (a b : string) :
  String.length (a ++ b) = String.length a + String.length b.
Proof. induction a as [|x a IH]; simpl; [reflexivity | now rewrite IH]. Qed.

End StringFacts.

Section NumberFacts.

Import Json.

Lemma delimited_cases rest :
  delimited rest = true ->
  rest = EmptyString \/ (exists r, rest = String "," r) \/ (exists r, rest = String newline r).
Proof.
  destruct rest as [|c r]; simpl; [auto|].
  rewrite orb_true_iff. intros [E|E]; apply Ascii.eqb_eq in E; subst; eauto.
Qed.

Lemma scan_digits_uint (u : uint) (rest : string) :
  delimited rest = true ->
  scan_digits (NilEmpty.string_of_uint u ++ rest) = (u, rest).
Proof.
  intros Hrest.
  induction u; simpl; try (rewrite IHu; reflexivity).
  destruct (delimited_cases rest Hrest) as [->|[[r ->]|[r ->]]]; reflexivity.
Qed.

Lemma pos_to_uint_head (p : positive) :
  match Pos.to_uint p with
  | Nil | D0 _ => False
  | _ => True
  end.
Proof.
  pose proof (DecimalPos.Unsigned.to_of (Pos.to_uint p)) as H.
  rewrite DecimalPos.Unsigned.of_to in H. simpl in H.
  pose proof (DecimalPos.Unsigned.to_uint_nonzero p) as Hnz.
  pose proof (DecimalPos.Unsigned.to_uint_nonnil p) as Hnn.
  destruct (Pos.to_uint p) as [|u| | | | | | | | |] eqn:E; try exact I.
  - congruence.
  - (* a leading zero is removed by [unorm] *)
    unfold unorm in H. simpl in H.
    destruct (nzhead u) eqn:Hu; try congruence.
    + exfalso. apply (nzhead_nonzero u u0). congruence.
Qed.

Lemma scan_integer_uint (u : uint) (rest : string) :
  delimited rest = true ->
  match u with Nil | D0 _ => False | _ => True end ->
  scan_integer (NilEmpty.string_of_uint u ++ rest) = Some (u, rest).
Proof.
  intros Hrest Hhead. pose proof (scan_digits_uint u rest Hrest) as Hs.
  destruct u; try contradiction;
    unfold scan_integer; cbn [NilEmpty.string_of_uint append] in Hs |- *;
    rewrite Hs; reflexivity.
Qed.

Lemma scan_frac_delimited rest :
  delimited rest = true -> scan_frac rest = (EmptyString, rest).
Proof.
  intros H. destruct (delimited_cases rest H) as [->|[[r ->]|[r ->]]]; reflexivity.
Qed.

Lemma scan_exp_delimited rest :
  delimited rest = true -> scan_exp rest = (EmptyString, rest).
Proof.
  intros H. destruct (delimited_cases rest H) as [->|[[r ->]|[r ->]]]; reflexivity.
Qed.

Lemma string_of_uint_head (u : uint) (rest : string) :
  u <> Nil -> starts_number (NilEmpty.string_of_uint u ++ rest) = true.
Proof. destruct u; intros H; try reflexivity. congruence. Qed.

Lemma str_of_int_head (n : Z) (rest : string) :
  starts_number (str_of_int n ++ rest) = true.
Proof.
  unfold str_of_int. destruct n as [|p|p]; simpl; try reflexivity.
  unfold NilZero.string_of_uint.
  destruct (Pos.to_uint p); reflexivity.
Qed.

Lemma match_number_int (n : Z) (rest : string) :
  delimited rest = true ->
  match_number (str_of_int n ++ rest) = Some (VInt n, rest).
Proof.
  intros Hrest. unfold str_of_int, match_number.
  destruct n as [|p|p].
  - simpl. rewrite scan_frac_delimited, scan_exp_delimited by assumption. reflexivity.
  - pose proof (pos_to_uint_head p) as Hhead.
    pose proof (scan_integer_uint _ rest Hrest Hhead) as Hs.
    cbn [Z.to_int NilZero.string_of_int].
    assert (NilZero.string_of_uint (Pos.to_uint p)
            = NilEmpty.string_of_uint (Pos.to_uint p)) as ->.
    { destruct (Pos.to_uint p); try reflexivity. contradiction. }
    assert (exists c s, (NilEmpty.string_of_uint (Pos.to_uint p) ++ rest)%string = String c s
                        /\ (c =? "-")%char = false) as (c & s & Hcs & Hc).
    { destruct (Pos.to_uint p); try contradiction; simpl; eexists; eexists;
        split; reflexivity. }
    rewrite Hcs in *. rewrite Hc. rewrite Hs.
    rewrite scan_frac_delimited, scan_exp_delimited by assumption.
    change (Z.of_int (Pos (Pos.to_uint p))) with (Z.of_int (Z.to_int (Z.pos p))).
    now rewrite DecimalZ.of_to.
  - pose proof (pos_to_uint_head p) as Hhead.
    pose proof (scan_integer_uint _ rest Hrest Hhead) as Hs.
    cbn [Z.to_int NilZero.string_of_int].
    assert (NilZero.string_of_uint (Pos.to_uint p)
            = NilEmpty.string_of_uint (Pos.to_uint p)) as ->.
    { destruct (Pos.to_uint p); try reflexivity. contradiction. }
    cbn [append Ascii.eqb Bool.eqb]. rewrite Hs.
    rewrite scan_frac_delimited, scan_exp_delimited by assumption.
    change (Z.of_int (Neg (Pos.to_uint p))) with (Z.of_int (Z.to_int (Z.neg p))).
    now rewrite DecimalZ.of_to.
Qed.

End NumberFacts.

Section StringCodec.

Import Json.

Lemma scanstring_escape_char (c : ascii) (tail : string) :
  scanstring (escape_char c ++ tail) = push c (scanstring tail).
Proof.
  destruct c as [[] [] [] [] [] [] [] []]; reflexivity.
Qed.

Lemma scanstring_escape (s rest : string) :
  scanstring (escape s ++ String dquote rest) = Some (s, rest).
Proof.
  induction s as [|c s IH]; simpl.
  - reflexivity.
  - now rewrite append_assoc, scanstring_escape_char, IH.
Qed.

Lemma scanstring_encode_str (s rest : string) :
  exists tail, (encode_str s ++ rest)%string = String dquote tail
               /\ scanstring tail = Some (s, rest).
Proof.
  exists (escape s ++ String dquote rest)%string. split.
  - unfold encode_str. simpl. now rewrite append_assoc.
  - apply scanstring_escape.
Qed.

End StringCodec.

Section CodecFacts.

Import Json.

Lemma encode_list_cons level x xs :
  encode level (VList (x :: xs))
  = "[" ++ newline_indent (S level) ++ encode (S level) x
    ++ items_text (S level) xs ++ newline_indent level ++ "]".
Proof. reflexivity. Qed.

Lemma encode_dict_cons level k x kvs :
  encode level (VDict ((k, x) :: kvs))
  = "{" ++ newline_indent (S level) ++ encode_str k ++ ": " ++ encode (S level) x
    ++ pairs_text (S level) kvs ++ newline_indent level ++ "}".
Proof. reflexivity. Qed.

Lemma items_text_cons level y ys :
  items_text level (y :: ys)
  = "," ++ newline_indent level ++ encode level y ++ items_text level ys.
Proof. reflexivity. Qed.

Lemma pairs_text_cons level k y kvs :
  pairs_text level ((k, y) :: kvs)
  = "," ++ newline_indent level ++ encode_str k ++ ": "
    ++ encode level y ++ pairs_text level kvs.
Proof. reflexivity. Qed.

(** *** The decoder, one step at a time *)

Lemma scan_once_string fuel tail :
  scan_once (S fuel) (String dquote tail)
  = match scanstring tail with
    | Some (str, r) => Some (VStr str, r)
    | None => None
    end.
Proof. reflexivity. Qed.

Lemma scan_once_array fuel tail :
  scan_once (S fuel) (String "[" tail)
  = match skip_ws tail with
    | String c1 r1 =>
        if (c1 =? "]")%char then Some (VList [], r1)
        else
          match array_items fuel (String c1 r1) with
          | Some (items, r) => Some (VList items, r)
          | None => None
          end
    | EmptyString => None
    end.
Proof. reflexivity. Qed.

Lemma scan_once_object fuel tail :
  scan_once (S fuel) (String "{" tail)
  = match skip_ws tail with
    | String c1 r1 =>
        if (c1 =? "}")%char then Some (VDict [], r1)
        else if (c1 =? dquote)%char then
          match object_pairs fuel r1 with
          | Some (pairs, r) => Some (VDict (dict_of_pairs pairs), r)
          | None => None
          end
        else None
    | EmptyString => None
    end.
Proof. reflexivity. Qed.

Lemma array_items_S fuel s :
  array_items (S fuel) s
  = match scan_once fuel s with
    | None => None
    | Some (v, s1) =>
        match skip_ws s1 with
        | String c2 s2 =>
            if (c2 =? "]")%char then Some ([v], s2)
            else if (c2 =? ",")%char then
              match array_items fuel (skip_ws s2) with
              | Some (items, r) => Some (v :: items, r)
              | None => None
              end
            else None
        | EmptyString => None
        end
    end.
Proof. reflexivity. Qed.

Lemma object_pairs_S fuel s :
  object_pairs (S fuel) s
  = match scanstring s with
    | None => None
    | Some (key, s1) =>
        match skip_ws s1 with
        | String c2 s2 =>
            if (c2 =? ":")%char then
              match scan_once fuel (skip_ws s2) with
              | None => None
              | Some (v, s3) =>
                  match skip_ws s3 with
                  | String c4 s4 =>
                      if (c4 =? "}")%char then Some ([(key, v)], s4)
                      else if (c4 =? ",")%char then
                        match skip_ws s4 with
                        | String c5 s5 =>
                            if (c5 =? dquote)%char then
                              match object_pairs fuel s5 with
                              | Some (pairs, r) => Some ((key, v) :: pairs, r)
                              | None => None
                              end
                            else None
                        | EmptyString => None
                        end
                      else None
                  | EmptyString => None
                  end
              end
            else None
        | EmptyString => None
        end
    end.
Proof. reflexivity. Qed.

(** *** Literals and whitespace *)

Lemma prefix_app (word rest : string) : prefix word (word ++ rest) = true.
Proof.
  induction word as [|c word IH]; simpl.
  - now destruct rest.
  - destruct (ascii_dec c c) as [_|Hne]; [exact IH | congruence].
Qed.

Lemma str_drop_app (word rest : string) :
  str_drop (String.length word) (word ++ rest) = rest.
Proof. induction word as [|c word IH]; simpl; [now destruct rest | exact IH]. Qed.

Lemma literal_app (word rest : string) : literal word (word ++ rest) = Some rest.
Proof. unfold literal. now rewrite prefix_app, str_drop_app. Qed.

Lemma skip_ws_spaces n s : skip_ws (spaces n ++ s) = skip_ws s.
Proof. induction n as [|n IH]; simpl; [reflexivity | exact IH]. Qed.

Lemma skip_ws_newline_indent level s : skip_ws (newline_indent level ++ s) = skip_ws s.
Proof. unfold newline_indent. simpl. apply skip_ws_spaces. Qed.

Lemma skip_ws_value s : value_head s = true -> skip_ws s = s.
Proof.
  destruct s as [|c r]; simpl; [discriminate|].
  rewrite andb_true_iff, negb_true_iff. now intros [-> _].
Qed.

Lemma value_head_not_close s :
  value_head s = true ->
  exists c r, s = String c r /\ (c =? "]")%char = false.
Proof.
  destruct s as [|c r]; simpl; [discriminate|].
  rewrite andb_true_iff, !negb_true_iff. intros [_ H]. eauto.
Qed.

Lemma starts_number_value_head s : starts_number s = true -> value_head s = true.
Proof.
  destruct s as [|c r]; [discriminate|].
  destruct c as [[] [] [] [] [] [] [] []]; simpl; intros H;
    first [reflexivity | discriminate H].
Qed.

(** A number is not a string, an array, an object or a literal: the
    decoder reaches the number pattern. *)
Lemma scan_once_number fuel s res :
  starts_number s = true ->
  match_number s = Some res ->
  scan_once (S fuel) s = Some res.
Proof.
  destruct s as [|c r]; [discriminate|].
  destruct c as [[] [] [] [] [] [] [] []]; simpl starts_number; intros H;
    try discriminate H; intros Hm;
    cbn [scan_once scan_once_step Ascii.eqb Bool.eqb dquote literal prefix ascii_dec
         ascii_rec ascii_rect bool_dec bool_rec bool_rect sumbool_rec sumbool_rect];
    rewrite Hm; reflexivity.
Qed.

End CodecFacts.

Section RoundTrip.

Import Json.

Lemma encode_head level v rest :
  serializable v = true -> value_head (encode level v ++ rest) = true.
Proof.
  destruct v as [|[]|n|lit|s|[|x xs]|[|[k x] kvs]]; intros Hs; try reflexivity.
  - apply starts_number_value_head, str_of_int_head.
  - discriminate.
Qed.

Lemma delimited_items level xs n rest :
  delimited (items_text level xs ++ newline_indent n ++ rest) = true.
Proof. destruct xs; reflexivity. Qed.

Lemma delimited_pairs level kvs n rest :
  delimited (pairs_text level kvs ++ newline_indent n ++ rest) = true.
Proof. destruct kvs as [|[k x] kvs]; reflexivity. Qed.

Lemma array_items_reads_back xs :
  forall x level n rest fuel,
    Forall reads_back (x :: xs) ->
    all_serializable (x :: xs) = true ->
    cost_items (x :: xs) <= fuel ->
    array_items fuel
      (encode level x ++ items_text level xs ++ newline_indent n ++ String "]" rest)
    = Some (x :: xs, rest).
Proof.
  induction xs as [|y ys IH]; intros x level n rest fuel Hall Hser Hfuel.
  - inversion Hall as [|? ? Hx _]; subst.
    simpl in Hser. rewrite andb_true_r in Hser.
    destruct fuel as [|fuel]; [simpl in Hfuel; lia|].
    rewrite array_items_S.
    rewrite (Hx Hser level _ fuel (delimited_items level [] n _))
      by (simpl in Hfuel; lia).
    simpl items_text. cbn [append]. rewrite skip_ws_newline_indent.
    reflexivity.
  - inversion Hall as [|? ? Hx Hrest]; subst.
    simpl in Hser. apply andb_true_iff in Hser. destruct Hser as [Hsx Hsrest].
    destruct fuel as [|fuel]; [simpl in Hfuel; lia|].
    rewrite array_items_S.
    rewrite (Hx Hsx level _ fuel (delimited_items level (y :: ys) n _))
      by (simpl in Hfuel; lia).
    rewrite items_text_cons. rewrite !append_assoc.
    cbn [append skip_ws is_ws Ascii.eqb Bool.eqb orb].
    rewrite skip_ws_newline_indent, skip_ws_value.
    2: { apply encode_head. simpl in Hsrest. apply andb_true_iff in Hsrest. tauto. }
    rewrite (IH y level n rest fuel Hrest Hsrest) by (simpl in Hfuel |- *; lia).
    reflexivity.
Qed.

Lemma encode_str_app k tail :
  (encode_str k ++ tail)%string = String dquote (escape k ++ String dquote tail).
Proof. unfold encode_str. simpl. now rewrite append_assoc. Qed.

Lemma object_pairs_reads_back kvs :
  forall k x level n rest fuel,
    Forall (fun kv => reads_back (snd kv)) ((k, x) :: kvs) ->
    all_values_serializable ((k, x) :: kvs) = true ->
    cost_pairs ((k, x) :: kvs) <= fuel ->
    object_pairs fuel
      (escape k
       ++ String dquote
            (String ":"
               (String " "
                  (encode level x ++ pairs_text level kvs ++ newline_indent n
                   ++ String "}" rest))))
    = Some ((k, x) :: kvs, rest).
Proof.
  induction kvs as [|[k' y] kvs IH]; intros k x level n rest fuel Hall Hser Hfuel.
  - inversion Hall as [|? ? Hx _]; subst. simpl in Hx.
    simpl in Hser. rewrite andb_true_r in Hser.
    destruct fuel as [|fuel]; [simpl in Hfuel; lia|].
    rewrite object_pairs_S, scanstring_escape.
    cbn [append skip_ws is_ws Ascii.eqb Bool.eqb orb].
    rewrite skip_ws_value by (now apply encode_head).
    rewrite (Hx Hser level _ fuel (delimited_pairs level [] n _))
      by (simpl in Hfuel; lia).
    simpl pairs_text. cbn [append]. rewrite skip_ws_newline_indent.
    reflexivity.
  - inversion Hall as [|? ? Hx Hrest]; subst. simpl in Hx.
    simpl in Hser. apply andb_true_iff in Hser. destruct Hser as [Hsx Hsrest].
    destruct fuel as [|fuel]; [simpl in Hfuel; lia|].
    rewrite object_pairs_S, scanstring_escape.
    cbn [append skip_ws is_ws Ascii.eqb Bool.eqb orb].
    rewrite skip_ws_value by (now apply encode_head).
    rewrite (Hx Hsx level _ fuel (delimited_pairs level ((k', y) :: kvs) n _))
      by (simpl in Hfuel; lia).
    rewrite pairs_text_cons. rewrite !append_assoc.
    cbn [append skip_ws is_ws Ascii.eqb Bool.eqb orb].
    rewrite skip_ws_newline_indent, encode_str_app.
    cbn [append skip_ws is_ws Ascii.eqb Bool.eqb orb dquote].
    rewrite (IH k' y level n rest fuel Hrest Hsrest) by (simpl in Hfuel |- *; lia).
    reflexivity.
Qed.

End RoundTrip.

Section RoundTripTheorem.

Import Json.

Lemma dict_of_pairs_distinct (kvs : list (string * value)) :
  distinct_keys (map fst kvs) = true -> dict_of_pairs kvs = kvs.
Proof.
  intros Hd. unfold dict_of_pairs. rewrite dict_of_pairs_from; [reflexivity|].
  simpl. now apply distinct_NoDup.
Qed.

(** Every serializable value is read back from its text. *)
Lemma value_reads_back (v : value) : reads_back v.
Proof.
  induction v as [|b|n|lit|s|xs IH|kvs IH] using value_nested_ind;
    intros Hs level rest fuel Hrest Hfuel;
    (destruct fuel as [|fuel]; [simpl in Hfuel; lia|]).
  - destruct rest; reflexivity.
  - destruct b, rest; reflexivity.
  - apply scan_once_number; [apply str_of_int_head | now apply match_number_int].
  - discriminate.
  - change (encode level (VStr s)) with (encode_str s).
    now rewrite encode_str_app, scan_once_string, scanstring_escape.
  - destruct xs as [|x xs]; [reflexivity|].
    rewrite encode_list_cons, !append_assoc. cbn [append].
    rewrite scan_once_array, skip_ws_newline_indent.
    assert (serializable x = true) as Hsx.
    { simpl in Hs. apply andb_true_iff in Hs. tauto. }
    rewrite skip_ws_value by (now apply encode_head).
    destruct (value_head_not_close _ (encode_head (S level) x
                (items_text (S level) xs ++ newline_indent level ++ String "]" rest) Hsx))
      as (c & r & Heq & Hc).
    rewrite Heq, Hc, <- Heq.
    change (cost (VList (x :: xs))) with (S (cost_items (x :: xs))) in Hfuel.
    now rewrite (array_items_reads_back xs x (S level) level rest fuel IH Hs) by lia.
  - destruct kvs as [|[k x] kvs]; [reflexivity|].
    rewrite encode_dict_cons, !append_assoc. cbn [append].
    rewrite scan_once_object, skip_ws_newline_indent, encode_str_app.
    cbn [append skip_ws is_ws Ascii.eqb Bool.eqb orb dquote].
    simpl in Hs. apply andb_true_iff in Hs. destruct Hs as [Hkeys Hvals].
    change (cost (VDict ((k, x) :: kvs))) with (S (cost_pairs ((k, x) :: kvs))) in Hfuel.
    rewrite (object_pairs_reads_back kvs k x (S level) level rest fuel IH Hvals) by lia.
    now rewrite (dict_of_pairs_distinct ((k, x) :: kvs)).
Qed.

(** The text of a value is at least as long as the fuel it takes to read. *)
Lemma cost_le_length (v : value) :
  serializable v = true -> forall level, cost v <= String.length (encode level v).
Proof.
  induction v as [|b|n|lit|s|xs IH|kvs IH] using value_nested_ind; intros Hs level.
  - simpl. lia.
  - destruct b; simpl; lia.
  - pose proof (str_of_int_head n EmptyString) as H. rewrite append_nil_r in H.
    simpl. destruct (str_of_int n); [discriminate | simpl; lia].
  - discriminate.
  - simpl. lia.
  - destruct xs as [|x xs]; [simpl; lia|].
    rewrite encode_list_cons. change (cost (VList (x :: xs))) with (S (cost_items (x :: xs))).
    assert (forall l lvl, Forall (fun v => serializable v = true ->
                                   forall level, cost v <= String.length (encode level v)) l ->
                          all_serializable l = true ->
                          cost_items l <= String.length (items_text lvl l)) as Hitems.
    { induction l as [|y l IHl]; intros lvl Hall Hser; [simpl; lia|].
      inversion Hall as [|? ? Hy Hl]; subst.
      simpl in Hser. apply andb_true_iff in Hser. destruct Hser as [Hsy Hsl].
      rewrite items_text_cons. simpl cost_items. cbn [append String.length].
      rewrite !length_append. specialize (Hy Hsy lvl). specialize (IHl lvl Hl Hsl).
      fold (cost_items l). lia. }
    inversion IH as [|? ? Hx Hxs]; subst.
    simpl in Hs. apply andb_true_iff in Hs. destruct Hs as [Hsx Hsxs].
    specialize (Hitems xs (S level) Hxs Hsxs). specialize (Hx Hsx (S level)).
    simpl cost_items. fold (cost_items xs).
    cbn [append String.length]. rewrite !length_append. simpl String.length. lia.
  - destruct kvs as [|[k x] kvs]; [simpl; lia|].
    rewrite encode_dict_cons. change (cost (VDict ((k, x) :: kvs))) with (S (cost_pairs ((k, x) :: kvs))).
    assert (forall l lvl, Forall (fun kv => serializable (snd kv) = true ->
                                   forall level, cost (snd kv) <= String.length (encode level (snd kv))) l ->
                          all_values_serializable l = true ->
                          cost_pairs l <= String.length (pairs_text lvl l)) as Hpairs.
    { induction l as [|[k' y] l IHl]; intros lvl Hall Hser; [simpl; lia|].
      inversion Hall as [|? ? Hy Hl]; subst. simpl in Hy.
      simpl in Hser. apply andb_true_iff in Hser. destruct Hser as [Hsy Hsl].
      rewrite pairs_text_cons. simpl cost_pairs. cbn [append String.length].
      rewrite !length_append. specialize (Hy Hsy lvl). specialize (IHl lvl Hl Hsl).
      fold (cost_pairs l). cbn [String.length]. rewrite !length_append. lia. }
    inversion IH as [|? ? Hx Hxs]; subst. simpl in Hx.
    simpl in Hs. apply andb_true_iff in Hs. destruct Hs as [_ Hs].
    apply andb_true_iff in Hs. destruct Hs as [Hsx Hsxs].
    specialize (Hpairs kvs (S level) Hxs Hsxs). specialize (Hx Hsx (S level)).
    simpl cost_pairs. fold (cost_pairs kvs).
    cbn [append String.length]. rewrite !length_append. cbn [String.length].
    rewrite !length_append. simpl String.length. lia.
Qed.

(** [json.loads] undoes [json.dump]. *)
Lemma loads_dumps (v : value) : serializable v = true -> loads (dumps v) = Ok v.
Proof.
  intros Hs. unfold loads, dumps.
  pose proof (encode_head 0 v EmptyString Hs) as Hhead. rewrite append_nil_r in Hhead.
  rewrite (skip_ws_value _ Hhead).
  pose proof (value_reads_back v Hs 0 EmptyString (S (String.length (encode 0 v)))
                eq_refl) as H.
  rewrite append_nil_r in H. rewrite H; [reflexivity|].
  pose proof (cost_le_length v Hs 0). lia.
Qed.

End RoundTripTheorem.

(* ===================================================================== *)
(** ** The decoder never runs out of fuel *)
(* ===================================================================== *)

Section DecoderFuel.

Import Json.

Lemma skip_ws_length s : String.length (skip_ws s) <= String.length s.
Proof.
  induction s as [|c s IH]; simpl; [lia|].
  destruct (is_ws c); simpl; lia.
Qed.

Lemma str_drop_length n s : String.length (str_drop n s) = String.length s - n.
Proof.
  revert s. induction n as [|n IH]; intros [|c s]; simpl; try lia. apply IH.
Qed.

Lemma prefix_length w s : prefix w s = true -> String.length w <= String.length s.
Proof.
  revert s. induction w as [|a w IH]; intros [|b s]; simpl; try lia; try discriminate.
  destruct (ascii_dec a b); [|discriminate]. intros H. specialize (IH _ H). lia.
Qed.

Lemma literal_shrinks w s r :
  literal w s = Some r -> String.length r + String.length w = String.length s.
Proof.
  unfold literal. destruct (prefix w s) eqn:E; [|discriminate].
  intros [= <-]. rewrite str_drop_length. apply prefix_length in E. lia.
Qed.

Lemma scan_digits_length s :
  String.length (snd (scan_digits s)) <= String.length s
  /\ (fst (scan_digits s) <> Nil -> String.length (snd (scan_digits s)) < String.length s).
Proof.
  induction s as [|c s [IH1 IH2]]; simpl; [split; [lia | congruence]|].
  destruct (digit_of_char c) as [d|]; simpl.
  - destruct (scan_digits s) as [u r]. simpl in *. split; lia.
  - split; [lia | congruence].
Qed.

Lemma scan_integer_shrinks s u r :
  scan_integer s = Some (u, r) -> String.length r < String.length s.
Proof.
  unfold scan_integer. destruct s as [|c s]; [discriminate|].
  destruct (c =? "0")%char.
  - intros [= _ <-]. simpl. lia.
  - pose proof (scan_digits_length (String c s)) as [_ H].
    destruct (scan_digits (String c s)) as [u' r'].
    destruct u'; try discriminate; intros [= _ <-]; apply H; simpl; congruence.
Qed.

Lemma scan_frac_length s : String.length (snd (scan_frac s)) <= String.length s.
Proof.
  unfold scan_frac. destruct s as [|c s]; simpl; [lia|].
  destruct (c =? ".")%char; simpl; [|lia].
  pose proof (scan_digits_length s) as [H _].
  destruct (scan_digits s) as [u r]. simpl in H. destruct u; simpl; lia.
Qed.

Lemma scan_exp_length s : String.length (snd (scan_exp s)) <= String.length s.
Proof.
  unfold scan_exp. destruct s as [|c s]; simpl; [lia|].
  destruct ((c =? "e")%char || (c =? "E")%char); simpl; [|lia].
  destruct s as [|c' s'].
  - simpl. lia.
  - destruct ((c' =? "-")%char || (c' =? "+")%char).
    + pose proof (scan_digits_length s') as [H _].
      destruct (scan_digits s') as [u r]. simpl in H. destruct u; simpl; lia.
    + pose proof (scan_digits_length (String c' s')) as [H _].
      destruct (scan_digits (String c' s')) as [u r]. simpl in H.
      destruct u; simpl; lia.
Qed.

Lemma match_number_shrinks s v r :
  match_number s = Some (v, r) -> String.length r < String.length s.
Proof.
  unfold match_number.
  assert (forall s1, String.length s1 <= String.length s ->
            match scan_integer s1 with
            | Some (u, s2) =>
                let (frac, s3) := scan_frac s2 in
                let (exp, s4) := scan_exp s3 in
                String.length s4 < String.length s
            | None => True
            end) as H.
  { intros s1 Hs1. destruct (scan_integer s1) as [[u s2]|] eqn:E; [|exact I].
    apply scan_integer_shrinks in E.
    pose proof (scan_frac_length s2). destruct (scan_frac s2) as [frac s3].
    pose proof (scan_exp_length s3). destruct (scan_exp s3) as [exp s4].
    simpl in *. lia. }
  destruct s as [|c s']; [discriminate|].
  destruct (c =? "-")%char.
  - specialize (H s'). simpl in H. specialize (H ltac:(lia)).
    destruct (scan_integer s') as [[u s2]|]; [|discriminate].
    destruct (scan_frac s2) as [frac s3]. destruct (scan_exp s3) as [exp s4].
    destruct frac, exp; intros [= _ <-]; exact H.
  - specialize (H (String c s') (le_n _)).
    destruct (scan_integer (String c s')) as [[u s2]|]; [|discriminate].
    destruct (scan_frac s2) as [frac s3]. destruct (scan_exp s3) as [exp s4].
    destruct frac, exp; intros [= _ <-]; exact H.
Qed.

Lemma push_shrinks c res str r n :
  push c res = Some (str, r) ->
  (forall str' r', res = Some (str', r') -> String.length r' < n) ->
  String.length r < n.
Proof.
  destruct res as [[str' r']|]; simpl; [|discriminate].
  intros [= _ <-] H. now apply (H str').
Qed.

Lemma scanstring_shrinks s :
  forall str r, scanstring s = Some (str, r) -> String.length r < String.length s.
Proof.
  induction s as [s IH] using (well_founded_induction
                                 (Wf_nat.well_founded_ltof _ String.length)).
  unfold Wf_nat.ltof in IH.
  intros str r. destruct s as [|c rest]; [discriminate|].
  cbn [scanstring].
  destruct (c =? dquote)%char; [intros [= _ <-]; simpl; lia|].
  destruct (c =? backslash)%char.
  - destruct rest as [|e rest1]; [discriminate|].
    destruct (e =? "u")%char.
    + destruct rest1 as [|h1 [|h2 [|h3 [|h4 rest2]]]]; try discriminate.
      destruct (hex4 h1 h2 h3 h4) as [n|]; [|discriminate].
      destruct (n <? 256)%nat; [|discriminate].
      intros H. apply (push_shrinks _ _ _ _ _ H).
      intros str' r' E. apply IH in E; simpl in *; lia.
    + destruct (unescape e); [|discriminate].
      intros H. apply (push_shrinks _ _ _ _ _ H).
      intros str' r' E. apply IH in E; simpl in *; lia.
  - destruct (nat_of_ascii c <? 32)%nat; [discriminate|].
    intros H. apply (push_shrinks _ _ _ _ _ H).
    intros str' r' E. apply IH in E; simpl in *; lia.
Qed.

End DecoderFuel.

Section DecoderFuelSteps.

Import Json.

Ltac skip_ws_fact H :=
  let L := fresh "Hlen" in
  match type of H with
  | skip_ws ?s = _ => pose proof (skip_ws_length s) as L; rewrite H in L; simpl in L
  end.

Lemma scan_once_step_shrinks object array :
  shrinking object -> shrinking array -> shrinking (scan_once_step object array).
Proof.
  intros Hobj Harr [|c rest] v r; [discriminate|]. unfold scan_once_step.
  destruct (c =? dquote)%char.
  { destruct (scanstring rest) as [[str r0]|] eqn:E; [|discriminate].
    intros [= _ <-]. apply scanstring_shrinks in E. simpl. lia. }
  destruct (c =? "{")%char.
  { destruct (skip_ws rest) as [|c1 r1] eqn:E; [discriminate|]. skip_ws_fact E.
    destruct (c1 =? "}")%char; [intros [= _ <-]; simpl; lia|].
    destruct (c1 =? dquote)%char; [|discriminate].
    destruct (object r1) as [[pairs r0]|] eqn:E1; [|discriminate].
    intros [= _ <-]. apply Hobj in E1. simpl. lia. }
  destruct (c =? "[")%char.
  { destruct (skip_ws rest) as [|c1 r1] eqn:E; [discriminate|]. skip_ws_fact E.
    destruct (c1 =? "]")%char; [intros [= _ <-]; simpl; lia|].
    destruct (array (String c1 r1)) as [[items r0]|] eqn:E1; [|discriminate].
    intros [= _ <-]. apply Harr in E1. simpl in *. lia. }
  destruct (literal "null" (String c rest)) eqn:E1.
  { intros [= _ <-]. apply literal_shrinks in E1. simpl in *. lia. }
  destruct (literal "true" (String c rest)) eqn:E2.
  { intros [= _ <-]. apply literal_shrinks in E2. simpl in *. lia. }
  destruct (literal "false" (String c rest)) eqn:E3.
  { intros [= _ <-]. apply literal_shrinks in E3. simpl in *. lia. }
  destruct (match_number (String c rest)) as [[v0 r0]|] eqn:E4.
  { intros [= _ <-]. now apply match_number_shrinks in E4. }
  destruct (literal "NaN" (String c rest)) eqn:E5.
  { intros [= _ <-]. apply literal_shrinks in E5. simpl in *. lia. }
  destruct (literal "Infinity" (String c rest)) eqn:E6.
  { intros [= _ <-]. apply literal_shrinks in E6. simpl in *. lia. }
  destruct (literal "-Infinity" (String c rest)) eqn:E7; [|discriminate].
  intros [= _ <-]. apply literal_shrinks in E7. simpl in *. lia.
Qed.

Lemma object_pairs_step_shrinks scan next :
  shrinking scan -> shrinking next -> shrinking (object_pairs_step scan next).
Proof.
  intros Hscan Hnext s pairs r. unfold object_pairs_step.
  destruct (scanstring s) as [[key s1]|] eqn:E; [|discriminate].
  apply scanstring_shrinks in E.
  destruct (skip_ws s1) as [|c2 s2] eqn:E1; [discriminate|]. skip_ws_fact E1.
  destruct (c2 =? ":")%char; [|discriminate].
  destruct (scan (skip_ws s2)) as [[v s3]|] eqn:E2; [|discriminate].
  apply Hscan in E2. pose proof (skip_ws_length s2) as L2.
  destruct (skip_ws s3) as [|c4 s4] eqn:E3; [discriminate|]. skip_ws_fact E3.
  destruct (c4 =? "}")%char; [intros [= _ <-]; lia|].
  destruct (c4 =? ",")%char; [|discriminate].
  destruct (skip_ws s4) as [|c5 s5] eqn:E4; [discriminate|]. skip_ws_fact E4.
  destruct (c5 =? dquote)%char; [|discriminate].
  destruct (next s5) as [[more r0]|] eqn:E5; [|discriminate].
  intros [= _ <-]. apply Hnext in E5. lia.
Qed.

Lemma array_items_step_shrinks scan next :
  shrinking scan -> shrinking next -> shrinking (array_items_step scan next).
Proof.
  intros Hscan Hnext s items r. unfold array_items_step.
  destruct (scan s) as [[v s1]|] eqn:E; [|discriminate]. apply Hscan in E.
  destruct (skip_ws s1) as [|c2 s2] eqn:E1; [discriminate|]. skip_ws_fact E1.
  destruct (c2 =? "]")%char; [intros [= _ <-]; lia|].
  destruct (c2 =? ",")%char; [|discriminate].
  destruct (next (skip_ws s2)) as [[more r0]|] eqn:E2; [|discriminate].
  intros [= _ <-]. apply Hnext in E2. pose proof (skip_ws_length s2). lia.
Qed.

Lemma scanner_shrinks fuel :
  shrinking (scan_once fuel) /\ shrinking (object_pairs fuel)
  /\ shrinking (array_items fuel).
Proof.
  induction fuel as [|fuel (IHs & IHo & IHa)].
  - repeat split; intros x a r; discriminate.
  - split; [|split].
    + now apply scan_once_step_shrinks.
    + now apply object_pairs_step_shrinks.
    + now apply array_items_step_shrinks.
Qed.

Lemma scan_once_step_covers n object object' array array' :
  shrinking object -> shrinking array ->
  covers n object object' -> covers n array array' ->
  covers (S n) (scan_once_step object array) (scan_once_step object' array').
Proof.
  intros Hobj Harr Cobj Carr [|c rest] v r; [discriminate|]. unfold scan_once_step.
  destruct (c =? dquote)%char; [auto|].
  destruct (c =? "{")%char.
  { destruct (skip_ws rest) as [|c1 r1] eqn:E; [discriminate|]. skip_ws_fact E.
    destruct (c1 =? "}")%char; [auto|].
    destruct (c1 =? dquote)%char; [|discriminate].
    destruct (object r1) as [[pairs r0]|] eqn:E1; [|discriminate].
    intros [= <- <-] Hn. rewrite (Cobj _ _ _ E1); [reflexivity|].
    apply Hobj in E1. cbn [String.length] in *. lia. }
  destruct (c =? "[")%char.
  { destruct (skip_ws rest) as [|c1 r1] eqn:E; [discriminate|]. skip_ws_fact E.
    destruct (c1 =? "]")%char; [auto|].
    destruct (array (String c1 r1)) as [[items r0]|] eqn:E1; [|discriminate].
    intros [= <- <-] Hn. rewrite (Carr _ _ _ E1); [reflexivity|].
    apply Harr in E1. cbn [String.length] in *. lia. }
  auto.
Qed.

Lemma object_pairs_step_covers n scan scan' next next' :
  shrinking scan -> shrinking next ->
  covers n scan scan' -> covers n next next' ->
  covers (S n) (object_pairs_step scan next) (object_pairs_step scan' next').
Proof.
  intros Hscan Hnext Cscan Cnext s pairs r. unfold object_pairs_step.
  destruct (scanstring s) as [[key s1]|] eqn:E; [|discriminate].
  apply scanstring_shrinks in E.
  destruct (skip_ws s1) as [|c2 s2] eqn:E1; [discriminate|]. skip_ws_fact E1.
  destruct (c2 =? ":")%char; [|discriminate].
  destruct (scan (skip_ws s2)) as [[v s3]|] eqn:E2; [|discriminate].
  pose proof (Hscan _ _ _ E2) as L3. pose proof (skip_ws_length s2) as L2.
  destruct (skip_ws s3) as [|c4 s4] eqn:E3; [discriminate|]. skip_ws_fact E3.
  intros Hres Hn.
  assert (String.length r <= String.length s4) as Hr.
  { revert Hres. destruct (c4 =? "}")%char; [intros [= _ <-]; auto|].
    destruct (c4 =? ",")%char; [|discriminate].
    destruct (skip_ws s4) as [|c5 s5] eqn:E4; [discriminate|].
    pose proof (skip_ws_length s4) as L4. rewrite E4 in L4. simpl in L4.
    destruct (c5 =? dquote)%char; [|discriminate].
    destruct (next s5) as [[more r0]|] eqn:E5; [|discriminate].
    intros [= _ <-]. apply Hnext in E5. lia. }
  rewrite (Cscan _ _ _ E2) by lia. rewrite E3.
  revert Hres. destruct (c4 =? "}")%char; [auto|].
  destruct (c4 =? ",")%char; [|discriminate].
  destruct (skip_ws s4) as [|c5 s5] eqn:E4; [discriminate|].
  pose proof (skip_ws_length s4) as L4. rewrite E4 in L4. simpl in L4.
  destruct (c5 =? dquote)%char; [|discriminate].
  destruct (next s5) as [[more r0]|] eqn:E5; [|discriminate].
  intros [= <- <-]. rewrite (Cnext _ _ _ E5); [reflexivity|].
  apply Hnext in E5. lia.
Qed.

Lemma array_items_step_covers n scan scan' next next' :
  shrinking scan -> shrinking next ->
  covers n scan scan' -> covers n next next' ->
  covers (S n) (array_items_step scan next) (array_items_step scan' next').
Proof.
  intros Hscan Hnext Cscan Cnext s items r. unfold array_items_step.
  destruct (scan s) as [[v s1]|] eqn:E; [|discriminate].
  pose proof (Hscan _ _ _ E) as L1.
  destruct (skip_ws s1) as [|c2 s2] eqn:E1; [discriminate|]. skip_ws_fact E1.
  intros Hres Hn.
  assert (String.length r <= String.length s2) as Hr.
  { revert Hres. destruct (c2 =? "]")%char; [intros [= _ <-]; auto|].
    destruct (c2 =? ",")%char; [|discriminate].
    destruct (next (skip_ws s2)) as [[more r0]|] eqn:E2; [|discriminate].
    intros [= _ <-]. apply Hnext in E2. pose proof (skip_ws_length s2). lia. }
  rewrite (Cscan _ _ _ E) by lia. rewrite E1.
  revert Hres. destruct (c2 =? "]")%char; [auto|].
  destruct (c2 =? ",")%char; [|discriminate].
  destruct (next (skip_ws s2)) as [[more r0]|] eqn:E2; [|discriminate].
  intros [= <- <-]. rewrite (Cnext _ _ _ E2); [reflexivity|].
  apply Hnext in E2. pose proof (skip_ws_length s2). lia.
Qed.

(** What the scanner reads with some fuel, it reads with any fuel that is at
    least the number of characters read. *)
Lemma scanner_covers big :
  forall fuel,
    covers fuel (scan_once big) (scan_once fuel)
    /\ covers fuel (object_pairs big) (object_pairs fuel)
    /\ covers fuel (array_items big) (array_items fuel).
Proof.
  induction big as [|big IH]; intros fuel.
  - repeat split; intros x a r; discriminate.
  - destruct (scanner_shrinks big) as (Ss & So & Sa).
    destruct fuel as [|fuel].
    + destruct (scanner_shrinks (S big)) as (Ss' & So' & Sa').
      repeat split; intros x a r E Hn;
        [apply Ss' in E | apply So' in E | apply Sa' in E]; lia.
    + destruct (IH fuel) as (Cs & Co & Ca).
      split; [|split].
      * now apply scan_once_step_covers.
      * now apply object_pairs_step_covers.
      * now apply array_items_step_covers.
Qed.

(** A text that can be read at all is read with the fuel [loads] gives. *)
Lemma scan_once_enough_fuel big s v r :
  scan_once big s = Some (v, r) ->
  scan_once (S (String.length s)) s = Some (v, r).
Proof.
  intros E. destruct (scanner_covers big (S (String.length s))) as (C & _ & _).
  apply (C _ _ _ E). lia.
Qed.

(** [loads] is the decoder without the fuel: it accepts a text exactly when
    some amount of fuel reads one value from it with only whitespace left. *)
Lemma loads_spec s v :
  loads s = Ok v
  <-> exists fuel r, scan_once fuel (skip_ws s) = Some (v, r) /\ skip_ws r = EmptyString.
Proof.
  unfold loads. split.
  - destruct (scan_once (S (String.length (skip_ws s))) (skip_ws s)) as [[v' r]|] eqn:E;
      [|discriminate].
    destruct (skip_ws r) eqn:Er; [|discriminate]. intros [= <-]. eauto.
  - intros (fuel & r & E & Er). rewrite (scan_once_enough_fuel _ _ _ _ E). now rewrite Er.
Qed.

End DecoderFuelSteps.

(* ===================================================================== *)
(** ** The line parser *)
(* ===================================================================== *)

Section LineParser.

Import DNSTrafficAnalyzer.

(** A line that is not JSON is dropped. *)
Lemma parse_log_line_not_json line self :
  Json.loads (strip line) = Raise JSONDecodeError ->
  parse_log_line line self = (Ok None, self).
Proof. intros E. unfold parse_log_line. now rewrite E. Qed.

(** So is a JSON object without a message. *)
Lemma parse_log_line_no_message line self kvs :
  Json.loads (strip line) = Ok (VDict kvs) ->
  dict_get "message" kvs = None ->
  parse_log_line line self = (Ok None, self).
Proof.
  intros E Hmsg. unfold parse_log_line. rewrite E. simpl.
  unfold dict_get_default. now rewrite Hmsg.
Qed.

(** A JSON value that is not an object has no [get]: the exception is not
    the one the method catches. *)
Lemma parse_log_line_not_object line self v :
  Json.loads (strip line) = Ok v ->
  is_dict v = false ->
  parse_log_line line self = (Raise AttributeError, self).
Proof.
  intros E Hv. unfold parse_log_line. rewrite E.
  destruct v; simpl in *; try reflexivity; discriminate.
Qed.

Lemma scan_line_not_json line acc :
  Json.loads (strip line) = Raise JSONDecodeError ->
  DeviceMapper.scan_line line acc = Ok acc.
Proof. intros E. unfold DeviceMapper.scan_line. now rewrite E. Qed.

Lemma scan_line_no_message line acc kvs :
  Json.loads (strip line) = Ok (VDict kvs) ->
  dict_get "message" kvs = None ->
  DeviceMapper.scan_line line acc = Ok acc.
Proof.
  intros E Hmsg. unfold DeviceMapper.scan_line. rewrite E. simpl.
  unfold dict_get_default. now rewrite Hmsg.
Qed.

Lemma scan_line_not_object line acc v :
  Json.loads (strip line) = Ok v ->
  is_dict v = false ->
  DeviceMapper.scan_line line acc = Raise AttributeError.
Proof.
  intros E Hv. unfold DeviceMapper.scan_line. rewrite E.
  destruct v; simpl in *; try reflexivity; discriminate.
Qed.

End LineParser.

(** C3 at the line [42]: the line is valid JSON and its value, a number, has
    no message field, yet it is not dropped.  [parse_log_line] raises
    AttributeError; [analyze_log_file] lets it through, so the query on the
    next line is never parsed; and the device mapper's analysis of the same
    log reports failure and registers nothing, although the next line holds
    a query from 10.0.0.5. *)
Theorem non_object_line_is_not_dropped :
  DNSTrafficAnalyzer.parse_log_line "42" DNSTrafficAnalyzer.new_analyzer
  = (Raise AttributeError, DNSTrafficAnalyzer.new_analyzer)
  /\ DNSTrafficAnalyzer.analyze_log_file
       (Samples.one_file "ctrld.log" Samples.number_then_query_log) "ctrld.log"
       DNSTrafficAnalyzer.new_analyzer
     = (Raise AttributeError, DNSTrafficAnalyzer.new_analyzer)
  /\ (let w := Samples.fresh_world
                 (Samples.one_file "ctrld.log" Samples.number_then_query_log) in
      DeviceMapper.analyze_dns_log Samples.clock Samples.insertion_order "ctrld.log" w
      = (Ok false, w)
      /\ device "10.0.0.5" (DeviceMapper.data w) = Raise KeyError).
Proof.
  split; [reflexivity|]. split; [vm_compute; reflexivity|].
  split; vm_compute; reflexivity.
Qed.

(** Without the line [42] the same query is parsed and 10.0.0.5 registered. *)
Example query_line_alone_is_processed :
  let w := Samples.fresh_world
             (Samples.one_file "ctrld.log" (Samples.query_line "10.0.0.5" "x.com")) in
  let out := DeviceMapper.analyze_dns_log Samples.clock Samples.insertion_order
               "ctrld.log" w in
  fst out = Ok true
  /\ device_field "10.0.0.5" "query_count" (DeviceMapper.data (snd out)) = Ok (VInt 1).
Proof. vm_compute. split; reflexivity. Qed.

Section PatternFacts.

Import Re.

Lemma span_run (p : ascii -> bool) (run rest : string) :
  all_chars p run = true ->
  stops p rest = true ->
  span p (run ++ rest) = (run, rest).
Proof.
  intros Hrun Hrest. induction run as [|c run IH]; cbn [append all_chars] in *.
  - destruct rest as [|c rest]; [reflexivity|]. cbn [stops span] in *.
    apply negb_true_iff in Hrest. now rewrite Hrest.
  - apply andb_true_iff in Hrun. destruct Hrun as [Hc Hrun].
    cbn [span]. now rewrite Hc, IH.
Qed.

Lemma plus_run (p : ascii -> bool) (run rest : string) :
  run <> EmptyString ->
  all_chars p run = true ->
  stops p rest = true ->
  plus p (run ++ rest) = Some (run, rest).
Proof.
  intros Hne Hrun Hrest. unfold plus. rewrite span_run by assumption.
  destruct run; [congruence | reflexivity].
Qed.

Lemma match_here_not_digit (s : string) :
  stops is_digit s = true -> match_here s = None.
Proof.
  intros H. unfold match_here, plus.
  destruct s as [|c s]; [reflexivity|]. simpl in H. apply negb_true_iff in H.
  simpl. now rewrite H.
Qed.

Lemma search_skips (before s : string) :
  all_chars (fun c => negb (is_digit c)) before = true ->
  search (before ++ s) = search s.
Proof.
  intros Hb. induction before as [|c before IH]; [reflexivity|].
  simpl in Hb. apply andb_true_iff in Hb. destruct Hb as [Hc Hb].
  cbn [append search]. rewrite match_here_not_digit by (simpl; exact Hc).
  now apply IH.
Qed.

End PatternFacts.

Section PatternMatch.

Import Re.

Lemma plus_run_end (p : ascii -> bool) (s : string) :
  run p s -> plus p s = Some (s, EmptyString).
Proof.
  intros [Hne Hall]. rewrite <- (append_nil_r s) at 1. now apply plus_run.
Qed.

Lemma match_here_query_text a b c d port info n qtype dom :
  run is_digit a -> run is_digit b -> run is_digit c -> run is_digit d ->
  run is_digit port -> run not_rparen info -> run is_digit n ->
  run is_word qtype -> run not_newline dom ->
  match_here (query_text a b c d port info n qtype dom)
  = Some {| client_ip := a ++ "." ++ b ++ "." ++ c ++ "." ++ d;
            resolver_info := info; query_type := qtype; domain := dom |}.
Proof.
  intros [Ha1 Ha2] [Hb1 Hb2] [Hc1 Hc2] [Hd1 Hd2] [Hp1 Hp2] [Hi1 Hi2] [Hn1 Hn2]
         [Hq1 Hq2] Hdom.
  unfold match_here, query_text.
  rewrite (plus_run is_digit a) by (assumption || reflexivity). cbn [bind].
  rewrite literal_app. cbn [bind].
  rewrite (plus_run is_digit b) by (assumption || reflexivity). cbn [bind].
  rewrite literal_app. cbn [bind].
  rewrite (plus_run is_digit c) by (assumption || reflexivity). cbn [bind].
  rewrite literal_app. cbn [bind].
  rewrite (plus_run is_digit d) by (assumption || reflexivity). cbn [bind].
  rewrite literal_app. cbn [bind].
  rewrite (plus_run is_digit port) by (assumption || reflexivity). cbn [bind].
  rewrite literal_app. cbn [bind].
  rewrite (plus_run not_rparen info) by (assumption || reflexivity). cbn [bind].
  rewrite literal_app. cbn [bind].
  rewrite (plus_run is_digit n) by (assumption || reflexivity). cbn [bind].
  rewrite literal_app. cbn [bind].
  rewrite (plus_run is_word qtype) by (assumption || reflexivity). cbn [bind].
  rewrite literal_app. cbn [bind].
  rewrite (plus_run_end not_newline dom Hdom). reflexivity.
Qed.

End PatternMatch.

Section QueryLines.

Import Re.

Lemma search_here s m : match_here s = Some m -> search s = Some m.
Proof. intros H. destruct s; cbn [search]; now rewrite H. Qed.

Lemma search_query_text before a b c d port info n qtype dom :
  all_chars (fun ch => negb (is_digit ch)) before = true ->
  run is_digit a -> run is_digit b -> run is_digit c -> run is_digit d ->
  run is_digit port -> run not_rparen info -> run is_digit n ->
  run is_word qtype -> run not_newline dom ->
  search (before ++ query_text a b c d port info n qtype dom)
  = Some {| client_ip := a ++ "." ++ b ++ "." ++ c ++ "." ++ d;
            resolver_info := info; query_type := qtype; domain := dom |}.
Proof.
  intros Hb Ha Hb' Hc Hd Hp Hi Hn Hq Hdom. rewrite search_skips by assumption.
  now apply search_here, match_here_query_text.
Qed.

End QueryLines.

(** Golden pattern: a log record whose message holds the query marker and,
    after text without digits, a query in the resolver's format, yields the
    query with the four captured fields: the client IP, the query type and
    the domain as they stand in the message, the time of the record (empty
    when absent) and its level (info when absent).  The analyzer appends it
    to its tables. *)
Theorem parse_log_line_yields_query :
  forall (line : string) (kvs : dict value)
         (before a b c d port info n qtype dom : string)
         (self : DNSTrafficAnalyzer.analyzer),
    Json.loads (strip line) = Ok (VDict kvs) ->
    dict_get "message" kvs
    = Some (VStr (before ++ query_text a b c d port info n qtype dom)) ->
    str_contains "QUERY" (before ++ query_text a b c d port info n qtype dom) = true ->
    Re.all_chars (fun ch => negb (Re.is_digit ch)) before = true ->
    run Re.is_digit a -> run Re.is_digit b -> run Re.is_digit c -> run Re.is_digit d ->
    run Re.is_digit port -> run Re.not_rparen info -> run Re.is_digit n ->
    run Re.is_word qtype -> run Re.not_newline dom ->
    let m := {| Re.client_ip := a ++ "." ++ b ++ "." ++ c ++ "." ++ d;
                Re.resolver_info := info; Re.query_type := qtype; Re.domain := dom |} in
    let query :=
      VDict [("timestamp", dict_get_default "time" (VStr "") kvs);
             ("client_ip", VStr (a ++ "." ++ b ++ "." ++ c ++ "." ++ d));
             ("query_type", VStr qtype);
             ("domain", VStr dom);
             ("level", dict_get_default "level" (VStr "info") kvs)] in
    DNSTrafficAnalyzer.parse_log_line line self
    = (Ok (Some query), DNSTrafficAnalyzer.record query m self)
    /\ forall acc,
         DeviceMapper.scan_line line acc
         = Ok (DeviceMapper.record_query (a ++ "." ++ b ++ "." ++ c ++ "." ++ d) dom acc).
Proof.
  intros line kvs before a b c d port info n qtype dom self
         Hloads Hmsg Hmark Hbefore Ha Hb Hc Hd Hp Hi Hn Hq Hdom m query.
  pose proof (search_query_text before a b c d port info n qtype dom
                Hbefore Ha Hb Hc Hd Hp Hi Hn Hq Hdom) as Hsearch.
  split.
  - unfold DNSTrafficAnalyzer.parse_log_line. rewrite Hloads.
    cbn [get_method]. unfold dict_get_default at 1. rewrite Hmsg.
    cbn [contains]. rewrite Hmark. cbn [getitem]. rewrite Hmsg, Hsearch.
    reflexivity.
  - intros acc. unfold DeviceMapper.scan_line. rewrite Hloads.
    cbn [get_method]. unfold dict_get_default at 1. rewrite Hmsg.
    cbn [contains]. rewrite Hmark. cbn [getitem]. rewrite Hmsg, Hsearch.
    reflexivity.
Qed.

Lemma parse_log_line_yields_query_witness :
  let line := Samples.query_line "192.168.1.10" "x.com" in
  let m := {| Re.client_ip := "192" ++ "." ++ "168" ++ "." ++ "1" ++ "." ++ "10";
              Re.resolver_info := "udp"; Re.query_type := "A"; Re.domain := "x.com" |} in
  let query :=
    VDict [("timestamp", VStr "");
           ("client_ip", VStr ("192" ++ "." ++ "168" ++ "." ++ "1" ++ "." ++ "10"));
           ("query_type", VStr "A");
           ("domain", VStr "x.com");
           ("level", VStr "info")] in
  DNSTrafficAnalyzer.parse_log_line line DNSTrafficAnalyzer.new_analyzer
  = (Ok (Some query), DNSTrafficAnalyzer.record query m DNSTrafficAnalyzer.new_analyzer)
  /\ forall acc,
       DeviceMapper.scan_line line acc
       = Ok (DeviceMapper.record_query
               ("192" ++ "." ++ "168" ++ "." ++ "1" ++ "." ++ "10") "x.com" acc).
Proof.
  intros line.
  apply (parse_log_line_yields_query line
           [("message", VStr "QUERY 192.168.1.10:5353 (udp) -> listener.0: A x.com")]
           "QUERY " "192" "168" "1" "10" "5353" "udp" "0" "A" "x.com"
           DNSTrafficAnalyzer.new_analyzer);
    try reflexivity; try (split; [discriminate | reflexivity]).
Defined.

(** A line that does not decode as JSON is skipped: the lines after it are
    processed as if it were not there, by the device mapper and by the
    analyzer alike. *)
Theorem undecodable_line_is_skipped :
  forall (before after : list string) (bad : string),
    Json.loads (strip bad) = Raise JSONDecodeError ->
    (forall acc,
       DeviceMapper.scan_lines (before ++ bad :: after)%list acc
       = DeviceMapper.scan_lines (before ++ after)%list acc)
    /\ (forall self,
          DNSTrafficAnalyzer.parse_lines (before ++ bad :: after)%list self
          = DNSTrafficAnalyzer.parse_lines (before ++ after)%list self).
Proof.
  intros before after bad Hbad. split.
  - induction before as [|line before IH]; intros acc; simpl.
    + now rewrite (scan_line_not_json bad acc Hbad).
    + destruct (DeviceMapper.scan_line line acc); [apply IH | reflexivity].
  - induction before as [|line before IH]; intros self; simpl.
    + now rewrite (parse_log_line_not_json bad self Hbad).
    + destruct (DNSTrafficAnalyzer.parse_log_line line self) as [[q|e] self'];
        [apply IH | reflexivity].
Qed.

Lemma undecodable_line_is_skipped_witness :
  (forall acc,
     DeviceMapper.scan_lines
       ([Samples.query_line "10.0.0.1" "x.com"] ++ "not a record"
          :: [Samples.query_line "10.0.0.1" "y.com"])%list acc
     = DeviceMapper.scan_lines
         ([Samples.query_line "10.0.0.1" "x.com"]
            ++ [Samples.query_line "10.0.0.1" "y.com"])%list acc)
  /\ (forall self,
        DNSTrafficAnalyzer.parse_lines
          ([Samples.query_line "10.0.0.1" "x.com"] ++ "not a record"
             :: [Samples.query_line "10.0.0.1" "y.com"])%list self
        = DNSTrafficAnalyzer.parse_lines
            ([Samples.query_line "10.0.0.1" "x.com"]
               ++ [Samples.query_line "10.0.0.1" "y.com"])%list self).
Proof.
  apply (undecodable_line_is_skipped [Samples.query_line "10.0.0.1" "x.com"]
           [Samples.query_line "10.0.0.1" "y.com"] "not a record").
  vm_compute. reflexivity.
Defined.

(* ===================================================================== *)
(** ** Facts about the nested assignments *)
(* ===================================================================== *)

Section AssignFacts.

Import DeviceMapper.

Lemma with_data_same (w : world) : with_data w (data w) = w.
Proof. now destruct w. Qed.

Lemma setitem2_ok k1 k2 x w top inner :
  data w = VDict top ->
  dict_get k1 top = Some (VDict inner) ->
  setitem2 k1 k2 x w
  = (Ok tt, with_data w (VDict (dict_set k1 (VDict (dict_set k2 x inner)) top))).
Proof.
  intros Hd Hk. unfold setitem2, bind, get_data, lift, put_data.
  rewrite Hd. simpl. now rewrite Hk.
Qed.

(** An assignment either goes through, on a dict of dicts, or raises and
    leaves the world as it was. *)
Lemma setitem2_cases k1 k2 x w :
  (exists top inner,
      data w = VDict top /\ dict_get k1 top = Some (VDict inner) /\
      setitem2 k1 k2 x w
      = (Ok tt, with_data w (VDict (dict_set k1 (VDict (dict_set k2 x inner)) top))))
  \/ (exists e, setitem2 k1 k2 x w = (Raise e, w)).
Proof.
  unfold setitem2, bind, get_data, lift, put_data.
  destruct (data w) as [| | | | | |top] eqn:Hd; simpl;
    try (right; eexists; reflexivity).
  destruct (dict_get k1 top) as [[| | | | | |inner]|] eqn:Hk; simpl;
    try (right; eexists; reflexivity).
  left. exists top, inner. auto.
Qed.

Lemma setitem3_ok k1 k2 k3 x w top mid inner :
  data w = VDict top ->
  dict_get k1 top = Some (VDict mid) ->
  dict_get k2 mid = Some (VDict inner) ->
  setitem3 k1 k2 k3 x w
  = (Ok tt, with_data w
      (VDict (dict_set k1 (VDict (dict_set k2 (VDict (dict_set k3 x inner)) mid)) top))).
Proof.
  intros Hd Hk Hm. unfold setitem3, bind, get_data, lift, put_data.
  rewrite Hd. simpl. rewrite Hk. simpl. now rewrite Hm.
Qed.

Lemma setitem3_cases k1 k2 k3 x w :
  (exists top mid inner,
      data w = VDict top /\ dict_get k1 top = Some (VDict mid) /\
      dict_get k2 mid = Some (VDict inner) /\
      setitem3 k1 k2 k3 x w
      = (Ok tt, with_data w
          (VDict (dict_set k1 (VDict (dict_set k2 (VDict (dict_set k3 x inner)) mid)) top))))
  \/ (exists e, setitem3 k1 k2 k3 x w = (Raise e, w)).
Proof.
  unfold setitem3, bind, get_data, lift, put_data.
  destruct (data w) as [| | | | | |top] eqn:Hd; simpl;
    try (right; eexists; reflexivity).
  destruct (dict_get k1 top) as [[| | | | | |mid]|] eqn:Hk; simpl;
    try (right; eexists; reflexivity).
  destruct (dict_get k2 mid) as [[| | | | | |inner]|] eqn:Hm; simpl;
    try (right; eexists; reflexivity).
  left. exists top, mid, inner. auto.
Qed.

End AssignFacts.

(* ===================================================================== *)
(** ** Reading the registry after an update *)
(* ===================================================================== *)

Section ReadFacts.

Import DeviceMapper.

Lemma device_shape ip d x :
  device ip d = Ok x ->
  exists top devices,
    d = VDict top /\ dict_get "devices" top = Some (VDict devices)
    /\ dict_get ip devices = Some x.
Proof.
  unfold device, getitem.
  destruct d as [| | | | | |top]; try discriminate.
  destruct (dict_get "devices" top) as [[| | | | | |devices]|] eqn:Hdev;
    try discriminate.
  destruct (dict_get ip devices) eqn:E; [|discriminate].
  intros [= ->]. eauto.
Qed.

Lemma device_with_device_eq ip info devices top :
  device ip (with_device ip info devices top) = Ok (VDict info).
Proof.
  unfold device, with_device, getitem. now rewrite !dict_get_set_eq.
Qed.

Lemma device_with_device_ne ip ip' info devices top :
  ip <> ip' ->
  dict_get "devices" top = Some (VDict devices) ->
  device ip' (with_device ip info devices top) = device ip' (VDict top).
Proof.
  intros Hne Hdev. unfold device, with_device, getitem.
  rewrite dict_get_set_eq, Hdev. now rewrite dict_get_set_ne.
Qed.

Lemma getitem_with_device k ip info devices top :
  k <> "devices" ->
  getitem (with_device ip info devices top) k = getitem (VDict top) k.
Proof.
  intros Hne. unfold with_device, getitem. rewrite dict_get_set_ne; auto.
Qed.

Lemma registry_ok_shape d :
  registry_ok d = true ->
  exists top devices,
    d = VDict top /\ dict_get "devices" top = Some (VDict devices)
    /\ forallb (fun kv => is_dict (snd kv)) devices = true.
Proof.
  unfold registry_ok, getitem.
  destruct d as [| | | | | |top]; try discriminate.
  destruct (dict_get "devices" top) as [[| | | | | |devices]|] eqn:Hdev;
    try discriminate.
  eauto.
Qed.

Lemma all_dicts_get ip x (devices : dict value) :
  forallb (fun kv => is_dict (snd kv)) devices = true ->
  dict_get ip devices = Some x -> exists info, x = VDict info.
Proof.
  intros Hall Hget. apply dict_get_In in Hget.
  rewrite forallb_forall in Hall. specialize (Hall _ Hget). simpl in Hall.
  destruct x; try discriminate. eauto.
Qed.

Lemma all_dicts_set ip info (devices : dict value) :
  forallb (fun kv => is_dict (snd kv)) devices = true ->
  forallb (fun kv => is_dict (snd kv)) (dict_set ip (VDict info) devices) = true.
Proof.
  induction devices as [|[k v] devices IH]; simpl; [reflexivity|].
  rewrite andb_true_iff. intros [Hv Hrest].
  destruct (k =? ip)%string; simpl.
  - now rewrite Hrest.
  - now rewrite Hv, IH.
Qed.

Lemma registry_ok_with_device ip info devices top :
  forallb (fun kv => is_dict (snd kv)) devices = true ->
  registry_ok (with_device ip info devices top) = true.
Proof.
  intros Hall. unfold registry_ok, with_device, getitem.
  rewrite dict_get_set_eq. now apply all_dicts_set.
Qed.

End ReadFacts.

(* ===================================================================== *)
(** ** The registry: adding a device *)
(* ===================================================================== *)

Section AddDevice.

Import DeviceMapper.

Lemma add_device_replaces (now : nat -> datetime)
    (ip name device_type category description : string) (w : world)
    (top devices : dict value) :
  data w = VDict top ->
  dict_get "devices" top = Some (VDict devices) ->
  add_device now ip name device_type category description w
  = (Ok tt,
     with_data (tick w)
       (with_device ip
          [("name", VStr name); ("type", VStr device_type);
           ("category", VStr category); ("description", VStr description);
           ("added", VStr (strftime_seconds (now (clock_reads w))))]
          devices top)).
Proof.
  intros Hd Hdev. unfold add_device, bind at 1. unfold read_clock.
  erewrite setitem2_ok; [reflexivity | exact Hd | exact Hdev].
Qed.

End AddDevice.

(** C7 (as the code has it): [add_device] stores a record of exactly the five
    fields name, type, category, description and added, whether or not the
    IP was registered before; [added] is the time of this call, so a
    registered IP gets a new stamp and loses the fields the old record had
    beyond these five.  Every other record is left as it was. *)
Theorem add_device_stamps_every_call :
  forall (now : nat -> DeviceMapper.datetime)
         (ip name device_type category description : string)
         (w : DeviceMapper.world) (devices : dict value),
    getitem (DeviceMapper.data w) "devices" = Ok (VDict devices) ->
    exists w',
      DeviceMapper.add_device now ip name device_type category description w
      = (Ok tt, w')
      /\ device ip (DeviceMapper.data w')
         = Ok (VDict [("name", VStr name); ("type", VStr device_type);
                      ("category", VStr category);
                      ("description", VStr description);
                      ("added",
                       VStr (DeviceMapper.strftime_seconds
                               (now (DeviceMapper.clock_reads w))))])
      /\ forall ip', ip <> ip' ->
           device ip' (DeviceMapper.data w') = device ip' (DeviceMapper.data w).
Proof.
  intros now ip name device_type category description w devices Hdev.
  unfold getitem in Hdev.
  destruct (DeviceMapper.data w) as [| | | | | |top] eqn:Hd; try discriminate.
  destruct (dict_get "devices" top) as [x|] eqn:Hget; [|discriminate].
  injection Hdev as ->.
  eexists. split; [apply (add_device_replaces _ _ _ _ _ _ _ _ _ Hd Hget)|].
  simpl. split.
  - apply device_with_device_eq.
  - intros ip' Hne. now apply device_with_device_ne.
Qed.

Lemma add_device_stamps_every_call_witness :
  exists w',
    DeviceMapper.add_device Samples.clock "192.168.1.50" "Smart TV" "Entertainment"
      "Media" "Bedroom TV"
      (Samples.world_of (Samples.registry_of [("192.168.1.50", Samples.tv)])
         Samples.no_files)
    = (Ok tt, w')
    /\ device "192.168.1.50" (DeviceMapper.data w')
       = Ok (VDict [("name", VStr "Smart TV"); ("type", VStr "Entertainment");
                    ("category", VStr "Media"); ("description", VStr "Bedroom TV");
                    ("added", VStr "2024-03-07 09:05:00")])
    /\ forall ip', "192.168.1.50" <> ip' ->
         device ip' (DeviceMapper.data w')
         = device ip'
             (DeviceMapper.data
                (Samples.world_of (Samples.registry_of [("192.168.1.50", Samples.tv)])
                   Samples.no_files)).
Proof.
  exact (add_device_stamps_every_call Samples.clock "192.168.1.50" "Smart TV"
           "Entertainment" "Media" "Bedroom TV"
           (Samples.world_of (Samples.registry_of [("192.168.1.50", Samples.tv)])
              Samples.no_files)
           [("192.168.1.50", Samples.tv)] eq_refl).
Defined.

(** C7 (as stated) fails: adding an IP that is already registered replaces
    the time it was first added by the time of the second call. *)
Lemma add_device_restamps_registered_ip :
  let w0 := Samples.fresh_world Samples.no_files in
  let w1 := snd (DeviceMapper.add_device Samples.clock "192.168.1.50" "Smart TV"
                   "Entertainment" "Media" "Living room TV" w0) in
  let w2 := snd (DeviceMapper.add_device Samples.clock "192.168.1.50" "Smart TV"
                   "Entertainment" "Media" "Bedroom TV" w1) in
  device_field "192.168.1.50" "added" (DeviceMapper.data w1)
  = Ok (VStr "2024-03-07 09:05:01")
  /\ device_field "192.168.1.50" "added" (DeviceMapper.data w2)
     = Ok (VStr "2024-03-07 09:05:02")
  /\ device_field "192.168.1.50" "added" (DeviceMapper.data w2)
     <> device_field "192.168.1.50" "added" (DeviceMapper.data w1).
Proof.
  vm_compute. repeat split; discriminate.
Qed.

(* ===================================================================== *)
(** ** Saving the registry *)
(* ===================================================================== *)

Section Save.

Import DeviceMapper.

Variable device_map_file : string.
Variable now : nat -> datetime.

(** The registry has a metadata dict and devices that can be counted: the
    save goes through its bookkeeping and reaches the write. *)
Lemma save_upto_ok steps w top meta devices n :
  data w = VDict top ->
  dict_get "metadata" top = Some (VDict meta) ->
  dict_get "devices" top = Some devices ->
  len devices = Ok n ->
  let w1 := with_data (tick w)
              (stamped (strftime_date (now (clock_reads w))) n meta top) in
  save_upto device_map_file now steps w
  = if read_only w device_map_file then (Ok false, w1)
    else (Ok true,
          with_files w1
            (run_effects (files w)
               (match steps with
                | Some k => firstn k (save_effects device_map_file (data w1))
                | None => save_effects device_map_file (data w1)
                end))).
Proof.
  intros Hd Hmeta Hdev Hlen w1.
  unfold save_upto, bind at 1. unfold read_clock.
  unfold bind at 1. erewrite setitem2_ok; [|exact Hd|exact Hmeta].
  unfold bind at 1. unfold get_data at 1. unfold bind at 1. unfold lift at 1.
  cbn [data with_data getitem].
  rewrite dict_get_set_ne by discriminate. rewrite Hdev.
  unfold bind at 1. unfold lift at 1. rewrite Hlen.
  unfold bind at 1. erewrite setitem2_ok; [|reflexivity|apply dict_get_set_eq].
  cbn [data with_data read_only files tick]. rewrite dict_set_set_eq.
  reflexivity.
Qed.

(** Otherwise an exception leaves the method before any file is opened. *)
Lemma save_upto_cases steps w :
  (exists top meta devices n,
      data w = VDict top /\ dict_get "metadata" top = Some (VDict meta)
      /\ dict_get "devices" top = Some devices /\ len devices = Ok n)
  \/ (exists e w', save_upto device_map_file now steps w = (Raise e, w')
                   /\ files w' = files w).
Proof.
  destruct (setitem2_cases "metadata" "last_updated"
              (VStr (strftime_date (now (clock_reads w)))) (tick w))
    as [(top & meta & Hd & Hmeta & E1) | (e & E1)].
  2: { right. exists e, (tick w). unfold save_upto, bind at 1. unfold read_clock.
       unfold bind at 1. rewrite E1. auto. }
  simpl in Hd.
  destruct (dict_get "devices" top) as [devices|] eqn:Hdev.
  2: { right. eexists. eexists. unfold save_upto, bind at 1. unfold read_clock.
       unfold bind at 1. rewrite E1.
       unfold bind at 1. unfold get_data at 1. unfold bind at 1. unfold lift at 1.
       cbn [data with_data getitem]. rewrite dict_get_set_ne by discriminate.
       rewrite Hdev. split; reflexivity. }
  destruct (len devices) as [n|e] eqn:Hlen.
  - left. exists top, meta, devices, n. auto.
  - right. eexists. eexists. unfold save_upto, bind at 1. unfold read_clock.
    unfold bind at 1. rewrite E1.
    unfold bind at 1. unfold get_data at 1. unfold bind at 1. unfold lift at 1.
    cbn [data with_data getitem]. rewrite dict_get_set_ne by discriminate.
    rewrite Hdev. unfold bind at 1. unfold lift at 1. rewrite Hlen.
    split; reflexivity.
Qed.

Lemma run_effects_elsewhere fs es p :
  (forall e, In e es ->
     match e with Truncate q | Append q _ => q <> p end) ->
  run_effects fs es p = fs p.
Proof.
  unfold run_effects. revert fs.
  induction es as [|e es IH]; intros fs Hall; simpl; [reflexivity|].
  rewrite IH by (intros e' He'; apply Hall; now right).
  specialize (Hall e (or_introl eq_refl)).
  destruct e as [q|q text]; simpl;
    (destruct (p =? q)%string eqn:E; [apply String.eqb_eq in E; congruence | reflexivity]).
Qed.

End Save.

(** C2 (as the code has it): [save_device_map] writes the registry file in
    place.  No other file is written (there is no temporary file and no
    rename); opening the file empties it, so a save interrupted after the
    open leaves an empty registry file, whatever it held before; only a save
    that runs to its end leaves the serialized DeviceMap in it. *)
Theorem save_writes_registry_file_in_place :
  forall (device_map_file : string) (now : nat -> DeviceMapper.datetime)
         (steps : option nat) (w w' : DeviceMapper.world) (r : result bool),
    DeviceMapper.save_upto device_map_file now steps w = (r, w') ->
    (forall p, p <> device_map_file ->
       DeviceMapper.files w' p = DeviceMapper.files w p)
    /\ (r = Ok true ->
        DeviceMapper.files w' device_map_file
        = match steps with
          | Some 0 => DeviceMapper.files w device_map_file
          | Some 1 => Some EmptyString
          | _ => Some (Json.dumps (DeviceMapper.data w'))
          end).
Proof.
  intros file now steps w w' r E.
  destruct (save_upto_cases file now steps w)
    as [(top & meta & devices & n & Hd & Hmeta & Hdev & Hlen) | (e & w1 & E1 & Hfiles)].
  2: { rewrite E1 in E. injection E as <- <-. split; [now rewrite Hfiles | discriminate]. }
  rewrite (save_upto_ok file now steps w top meta devices n Hd Hmeta Hdev Hlen) in E.
  cbv zeta in E.
  destruct (DeviceMapper.read_only w file).
  { injection E as <- <-. split; [reflexivity | discriminate]. }
  injection E as <- <-. cbn [DeviceMapper.files DeviceMapper.with_files DeviceMapper.data
                             DeviceMapper.with_data DeviceMapper.tick].
  split.
  - intros p Hp. apply run_effects_elsewhere. intros e He.
    assert (In e (DeviceMapper.save_effects file
                    (stamped (DeviceMapper.strftime_date
                                (now (DeviceMapper.clock_reads w))) n meta top))) as He'.
    { destruct steps as [k|]; [exact (firstn_incl k _ e He) | exact He]. }
    destruct He' as [<-|[<-|[]]]; congruence.
  - intros _. unfold DeviceMapper.save_effects, DeviceMapper.run_effects.
    destruct steps as [[|[|k]]|]; simpl; rewrite ?firstn_nil; simpl;
      rewrite ?String.eqb_refl; reflexivity.
Qed.

Lemma save_writes_registry_file_in_place_witness :
  let w' := snd (DeviceMapper.save_upto "device-map.json" Samples.clock (Some 1)
                   Samples.tv_world) in
  (forall p, p <> "device-map.json" ->
     DeviceMapper.files w' p = DeviceMapper.files Samples.tv_world p)
  /\ (Ok true = Ok true ->
      DeviceMapper.files w' "device-map.json" = Some EmptyString).
Proof.
  intros w'.
  apply (save_writes_registry_file_in_place "device-map.json" Samples.clock (Some 1)
           Samples.tv_world w' (Ok true)).
  vm_compute. reflexivity.
Defined.

(** C2 (as stated) fails: a save interrupted after it has opened the
    registry file leaves that file empty.  The device the file held is gone
    from it, and the next start, finding no JSON there, begins with an empty
    registry. *)
Lemma interrupted_save_empties_registry_file :
  let w1 := snd (DeviceMapper.save_upto "device-map.json" Samples.clock (Some 1)
                   Samples.tv_world) in
  DeviceMapper.files Samples.tv_world "device-map.json" = Some Samples.tv_registry_text
  /\ device "192.168.1.50" (DeviceMapper.data Samples.tv_world) = Ok Samples.tv
  /\ DeviceMapper.files w1 "device-map.json" = Some EmptyString
  /\ DeviceMapper.files w1 "device-map.json"
     <> DeviceMapper.files Samples.tv_world "device-map.json"
  /\ match fst (DeviceMapper._load_device_map "device-map.json" Samples.clock w1) with
     | Ok d => getitem d "devices"
     | Raise e => Raise e
     end = Ok (VDict []).
Proof.
  vm_compute. repeat split; discriminate.
Qed.

(* ===================================================================== *)
(** ** Saving and loading the registry *)
(* ===================================================================== *)

Section SerializableFacts.

Import Json.

Lemma serializable_dict (kvs : list (string * value)) :
  serializable (VDict kvs) = true
  <-> NoDup (dict_keys kvs) /\ Forall (fun kv => serializable (snd kv) = true) kvs.
Proof.
  change (serializable (VDict kvs))
    with (distinct_keys (map fst kvs) && all_values_serializable kvs).
  rewrite andb_true_iff, distinct_NoDup. unfold dict_keys.
  assert (all_values_serializable kvs = true
          <-> Forall (fun kv => serializable (snd kv) = true) kvs) as ->; [|tauto].
  induction kvs as [|[k x] kvs IH]; simpl.
  - split; [constructor | reflexivity].
  - rewrite andb_true_iff. split.
    + intros [Hx Hrest]. constructor; [exact Hx | now apply IH].
    + intros H. inversion H; subst. split; [assumption | now apply IH].
Qed.

Lemma serializable_dict_set k v (d : dict value) :
  serializable (VDict d) = true ->
  serializable v = true ->
  serializable (VDict (dict_set k v d)) = true.
Proof.
  rewrite !serializable_dict. intros [Hkeys Hvals] Hv. split.
  - now apply dict_set_keys_NoDup.
  - now apply (dict_set_Forall (fun x => serializable x = true)).
Qed.

Lemma serializable_dict_get k v (d : dict value) :
  serializable (VDict d) = true ->
  dict_get k d = Some v ->
  serializable v = true.
Proof.
  rewrite serializable_dict. intros [_ Hvals] Hget.
  apply dict_get_In in Hget. rewrite Forall_forall in Hvals. exact (Hvals _ Hget).
Qed.

Lemma serializable_stamped date n meta top :
  serializable (VDict top) = true ->
  dict_get "metadata" top = Some (VDict meta) ->
  serializable (stamped date n meta top) = true.
Proof.
  intros Htop Hmeta. unfold stamped.
  apply serializable_dict_set; [assumption|].
  apply serializable_dict_set; [|reflexivity].
  apply serializable_dict_set; [|reflexivity].
  exact (serializable_dict_get _ _ _ Htop Hmeta).
Qed.

End SerializableFacts.



(** The same, on the sample registry: a process that starts with nothing in
    memory and finds the file the save wrote loads the saved registry, the
    TV and its seven fields among it; one that finds the file as it was
    after the save had only opened it loads the empty map instead. *)
Example load_reads_the_saved_file :
  let saved := snd (DeviceMapper.save_device_map "device-map.json" Samples.clock
                      Samples.tv_world) in
  let opened := snd (DeviceMapper.save_upto "device-map.json" Samples.clock (Some 1)
                       Samples.tv_world) in
  let later := Samples.world_of VNone (DeviceMapper.files saved) in
  let broken := Samples.world_of VNone (DeviceMapper.files opened) in
  fst (DeviceMapper._load_device_map "device-map.json" Samples.clock later)
  = Ok (DeviceMapper.data saved)
  /\ device "192.168.1.50" (DeviceMapper.data saved) = Ok Samples.tv
  /\ metadata_field "total_devices" (DeviceMapper.data saved) = Ok (VInt 1)
  /\ match fst (DeviceMapper._load_device_map "device-map.json" Samples.clock broken) with
     | Ok d => getitem d "devices"
     | Raise e => Raise e
     end = Ok (VDict []).
Proof. vm_compute. repeat split. Qed.

(* ===================================================================== *)
(** ** One step of the reconciliation *)
(* ===================================================================== *)

Section ReconcileOne.

Import DeviceMapper.

Variable now : nat -> datetime.
Variable set_order : pyset -> list string.

Lemma reconcile_one_known ip count domains w top devices info :
  data w = VDict top ->
  dict_get "devices" top = Some (VDict devices) ->
  dict_get ip devices = Some (VDict info) ->
  reconcile_one now set_order ip count domains w
  = (Ok tt,
     with_data w
       (with_device ip (observed count (top_domains set_order ip domains) info)
          devices top)).
Proof.
  intros Hd Hdev Hip.
  unfold reconcile_one, bind at 1. unfold is_registered, bind, get_data, lift.
  rewrite Hd. simpl. rewrite Hdev. simpl. unfold dict_mem. rewrite Hip.
  rewrite (setitem3_ok _ _ _ _ _ top devices info Hd Hdev Hip).
  erewrite setitem3_ok.
  2: reflexivity.
  2: apply dict_get_set_eq.
  2: apply dict_get_set_eq.
  unfold with_device, observed, with_data. simpl.
  now rewrite !dict_set_set_eq.
Qed.

Lemma reconcile_one_new ip count domains w top devices :
  data w = VDict top ->
  dict_get "devices" top = Some (VDict devices) ->
  dict_get ip devices = None ->
  reconcile_one now set_order ip count domains w
  = (Ok tt,
     with_data (tick w)
       (with_device ip
          (observed count (top_domains set_order ip domains)
             (discovered ip count (now (clock_reads w))))
          devices top)).
Proof.
  intros Hd Hdev Hip.
  unfold reconcile_one, bind at 1. unfold is_registered, bind, get_data, lift.
  rewrite Hd. simpl. rewrite Hdev. simpl. unfold dict_mem. rewrite Hip.
  unfold add_device, bind at 1. unfold read_clock.
  erewrite setitem2_ok.
  2: exact Hd.
  2: exact Hdev.
  erewrite setitem3_ok.
  2: reflexivity.
  2: apply dict_get_set_eq.
  2: apply dict_get_set_eq.
  erewrite setitem3_ok.
  2: reflexivity.
  2: apply dict_get_set_eq.
  2: apply dict_get_set_eq.
  unfold with_device, observed, discovered, with_data, tick. simpl.
  now rewrite !dict_set_set_eq.
Qed.

Lemma reconcile_one_bad ip count domains w top devices x :
  data w = VDict top ->
  dict_get "devices" top = Some (VDict devices) ->
  dict_get ip devices = Some x ->
  is_dict x = false ->
  reconcile_one now set_order ip count domains w = (Raise TypeError, w).
Proof.
  intros Hd Hdev Hip Hx.
  unfold reconcile_one, bind at 1. unfold is_registered, bind, get_data, lift.
  rewrite Hd. simpl. rewrite Hdev. simpl. unfold dict_mem. rewrite Hip.
  unfold setitem3, bind, get_data, lift. rewrite Hd. simpl. rewrite Hdev. simpl.
  rewrite Hip. destruct x; simpl in *; try reflexivity; discriminate.
Qed.

End ReconcileOne.

(* ===================================================================== *)
(** ** The reconciliation loop *)
(* ===================================================================== *)

Section ReconcileLoop.

Import DeviceMapper.

Variable now : nat -> datetime.
Variable set_order : pyset -> list string.

(** Whatever the outcome of a step for [ip], the data afterwards are the
    data before or differ from them in the record of [ip] alone; the files
    are not touched. *)
Lemma reconcile_one_effect ip count domains w r w' :
  reconcile_one now set_order ip count domains w = (r, w') ->
  files w' = files w /\ read_only w' = read_only w
  /\ (data w' = data w
      \/ exists top devices info,
           data w = VDict top /\ dict_get "devices" top = Some (VDict devices)
           /\ data w' = with_device ip info devices top).
Proof.
  assert (exists d, data w = d) as [d Hd] by eauto.
  destruct d as [| | | | | |top];
    try (unfold reconcile_one, is_registered, bind, get_data, lift;
         rewrite Hd; simpl; intros [= <- <-]; auto).
  destruct (dict_get "devices" top) as [devs|] eqn:Hdev.
  2: { unfold reconcile_one, is_registered, bind, get_data, lift.
       rewrite Hd. simpl. rewrite Hdev. simpl. intros [= <- <-]. auto. }
  destruct (is_dict devs) eqn:Hnd.
  - destruct devs as [| | | | | |devices]; try discriminate.
    destruct (dict_get ip devices) as [x|] eqn:Hip.
    + destruct (is_dict x) eqn:Hx.
      * destruct x; try discriminate.
        rewrite (reconcile_one_known _ _ _ _ _ _ _ _ _ Hd Hdev Hip).
        intros [= <- <-]. simpl. repeat split; auto. right. eauto 6.
      * rewrite (reconcile_one_bad _ _ _ _ _ _ _ _ _ Hd Hdev Hip Hx).
        intros [= <- <-]. auto.
    + rewrite (reconcile_one_new _ _ _ _ _ _ _ _ Hd Hdev Hip).
      intros [= <- <-]. simpl. repeat split; auto. right. eauto 6.
  - unfold reconcile_one, is_registered, bind, get_data, lift.
    rewrite Hd. simpl. rewrite Hdev.
    destruct devs; simpl in *; try discriminate;
      try (intros [= <- <-]; now auto);
      match goal with
      | |- context [if ?b then _ else _] => destruct b
      end;
      unfold add_device, read_clock, setitem3, setitem2, bind, get_data, lift;
      simpl; rewrite ?Hd; simpl; rewrite ?Hdev; simpl;
      intros [= <- <-]; auto.
Qed.

(** A step for [ip] leaves every other record, and every other part of the
    registry, as it was. *)
Lemma reconcile_one_frame ip count domains w r w' :
  reconcile_one now set_order ip count domains w = (r, w') ->
  files w' = files w
  /\ (forall ip', ip <> ip' -> device ip' (data w') = device ip' (data w))
  /\ (forall k, k <> "devices" -> getitem (data w') k = getitem (data w) k).
Proof.
  intros E.
  destruct (reconcile_one_effect ip count domains w r w' E) as [Hf [_ Hdata]].
  split; [assumption|].
  destruct Hdata as [-> | (top & devices & info & Hd & Hdev & ->)].
  - split; reflexivity.
  - rewrite Hd. split.
    + intros ip' Hne. now apply device_with_device_ne.
    + intros k Hk. now apply getitem_with_device.
Qed.

Lemma reconcile_items_frame items domains w r w' :
  reconcile_items now set_order items domains w = (r, w') ->
  files w' = files w
  /\ (forall ip', ~ In ip' (map fst items) ->
        device ip' (data w') = device ip' (data w))
  /\ (forall k, k <> "devices" -> getitem (data w') k = getitem (data w) k).
Proof.
  revert w. induction items as [|[ip count] rest IH]; intros w; simpl.
  - intros [= <- <-]. repeat split; reflexivity.
  - unfold bind.
    destruct (reconcile_one now set_order ip count domains w) as [[[]|e] w1] eqn:E;
      destruct (reconcile_one_frame _ _ _ _ _ _ E) as (Hf & Hdev & Htop).
    + intros E'. destruct (IH _ E') as (Hf' & Hdev' & Htop').
      split; [congruence|]. split.
      * intros ip' Hnot. rewrite Hdev' by tauto. apply Hdev. tauto.
      * intros k Hk. rewrite Htop' by assumption. now apply Htop.
    + intros [= <- <-]. split; [assumption|]. split.
      * intros ip' Hnot. apply Hdev. tauto.
      * assumption.
Qed.

End ReconcileLoop.

Section ReconcileResult.

Import DeviceMapper.

Variable now : nat -> datetime.
Variable set_order : pyset -> list string.

(** On a registry of dicts a step succeeds, keeps the registry one of dicts
    and leaves the record of its IP holding the run's figures. *)
Lemma reconcile_one_succeeds ip count domains w :
  registry_ok (data w) = true ->
  exists w',
    reconcile_one now set_order ip count domains w = (Ok tt, w')
    /\ registry_ok (data w') = true
    /\ settled ip count (top_domains set_order ip domains) (data w').
Proof.
  intros Hok. destruct (registry_ok_shape _ Hok) as (top & devices & Hd & Hdev & Hall).
  assert (forall info, settled ip count (top_domains set_order ip domains)
            (with_device ip (observed count (top_domains set_order ip domains) info)
               devices top)) as Hsettled.
  { intros info. eexists. split; [apply device_with_device_eq|]. unfold observed. split.
    - rewrite dict_get_set_ne by discriminate. apply dict_get_set_eq.
    - apply dict_get_set_eq. }
  destruct (dict_get ip devices) as [x|] eqn:Hip.
  - destruct (all_dicts_get _ _ _ Hall Hip) as [info ->].
    eexists. split; [apply (reconcile_one_known _ _ _ _ _ _ _ _ _ Hd Hdev Hip)|].
    simpl. split; [now apply registry_ok_with_device | apply Hsettled].
  - eexists. split; [apply (reconcile_one_new _ _ _ _ _ _ _ _ Hd Hdev Hip)|].
    simpl. split; [now apply registry_ok_with_device | apply Hsettled].
Qed.

(** A record that already holds the run's figures is left as it is: the
    step changes nothing at all. *)
Lemma reconcile_one_settled ip count domains w :
  settled ip count (top_domains set_order ip domains) (data w) ->
  reconcile_one now set_order ip count domains w = (Ok tt, w).
Proof.
  intros (info & Hdevice & Hq & Hc).
  destruct (device_shape _ _ _ Hdevice) as (top & devices & Hd & Hdev & Hip).
  rewrite (reconcile_one_known _ _ _ _ _ _ _ _ _ Hd Hdev Hip).
  f_equal. unfold with_device, observed.
  rewrite (dict_set_same "query_count" (VInt count) info Hq).
  rewrite (dict_set_same "common_domains" _ info Hc).
  rewrite (dict_set_same ip (VDict info) devices Hip).
  rewrite (dict_set_same "devices" (VDict devices) top Hdev).
  rewrite <- Hd. apply with_data_same.
Qed.

Lemma settled_frame ip count td ip' count' domains w r w' :
  ip' <> ip ->
  reconcile_one now set_order ip' count' domains w = (r, w') ->
  settled ip count td (data w) -> settled ip count td (data w').
Proof.
  intros Hne E (info & Hdevice & Hq & Hc).
  destruct (reconcile_one_frame _ _ _ _ _ _ _ _ E) as (_ & Hframe & _).
  exists info. rewrite Hframe by assumption. auto.
Qed.

(** On a registry of dicts the loop succeeds, and every IP of the run ends
    with the run's figures. *)
Lemma reconcile_items_succeeds items domains w :
  NoDup (dict_keys items) ->
  registry_ok (data w) = true ->
  exists w',
    reconcile_items now set_order items domains w = (Ok tt, w')
    /\ registry_ok (data w') = true
    /\ forall ip count, In (ip, count) items ->
         settled ip count (top_domains set_order ip domains) (data w').
Proof.
  unfold dict_keys. revert w.
  induction items as [|[ip count] rest IH]; intros w Hnd Hok; simpl.
  - exists w. repeat split; auto. intros ? ? [].
  - inversion Hnd as [|? ? Hnot Hnd']; subst.
    destruct (reconcile_one_succeeds ip count domains w Hok) as (w1 & E1 & Hok1 & Hs1).
    destruct (IH w1 Hnd' Hok1) as (w' & E' & Hok' & Hs').
    exists w'. unfold bind. rewrite E1. split; [assumption|]. split; [assumption|].
    intros ip0 count0 [[= <- <-]|Hin]; [|now apply Hs'].
    destruct Hs1 as (info & Hdevice & Hq & Hc). exists info.
    destruct (reconcile_items_frame _ _ _ _ _ _ _ E') as (_ & Hframe & _).
    rewrite Hframe by assumption. auto.
Qed.

(** Once every IP of the run holds the run's figures, running the loop
    again changes nothing. *)
Lemma reconcile_items_settled items domains w :
  (forall ip count, In (ip, count) items ->
     settled ip count (top_domains set_order ip domains) (data w)) ->
  reconcile_items now set_order items domains w = (Ok tt, w).
Proof.
  induction items as [|[ip count] rest IH]; intros Hall; simpl; [reflexivity|].
  unfold bind. rewrite reconcile_one_settled by (apply Hall; now left).
  apply IH. intros ip0 count0 Hin. apply Hall. now right.
Qed.

End ReconcileResult.

(* ===================================================================== *)
(** ** Reconciliation: what a run writes *)
(* ===================================================================== *)

(** C4: one unseen client, 10.0.0.5 with 7 queries, reconciled against a
    registry with no device, leaves exactly one device, keyed 10.0.0.5,
    named Auto-detected-5, of type and category Unknown, its description
    citing the 7 queries and its query_count 7. *)
Theorem reconcile_discovers_unseen_ip :
  forall (now : nat -> DeviceMapper.datetime) (set_order : pyset -> list string)
         (domains : dict pyset) (w : DeviceMapper.world),
    getitem (DeviceMapper.data w) "devices" = Ok (VDict []) ->
    exists w',
      DeviceMapper.reconcile now set_order
        {| DeviceMapper.device_activity := [("10.0.0.5", 7%Z)];
           DeviceMapper.device_domains := domains |} w
      = (Ok tt, w')
      /\ getitem (DeviceMapper.data w') "devices"
         = Ok (VDict
                 [("10.0.0.5",
                   VDict [("name", VStr "Auto-detected-5");
                          ("type", VStr "Unknown");
                          ("category", VStr "Unknown");
                          ("description",
                           VStr "Auto-detected from DNS logs with 7 queries");
                          ("added",
                           VStr (DeviceMapper.strftime_seconds
                                   (now (DeviceMapper.clock_reads w))));
                          ("query_count", VInt 7);
                          ("common_domains",
                           DeviceMapper.top_domains set_order "10.0.0.5" domains)])]).
Proof.
  intros now set_order domains w Hdev.
  unfold getitem in Hdev.
  destruct (DeviceMapper.data w) as [| | | | | |top] eqn:Hd; try discriminate.
  destruct (dict_get "devices" top) as [x|] eqn:Hget; [|discriminate].
  injection Hdev as ->.
  eexists. unfold DeviceMapper.reconcile. simpl. unfold DeviceMapper.bind at 1.
  rewrite (reconcile_one_new now set_order "10.0.0.5" 7 domains w top [] Hd Hget eq_refl).
  split; [reflexivity|].
  simpl. unfold with_device, getitem. now rewrite dict_get_set_eq.
Qed.

Lemma reconcile_discovers_unseen_ip_witness :
  exists w',
    DeviceMapper.reconcile Samples.clock Samples.insertion_order
      {| DeviceMapper.device_activity := [("10.0.0.5", 7%Z)];
         DeviceMapper.device_domains := [("10.0.0.5", ["a.com"; "b.com"])] |}
      (Samples.fresh_world Samples.no_files)
    = (Ok tt, w')
    /\ getitem (DeviceMapper.data w') "devices"
       = Ok (VDict
               [("10.0.0.5",
                 VDict [("name", VStr "Auto-detected-5");
                        ("type", VStr "Unknown");
                        ("category", VStr "Unknown");
                        ("description",
                         VStr "Auto-detected from DNS logs with 7 queries");
                        ("added", VStr "2024-03-07 09:05:01");
                        ("query_count", VInt 7);
                        ("common_domains", VList [VStr "a.com"; VStr "b.com"])])]).
Proof.
  exact (reconcile_discovers_unseen_ip Samples.clock Samples.insertion_order
           [("10.0.0.5", ["a.com"; "b.com"])]
           (Samples.fresh_world Samples.no_files) eq_refl).
Defined.

(** C5: reconciliation overwrites.  On a registry whose records are dicts it
    succeeds, every IP seen in the run with count [c] ends with
    [query_count = c] whatever it held before, and reconciling the same run
    once more changes nothing (the count stays [c], it is not added up). *)
Theorem reconcile_overwrites_query_count :
  forall (now : nat -> DeviceMapper.datetime) (set_order : pyset -> list string)
         (acc : DeviceMapper.activity) (w : DeviceMapper.world),
    registry_ok (DeviceMapper.data w) = true ->
    NoDup (dict_keys (DeviceMapper.device_activity acc)) ->
    exists w',
      DeviceMapper.reconcile now set_order acc w = (Ok tt, w')
      /\ (forall ip c, In (ip, c) (DeviceMapper.device_activity acc) ->
            device_field ip "query_count" (DeviceMapper.data w') = Ok (VInt c))
      /\ DeviceMapper.reconcile now set_order acc w' = (Ok tt, w').
Proof.
  intros now set_order acc w Hok Hnd. unfold DeviceMapper.reconcile.
  destruct (reconcile_items_succeeds now set_order _ (DeviceMapper.device_domains acc)
              w Hnd Hok) as (w' & E & _ & Hsettled).
  exists w'. split; [assumption|]. split.
  - intros ip c Hin. destruct (Hsettled ip c Hin) as (info & Hdevice & Hq & _).
    unfold device_field. rewrite Hdevice. unfold getitem. now rewrite Hq.
  - now apply reconcile_items_settled.
Qed.

Lemma reconcile_overwrites_query_count_witness :
  exists w',
    DeviceMapper.reconcile Samples.clock Samples.insertion_order
      {| DeviceMapper.device_activity := [("192.168.1.50", 7%Z); ("10.0.0.5", 2%Z)];
         DeviceMapper.device_domains :=
           [("192.168.1.50", ["x.com"]); ("10.0.0.5", ["y.com"])] |}
      (Samples.world_of (Samples.registry_of [("192.168.1.50", Samples.tv)])
         Samples.no_files)
    = (Ok tt, w')
    /\ (forall ip c, In (ip, c) [("192.168.1.50", 7%Z); ("10.0.0.5", 2%Z)] ->
          device_field ip "query_count" (DeviceMapper.data w') = Ok (VInt c))
    /\ DeviceMapper.reconcile Samples.clock Samples.insertion_order
         {| DeviceMapper.device_activity := [("192.168.1.50", 7%Z); ("10.0.0.5", 2%Z)];
            DeviceMapper.device_domains :=
              [("192.168.1.50", ["x.com"]); ("10.0.0.5", ["y.com"])] |} w'
       = (Ok tt, w').
Proof.
  apply (reconcile_overwrites_query_count Samples.clock Samples.insertion_order
           {| DeviceMapper.device_activity := [("192.168.1.50", 7%Z); ("10.0.0.5", 2%Z)];
              DeviceMapper.device_domains :=
                [("192.168.1.50", ["x.com"]); ("10.0.0.5", ["y.com"])] |}
           (Samples.world_of (Samples.registry_of [("192.168.1.50", Samples.tv)])
              Samples.no_files)).
  - reflexivity.
  - apply distinct_NoDup. reflexivity.
Defined.

(** C10: reconciliation touches only the devices seen in the run.  Whatever
    its outcome, the record of an IP that is not in the run keeps every one
    of its fields, and every part of the registry other than the devices
    (the metadata among them) is left as it was. *)
Theorem reconcile_leaves_unobserved_devices :
  forall (now : nat -> DeviceMapper.datetime) (set_order : pyset -> list string)
         (acc : DeviceMapper.activity) (w w' : DeviceMapper.world)
         (r : result unit) (ip : string),
    DeviceMapper.reconcile now set_order acc w = (r, w') ->
    ~ In ip (dict_keys (DeviceMapper.device_activity acc)) ->
    device ip (DeviceMapper.data w') = device ip (DeviceMapper.data w)
    /\ (forall field,
          device_field ip field (DeviceMapper.data w')
          = device_field ip field (DeviceMapper.data w))
    /\ (forall k, k <> "devices" ->
          getitem (DeviceMapper.data w') k = getitem (DeviceMapper.data w) k).
Proof.
  intros now set_order acc w w' r ip E Hnot.
  destruct (reconcile_items_frame _ _ _ _ _ _ _ E) as (_ & Hdev & Htop).
  split; [now apply Hdev|]. split; [|assumption].
  intros field. unfold device_field. now rewrite Hdev.
Qed.

Lemma reconcile_leaves_unobserved_devices_witness :
  let w := Samples.world_of
             (Samples.registry_of
                [("192.168.1.50", Samples.tv); ("192.168.1.60", Samples.printer)])
             Samples.no_files in
  let acc := {| DeviceMapper.device_activity := [("192.168.1.60", 3%Z)];
                DeviceMapper.device_domains := [("192.168.1.60", ["x.com"])] |} in
  let w' := snd (DeviceMapper.reconcile Samples.clock Samples.insertion_order acc w) in
  device "192.168.1.50" (DeviceMapper.data w')
  = device "192.168.1.50" (DeviceMapper.data w)
  /\ (forall field,
        device_field "192.168.1.50" field (DeviceMapper.data w')
        = device_field "192.168.1.50" field (DeviceMapper.data w))
  /\ (forall k, k <> "devices" ->
        getitem (DeviceMapper.data w') k = getitem (DeviceMapper.data w) k).
Proof.
  intros w acc w'.
  apply (reconcile_leaves_unobserved_devices Samples.clock Samples.insertion_order
           acc w w' (Ok tt) "192.168.1.50").
  - reflexivity.
  - simpl. intros [H|[]]. discriminate H.
Defined.

(* ===================================================================== *)
(** ** Reconciliation: a record that cannot be updated *)
(* ===================================================================== *)

Section ReconcileFailure.

Import DeviceMapper.

Variable now : nat -> datetime.
Variable set_order : pyset -> list string.

Lemma reconcile_items_app before after domains w :
  reconcile_items now set_order (before ++ after)%list domains w
  = match reconcile_items now set_order before domains w with
    | (Ok _, w1) => reconcile_items now set_order after domains w1
    | (Raise e, w1) => (Raise e, w1)
    end.
Proof.
  revert w. induction before as [|[ip count] rest IH]; intros w; simpl; [reflexivity|].
  unfold bind.
  destruct (reconcile_one now set_order ip count domains w) as [[[]|e] w1];
    [apply IH | reflexivity].
Qed.

(** The loop stops at the first record that is not a dict: the exception
    leaves it, with the registry as the earlier IPs of the run left it. *)
Lemma reconcile_items_stops before ip count after domains w w1 x :
  reconcile_items now set_order before domains w = (Ok tt, w1) ->
  device ip (data w1) = Ok x ->
  is_dict x = false ->
  reconcile_items now set_order (before ++ (ip, count) :: after)%list domains w
  = (Raise TypeError, w1).
Proof.
  intros Hbefore Hdevice Hx. rewrite reconcile_items_app, Hbefore. simpl.
  destruct (device_shape _ _ _ Hdevice) as (top & devices & Hd & Hdev & Hip).
  unfold bind.
  now rewrite (reconcile_one_bad now set_order ip count domains w1 top devices x).
Qed.

End ReconcileFailure.

(** C8 (as the code has it): a record that cannot be updated is not skipped.
    When the record of an IP of the run is not a dict, the analysis stops at
    that IP and reports failure; the registry is left as the IPs that came
    earlier in the run made it, so the records of that IP and of every IP
    after it are what they were before the run. *)
Theorem analysis_stops_at_bad_record :
  forall (now : nat -> DeviceMapper.datetime) (set_order : pyset -> list string)
         (log_file text : string) (acc : DeviceMapper.activity)
         (before after : list (string * Z)) (ip : string) (count : Z)
         (w w1 : DeviceMapper.world) (x : value),
    DeviceMapper.files w log_file = Some text ->
    DeviceMapper.scan_lines (DeviceMapper.readlines text) DeviceMapper.no_activity
    = Ok acc ->
    DeviceMapper.device_activity acc = (before ++ (ip, count) :: after)%list ->
    DeviceMapper.reconcile_items now set_order before
      (DeviceMapper.device_domains acc) w = (Ok tt, w1) ->
    device ip (DeviceMapper.data w1) = Ok x ->
    is_dict x = false ->
    DeviceMapper.analyze_dns_log now set_order log_file w = (Ok false, w1)
    /\ forall ip', ~ In ip' (dict_keys before) ->
         device ip' (DeviceMapper.data w1) = device ip' (DeviceMapper.data w).
Proof.
  intros now set_order log_file text acc before after ip count w w1 x
         Hfile Hscan Hact Hbefore Hdevice Hx.
  split.
  - unfold DeviceMapper.analyze_dns_log, DeviceMapper.reconcile.
    rewrite Hfile, Hscan, Hact.
    now rewrite (reconcile_items_stops now set_order before ip count after _ w w1 x).
  - destruct (reconcile_items_frame _ _ _ _ _ _ _ Hbefore) as (_ & Hframe & _).
    exact Hframe.
Qed.

Lemma analysis_stops_at_bad_record_witness :
  let w1 := snd (DeviceMapper.reconcile_items Samples.clock Samples.insertion_order
                   [("10.0.0.1", 1%Z)]
                   [("10.0.0.1", ["x.com"]); ("10.0.0.2", ["y.com"]);
                    ("10.0.0.3", ["z.com"])]
                   Samples.damaged_world) in
  DeviceMapper.analyze_dns_log Samples.clock Samples.insertion_order "ctrld.log"
    Samples.damaged_world = (Ok false, w1)
  /\ forall ip', ~ In ip' (dict_keys [("10.0.0.1", 1%Z)]) ->
       device ip' (DeviceMapper.data w1)
       = device ip' (DeviceMapper.data Samples.damaged_world).
Proof.
  intros w1.
  apply (analysis_stops_at_bad_record Samples.clock Samples.insertion_order
           "ctrld.log" Samples.three_clients_log
           {| DeviceMapper.device_activity :=
                [("10.0.0.1", 1%Z); ("10.0.0.2", 1%Z); ("10.0.0.3", 1%Z)];
              DeviceMapper.device_domains :=
                [("10.0.0.1", ["x.com"]); ("10.0.0.2", ["y.com"]);
                 ("10.0.0.3", ["z.com"])] |}
           [("10.0.0.1", 1%Z)] [("10.0.0.3", 1%Z)] "10.0.0.2" 1%Z
           Samples.damaged_world w1 (VStr "damaged")).
  - reflexivity.
  - vm_compute. reflexivity.
  - reflexivity.
  - reflexivity.
  - vm_compute. reflexivity.
  - reflexivity.
Defined.

(** C8 (as stated) fails: with the record of 10.0.0.2 damaged, the run over
    three clients reports failure, and 10.0.0.3, which comes after it in the
    log, is not updated (its query_count is still 40, not 1); only 10.0.0.1,
    which came first, was. *)
Lemma analysis_aborts_on_damaged_record :
  let out := DeviceMapper.analyze_dns_log Samples.clock Samples.insertion_order
               "ctrld.log" Samples.damaged_world in
  fst out = Ok false
  /\ device_field "10.0.0.1" "query_count" (DeviceMapper.data (snd out)) = Ok (VInt 1)
  /\ device_field "10.0.0.3" "query_count" (DeviceMapper.data (snd out)) = Ok (VInt 40)
  /\ device_field "10.0.0.3" "query_count" (DeviceMapper.data (snd out)) <> Ok (VInt 1).
Proof.
  vm_compute. repeat split; discriminate.
Qed.

(* ===================================================================== *)
(** ** What a pass over the log gathers *)
(* ===================================================================== *)

Section ScanFacts.

Import DeviceMapper.

Lemma set_add_NoDup x s : NoDup s -> NoDup (set_add x s).
Proof.
  intros Hnd. unfold set_add. destruct (existsb (String.eqb x) s) eqn:E; [assumption|].
  apply NoDup_rev in Hnd. rewrite <- (rev_involutive (s ++ [x])).
  apply NoDup_rev. rewrite rev_app_distr. simpl. constructor; [|assumption].
  rewrite <- in_rev. intros Hin.
  assert (existsb (String.eqb x) s = true) as E'.
  { apply existsb_exists. exists x. split; [assumption | apply String.eqb_refl]. }
  congruence.
Qed.

Lemma record_query_ok ip dom acc :
  activity_ok acc -> activity_ok (record_query ip dom acc).
Proof.
  intros [Hkeys Hsets]. split; simpl.
  - now apply dict_set_keys_NoDup.
  - apply dict_set_Forall; [assumption|]. apply set_add_NoDup.
    apply (dict_get_default_Forall (@NoDup string)); [assumption | constructor].
Qed.

Lemma scan_line_ok line acc acc' :
  scan_line line acc = Ok acc' -> activity_ok acc -> activity_ok acc'.
Proof.
  unfold scan_line. intros E Hok.
  destruct (Json.loads (strip line)) as [log_entry|[]]; try discriminate;
    try (injection E as <-; assumption).
  destruct (get_method log_entry "message" (VStr "")) as [msg|]; [|discriminate].
  destruct (contains msg "QUERY") as [[]|]; try discriminate;
    try (injection E as <-; assumption).
  destruct (getitem log_entry "message") as [[]|]; try discriminate.
  destruct (Re.search s); injection E as <-; [now apply record_query_ok | assumption].
Qed.

Lemma scan_lines_ok lines acc acc' :
  scan_lines lines acc = Ok acc' -> activity_ok acc -> activity_ok acc'.
Proof.
  revert acc. induction lines as [|line rest IH]; intros acc; simpl.
  - now intros [= <-].
  - destruct (scan_line line acc) as [acc1|] eqn:E; [|discriminate].
    intros Hrest Hok. exact (IH _ Hrest (scan_line_ok _ _ _ E Hok)).
Qed.

Lemma no_activity_ok : activity_ok no_activity.
Proof. split; constructor. Qed.

End ScanFacts.

(* ===================================================================== *)
(** ** Reconciliation: the domains of a device *)
(* ===================================================================== *)

(** C6 (as the code has it): for every client seen in a run the analysis
    replaces common_domains by the first five elements of [list(s)], where
    [s] is the set of domains the client asked for in this run; what was
    there before plays no part.  The list has at most five domains, all
    distinct and all from [s], and is the whole of [s], in some order, when
    [s] has at most five; which order (and which five of a larger set) is
    the interpreter's choice, not the order of the log. *)
Theorem analysis_replaces_common_domains :
  forall (now : nat -> DeviceMapper.datetime) (set_order : pyset -> list string)
         (log_file text : string) (acc : DeviceMapper.activity)
         (w : DeviceMapper.world),
    iteration_order set_order ->
    DeviceMapper.files w log_file = Some text ->
    DeviceMapper.scan_lines (DeviceMapper.readlines text) DeviceMapper.no_activity
    = Ok acc ->
    registry_ok (DeviceMapper.data w) = true ->
    exists w',
      DeviceMapper.analyze_dns_log now set_order log_file w = (Ok true, w')
      /\ forall ip c, In (ip, c) (DeviceMapper.device_activity acc) ->
           let seen := dict_get_default ip [] (DeviceMapper.device_domains acc) in
           let kept := firstn 5 (set_order seen) in
           device_field ip "common_domains" (DeviceMapper.data w')
           = Ok (VList (map VStr kept))
           /\ List.length kept <= 5
           /\ NoDup kept
           /\ incl kept seen
           /\ (List.length seen <= 5 -> Permutation kept seen).
Proof.
  intros now set_order log_file text acc w Horder Hfile Hscan Hok.
  destruct (scan_lines_ok _ _ _ Hscan no_activity_ok) as [Hkeys Hsets].
  destruct (reconcile_items_succeeds now set_order _ (DeviceMapper.device_domains acc)
              w Hkeys Hok) as (w' & E & _ & Hsettled).
  exists w'. split.
  - unfold DeviceMapper.analyze_dns_log, DeviceMapper.reconcile.
    now rewrite Hfile, Hscan, E.
  - intros ip c Hin seen kept.
    assert (NoDup seen) as Hseen.
    { apply (dict_get_default_Forall (@NoDup string)); [assumption | constructor]. }
    pose proof (Horder seen Hseen) as Hperm.
    destruct (Hsettled ip c Hin) as (info & Hdevice & _ & Hc).
    split.
    { unfold device_field. rewrite Hdevice. unfold getitem. now rewrite Hc. }
    split; [apply firstn_le_length|].
    split.
    { apply firstn_NoDup. apply (Permutation_NoDup (Permutation_sym Hperm) Hseen). }
    split.
    { intros x Hx. apply (Permutation_in x Hperm). now apply (firstn_incl 5). }
    intros Hlen. unfold kept. rewrite firstn_all2; [assumption|].
    now rewrite (Permutation_length Hperm).
Qed.

Lemma insertion_order_ok : iteration_order Samples.insertion_order.
Proof. intros s _. apply Permutation_refl. Defined.

Lemma reverse_order_ok : iteration_order Samples.reverse_order.
Proof. intros s _. apply Permutation_sym, Permutation_rev. Defined.

Lemma analysis_replaces_common_domains_witness :
  exists w',
    DeviceMapper.analyze_dns_log Samples.clock Samples.reverse_order "ctrld.log"
      (Samples.fresh_world (Samples.one_file "ctrld.log" Samples.two_queries_log))
    = (Ok true, w')
    /\ forall ip c, In (ip, c) [("192.168.1.10", 2%Z)] ->
         let seen := dict_get_default ip [] [("192.168.1.10", ["x.com"; "y.com"])] in
         let kept := firstn 5 (Samples.reverse_order seen) in
         device_field ip "common_domains" (DeviceMapper.data w')
         = Ok (VList (map VStr kept))
         /\ List.length kept <= 5
         /\ NoDup kept
         /\ incl kept seen
         /\ (List.length seen <= 5 -> Permutation kept seen).
Proof.
  apply (analysis_replaces_common_domains Samples.clock Samples.reverse_order
           "ctrld.log" Samples.two_queries_log
           {| DeviceMapper.device_activity := [("192.168.1.10", 2%Z)];
              DeviceMapper.device_domains := [("192.168.1.10", ["x.com"; "y.com"])] |}
           (Samples.fresh_world (Samples.one_file "ctrld.log" Samples.two_queries_log))).
  - exact reverse_order_ok.
  - reflexivity.
  - vm_compute. reflexivity.
  - reflexivity.
Defined.

(** C6 (as stated) fails: a set is iterated in the interpreter's order.
    Under an order that lists the last element added first, a client that
    asked for x.com and then for y.com gets [y.com, x.com]. *)
Lemma common_domains_not_in_log_order :
  iteration_order Samples.reverse_order
  /\ device_field "192.168.1.10" "common_domains"
       (DeviceMapper.data
          (snd (DeviceMapper.analyze_dns_log Samples.clock Samples.reverse_order
                  "ctrld.log"
                  (Samples.fresh_world
                     (Samples.one_file "ctrld.log" Samples.two_queries_log)))))
     = Ok (VList [VStr "y.com"; VStr "x.com"])
  /\ device_field "192.168.1.10" "common_domains"
       (DeviceMapper.data
          (snd (DeviceMapper.analyze_dns_log Samples.clock Samples.reverse_order
                  "ctrld.log"
                  (Samples.fresh_world
                     (Samples.one_file "ctrld.log" Samples.two_queries_log)))))
     <> Ok (VList [VStr "x.com"; VStr "y.com"]).
Proof.
  split; [exact reverse_order_ok|]. vm_compute. split; [reflexivity | discriminate].
Qed.

(* ===================================================================== *)
(** ** The routing table *)
(* ===================================================================== *)

Section StringOrder.

Lemma ascii_compare_refl (a : ascii) : Ascii.compare a a = Eq.
Proof. unfold Ascii.compare. apply N.compare_refl. Qed.

Lemma ascii_compare_lt_trans (a b c : ascii) :
  Ascii.compare a b = Lt -> Ascii.compare b c = Lt -> Ascii.compare a c = Lt.
Proof.
  unfold Ascii.compare. rewrite !N.compare_lt_iff. apply N.lt_trans.
Qed.

Lemma string_leb_trans (s1 s2 s3 : string) :
  (s1 <=? s2)%string = true -> (s2 <=? s3)%string = true -> (s1 <=? s3)%string = true.
Proof.
  unfold String.leb. revert s2 s3.
  induction s1 as [|a s1 IH]; intros [|b s2] [|c s3]; simpl; try congruence.
  destruct (Ascii.compare a b) eqn:Eab; try congruence.
  - apply Ascii.compare_eq_iff in Eab. subst b.
    destruct (Ascii.compare a c) eqn:Eac; try congruence. apply IH.
  - destruct (Ascii.compare b c) eqn:Ebc; try congruence.
    + apply Ascii.compare_eq_iff in Ebc. subst c. now rewrite Eab.
    + now rewrite (ascii_compare_lt_trans a b c Eab Ebc).
Qed.

End StringOrder.

Section RoutingTable.

Import DeviceMapper.

Lemma insert_sorted_perm kv l : Permutation (insert_sorted kv l) (kv :: l).
Proof.
  induction l as [|kv' l IH]; simpl; [apply Permutation_refl|].
  destruct (fst kv <=? fst kv')%string; [apply Permutation_refl|].
  eapply Permutation_trans; [apply perm_skip, IH | apply perm_swap].
Qed.

Lemma sorted_items_perm l : Permutation (sorted_items l) l.
Proof.
  induction l as [|kv l IH]; simpl; [constructor|].
  eapply Permutation_trans; [apply insert_sorted_perm | now apply perm_skip].
Qed.

Lemma key_le_trans a b c : key_le a b -> key_le b c -> key_le a c.
Proof. unfold key_le. apply string_leb_trans. Qed.

Lemma insert_sorted_sorted kv l :
  StronglySorted key_le l -> StronglySorted key_le (insert_sorted kv l).
Proof.
  induction l as [|kv' l IH]; intros Hs; simpl.
  - constructor; constructor.
  - inversion Hs as [|? ? Hs' Hall]; subst.
    destruct (fst kv <=? fst kv')%string eqn:E.
    + constructor; [assumption|]. constructor; [exact E|].
      rewrite Forall_forall in *. intros x Hx.
      exact (key_le_trans kv kv' x E (Hall x Hx)).
    + constructor; [now apply IH|].
      assert (key_le kv' kv) as Hle.
      { unfold key_le. destruct (String.leb_total (fst kv') (fst kv)); congruence. }
      rewrite Forall_forall in *. intros x Hx.
      apply (Permutation_in x (insert_sorted_perm kv l)) in Hx.
      destruct Hx as [<-|Hx]; [assumption | now apply Hall].
Qed.

Lemma sorted_items_sorted l : StronglySorted key_le (sorted_items l).
Proof.
  induction l as [|kv l IH]; simpl; [constructor | now apply insert_sorted_sorted].
Qed.

Lemma routing_entry_ok ip info fields common :
  device_ok info fields common ->
  routing_entry ip info = Ok (routing_row ip fields common).
Proof.
  intros [-> Hcommon]. unfold routing_entry, get_method. now rewrite Hcommon.
Qed.

Lemma routing_entries_ok items :
  (forall ip info, In (ip, info) items -> exists fields common, device_ok info fields common) ->
  exists rows,
    routing_entries items = Ok rows
    /\ Forall2 (fun kv row =>
                  exists fields common,
                    device_ok (snd kv) fields common
                    /\ row = routing_row (fst kv) fields common)
               items rows.
Proof.
  induction items as [|[ip info] items IH]; intros Hall; simpl.
  - exists []. split; [reflexivity | constructor].
  - destruct (Hall ip info (or_introl eq_refl)) as (fields & common & Hok).
    destruct IH as (rows & E & Hrows).
    { intros ip' info' Hin. apply (Hall ip' info'). now right. }
    rewrite (routing_entry_ok ip info fields common Hok), E.
    eexists. split; [reflexivity|]. constructor; [|assumption].
    exists fields, common. auto.
Qed.

End RoutingTable.

(** C9: the routing table has one entry per registered device, in ascending
    order of the IPs compared as strings; the entry of a device holds its
    ip, name, type, category, its query_count as activity, the first three
    of its common_domains as top_domains and its added stamp as last_seen
    (with the defaults of [routing_row] for a field the record lacks). *)
Theorem routing_table_sorted_by_ip_string :
  forall (w : DeviceMapper.world) (devices : dict value),
    getitem (DeviceMapper.data w) "devices" = Ok (VDict devices) ->
    (forall ip info, In (ip, info) devices ->
       exists fields common, device_ok info fields common) ->
    exists items rows,
      DeviceMapper.generate_routing_table w = (Ok rows, w)
      /\ Permutation items devices
      /\ StronglySorted key_le items
      /\ Forall2 (fun kv row =>
                    exists fields common,
                      device_ok (snd kv) fields common
                      /\ row = routing_row (fst kv) fields common)
                 items rows.
Proof.
  intros w devices Hdev Hall.
  destruct (routing_entries_ok (DeviceMapper.sorted_items devices)) as (rows & E & Hrows).
  { intros ip info Hin. apply (Hall ip info).
    exact (Permutation_in _ (sorted_items_perm devices) Hin). }
  exists (DeviceMapper.sorted_items devices), rows.
  split; [|split; [apply sorted_items_perm | split; [apply sorted_items_sorted | exact Hrows]]].
  unfold DeviceMapper.generate_routing_table, DeviceMapper.bind,
    DeviceMapper.get_data, DeviceMapper.lift.
  rewrite Hdev. simpl. now rewrite E.
Qed.

Lemma sample_devices_ok :
  forall ip info, In (ip, info) Samples.three_devices ->
    exists fields common, device_ok info fields common.
Proof.
  intros ip info [H|[H|[H|[]]]]; injection H as <- <-;
    eexists; eexists; split; reflexivity.
Defined.

Lemma routing_table_sorted_by_ip_string_witness :
  exists items rows,
    DeviceMapper.generate_routing_table
      (Samples.world_of (Samples.registry_of Samples.three_devices) Samples.no_files)
    = (Ok rows,
       Samples.world_of (Samples.registry_of Samples.three_devices) Samples.no_files)
    /\ Permutation items Samples.three_devices
    /\ StronglySorted key_le items
    /\ Forall2 (fun kv row =>
                  exists fields common,
                    device_ok (snd kv) fields common
                    /\ row = routing_row (fst kv) fields common)
               items rows.
Proof.
  exact (routing_table_sorted_by_ip_string
           (Samples.world_of (Samples.registry_of Samples.three_devices) Samples.no_files)
           Samples.three_devices eq_refl sample_devices_ok).
Defined.

(** The order is that of strings: 10.0.0.10 comes before 10.0.0.9. *)
Example routing_table_of_three_devices :
  fst (DeviceMapper.generate_routing_table
         (Samples.world_of (Samples.registry_of Samples.three_devices) Samples.no_files))
  = Ok [VDict [("ip", VStr "10.0.0.10"); ("name", VStr "Printer");
               ("type", VStr "Office"); ("category", VStr "Work");
               ("activity", VInt 0); ("top_domains", VList []);
               ("last_seen", VStr "2023-11-02 08:30:00")];
        VDict [("ip", VStr "10.0.0.9"); ("name", VStr "Printer");
               ("type", VStr "Office"); ("category", VStr "Work");
               ("activity", VInt 0); ("top_domains", VList []);
               ("last_seen", VStr "2023-11-02 08:30:00")];
        VDict [("ip", VStr "192.168.1.50"); ("name", VStr "Smart TV");
               ("type", VStr "Entertainment"); ("category", VStr "Media");
               ("activity", VInt 40);
               ("top_domains", VList [VStr "a.tv"; VStr "b.tv"; VStr "c.tv"]);
               ("last_seen", VStr "2023-12-24 18:00:00")]].
Proof. reflexivity. Qed.

(* ===================================================================== *)
(** ** The whole run *)
(* ===================================================================== *)

(** A registry file that is absent, or does not decode as JSON, is not an
    error: [load] answers the empty DeviceMap, with no device and a device
    count of zero, dated by the clock. *)
Theorem load_falls_back_to_empty_map :
  forall (device_map_file : string) (now : nat -> DeviceMapper.datetime)
         (w : DeviceMapper.world),
    (DeviceMapper.files w device_map_file = None
     \/ exists text, DeviceMapper.files w device_map_file = Some text
                     /\ Json.loads text = Raise JSONDecodeError) ->
    exists d,
      DeviceMapper._load_device_map device_map_file now w = (Ok d, DeviceMapper.tick w)
      /\ getitem d "devices" = Ok (VDict [])
      /\ metadata_field "total_devices" d = Ok (VInt 0)
      /\ metadata_field "last_updated" d
         = Ok (VStr (DeviceMapper.strftime_date (now (DeviceMapper.clock_reads w)))).
Proof.
  intros file now w H. eexists. split.
  - unfold DeviceMapper._load_device_map.
    destruct H as [-> | (text & -> & ->)]; reflexivity.
  - repeat split; reflexivity.
Qed.

Lemma load_falls_back_to_empty_map_witness :
  exists d,
    DeviceMapper._load_device_map "device-map.json" Samples.clock
      (Samples.world_of VNone (Samples.one_file "device-map.json" "{ not json"))
    = (Ok d, DeviceMapper.tick
               (Samples.world_of VNone (Samples.one_file "device-map.json" "{ not json")))
    /\ getitem d "devices" = Ok (VDict [])
    /\ metadata_field "total_devices" d = Ok (VInt 0)
    /\ metadata_field "last_updated" d = Ok (VStr "2024-03-07").
Proof.
  apply (load_falls_back_to_empty_map "device-map.json" Samples.clock
           (Samples.world_of VNone (Samples.one_file "device-map.json" "{ not json"))).
  right. exists "{ not json". split; reflexivity.
Defined.

(** The scenario of three lines: two queries of 192.168.1.10, for x.com and
    for y.com, around a line that is not JSON, analysed against an empty
    registry.  One device results, with two queries; its domains are listed
    here in the order of the log because the sample iteration order is that
    of insertion.  The routing table has the one entry. *)
Example three_line_scenario :
  let w := Samples.fresh_world (Samples.one_file "ctrld.log" Samples.two_queries_log) in
  let out := DeviceMapper.analyze_dns_log Samples.clock Samples.insertion_order
               "ctrld.log" w in
  fst out = Ok true
  /\ getitem (DeviceMapper.data (snd out)) "devices"
     = Ok (VDict
             [("192.168.1.10",
               VDict [("name", VStr "Auto-detected-10");
                      ("type", VStr "Unknown");
                      ("category", VStr "Unknown");
                      ("description", VStr "Auto-detected from DNS logs with 2 queries");
                      ("added", VStr "2024-03-07 09:05:01");
                      ("query_count", VInt 2);
                      ("common_domains", VList [VStr "x.com"; VStr "y.com"])])])
  /\ fst (DeviceMapper.generate_routing_table (snd out))
     = Ok [VDict [("ip", VStr "192.168.1.10"); ("name", VStr "Auto-detected-10");
                  ("type", VStr "Unknown"); ("category", VStr "Unknown");
                  ("activity", VInt 2);
                  ("top_domains", VList [VStr "x.com"; VStr "y.com"]);
                  ("last_seen", VStr "2024-03-07 09:05:01")]].
Proof. vm_compute. repeat split. Qed.

(* ===================================================================== *)
(** ** Looking a device up *)
(* ===================================================================== *)

Section Lookup.

Import DeviceMapper Commands.

Lemma get_device_info_ok ip w devices :
  getitem (data w) "devices" = Ok (VDict devices) ->
  get_device_info ip w = (Ok (dict_get_default ip (unknown_device ip) devices), w).
Proof.
  intros Hdev. unfold get_device_info, bind, get_data, lift. now rewrite Hdev.
Qed.

End Lookup.



(* ===================================================================== *)
(** ** The listing of the devices *)
(* ===================================================================== *)

Section Listing.

Import DeviceMapper Commands.

Lemma spaces_length n : String.length (Json.spaces n) = n.
Proof. induction n as [|n IH]; simpl; [reflexivity | now rewrite IH]. Qed.

Lemma pad_right_length width s :
  String.length s <= width -> String.length (pad_right width s) = width.
Proof.
  intros H. unfold pad_right. rewrite length_append, spaces_length. lia.
Qed.

Lemma str_take_length n s : String.length (str_take n s) <= n.
Proof.
  revert s. induction n as [|n IH]; intros [|c s]; simpl; try lia.
  specialize (IH s). lia.
Qed.

(** The columns of a row do not run into each other: with an IP of at most
    15 characters a row is 73 characters wide, whatever the lengths of the
    name, the type and the category. *)
Lemma listing_row_length ip name device_type category :
  String.length ip <= 15 ->
  String.length (listing_row ip name device_type category) = 73.
Proof.
  intros Hip. unfold listing_row.
  pose proof (str_take_length 24 name). pose proof (str_take_length 14 device_type).
  pose proof (str_take_length 14 category).
  rewrite !length_append, !pad_right_length by lia. reflexivity.
Qed.

Lemma column_shown fields field n s :
  shown field fields = Some s ->
  column (VDict fields) field n = Ok (VStr (str_take n s)).
Proof.
  unfold shown, column, get_method.
  destruct (dict_get_default field (VStr "Unknown") fields); try discriminate.
  now intros [= ->].
Qed.

Lemma device_row_ok ip info fields name device_type category :
  listable info fields name device_type category ->
  device_row ip info = Ok (listing_row ip name device_type category).
Proof.
  intros (-> & Hname & Htype & Hcategory). unfold device_row.
  rewrite (column_shown _ _ _ _ Hname), (column_shown _ _ _ _ Htype),
    (column_shown _ _ _ _ Hcategory).
  reflexivity.
Qed.

Lemma device_rows_ok items :
  (forall ip info, In (ip, info) items ->
     exists fields name device_type category,
       listable info fields name device_type category) ->
  exists rows,
    device_rows items = (rows, Ok tt)
    /\ Forall2 (fun kv row =>
                  exists fields name device_type category,
                    listable (snd kv) fields name device_type category
                    /\ row = listing_row (fst kv) name device_type category)
               items rows.
Proof.
  induction items as [|[ip info] items IH]; intros Hall; simpl.
  - exists []. split; [reflexivity | constructor].
  - destruct (Hall ip info (or_introl eq_refl)) as (fields & name & ty & cat & Hok).
    destruct IH as (rows & E & Hrows).
    { intros ip' info' Hin. apply (Hall ip' info'). now right. }
    rewrite (device_row_ok ip info fields name ty cat Hok), E.
    eexists. split; [reflexivity|]. constructor; [|assumption].
    exists fields, name, ty, cat. auto.
Qed.

(** A record that cannot be shown stops the listing there: the rows of the
    devices before it are out, the exception leaves the method. *)
Lemma device_rows_stop before ip info after rows e :
  device_rows before = (rows, Ok tt) ->
  device_row ip info = Raise e ->
  device_rows (before ++ (ip, info) :: after)%list = (rows, Raise e).
Proof.
  revert rows. induction before as [|[ip' info'] before IH]; intros rows; simpl.
  - intros [= <-] ->. reflexivity.
  - destruct (device_row ip' info') as [line|]; [|discriminate].
    destruct (device_rows before) as [lines r] eqn:E. intros [= <- ->] Hrow.
    now rewrite (IH lines eq_refl Hrow).
Qed.

End Listing.

(** The listing shows every device once, in ascending order of the IPs as
    strings.  On a registry whose records have strs for name, type and
    category (or lack them), [list_devices] prints its four header lines, one
    row per device and the total, which is the number of rows.  A row shows
    the IP, the first 24 characters of the name and the first 14 of the type
    and of the category, each padded to its column; with an IP of at most 15
    characters the row is 73 characters wide. *)
Theorem listing_shows_every_device_in_order :
  forall (w : DeviceMapper.world) (devices : dict value),
    getitem (DeviceMapper.data w) "devices" = Ok (VDict devices) ->
    (forall ip info, In (ip, info) devices ->
       exists fields name device_type category,
         listable info fields name device_type category) ->
    exists items rows,
      Commands.list_devices w
      = ((Commands.listing_header ++ rows
          ++ [Commands.total_line (Z.of_nat (List.length rows))])%list, Ok tt)
      /\ Permutation items devices
      /\ StronglySorted key_le items
      /\ Forall2 (fun kv row =>
                    exists fields name device_type category,
                      listable (snd kv) fields name device_type category
                      /\ row = listing_row (fst kv) name device_type category
                      /\ (String.length (fst kv) <= 15 -> String.length row = 73))
                 items rows.
Proof.
  intros w devices Hdev Hall.
  destruct (device_rows_ok (DeviceMapper.sorted_items devices)) as (rows & E & Hrows).
  { intros ip info Hin. apply (Hall ip info).
    exact (Permutation_in _ (sorted_items_perm devices) Hin). }
  exists (DeviceMapper.sorted_items devices), rows.
  assert (List.length rows = List.length devices) as Hlen.
  { rewrite <- (Forall2_length Hrows).
    apply Permutation_length, sorted_items_perm. }
  split; [|split; [apply sorted_items_perm | split; [apply sorted_items_sorted|]]].
  - unfold Commands.list_devices. rewrite Hdev. cbn [DeviceMapper.items_method].
    rewrite E. cbn [len]. now rewrite Hlen.
  - eapply Forall2_impl; [|exact Hrows]. cbv beta.
    intros kv row (fields & name & ty & cat & Hok & ->).
    exists fields, name, ty, cat. split; [assumption|]. split; [reflexivity|].
    apply listing_row_length.
Qed.

Lemma sample_devices_listable :
  forall ip info, In (ip, info) Samples.three_devices ->
    exists fields name device_type category,
      listable info fields name device_type category.
Proof.
  intros ip info [H|[H|[H|[]]]]; injection H as <- <-;
    eexists; eexists; eexists; eexists; repeat split; reflexivity.
Defined.

Lemma listing_shows_every_device_in_order_witness :
  exists items rows,
    Commands.list_devices
      (Samples.world_of (Samples.registry_of Samples.three_devices) Samples.no_files)
    = ((Commands.listing_header ++ rows
        ++ [Commands.total_line (Z.of_nat (List.length rows))])%list, Ok tt)
    /\ Permutation items Samples.three_devices
    /\ StronglySorted key_le items
    /\ Forall2 (fun kv row =>
                  exists fields name device_type category,
                    listable (snd kv) fields name device_type category
                    /\ row = listing_row (fst kv) name device_type category
                    /\ (String.length (fst kv) <= 15 -> String.length row = 73))
               items rows.
Proof.
  exact (listing_shows_every_device_in_order
           (Samples.world_of (Samples.registry_of Samples.three_devices) Samples.no_files)
           Samples.three_devices eq_refl sample_devices_listable).
Defined.

(** A record that is not a dict stops the listing.  When the devices before
    it (in the order of the listing) can be shown, what [list_devices]
    prints is the header and the rows of exactly these devices, one row
    each and in their order; then AttributeError leaves the method.
    Nothing else is printed: no row for the record itself or for a device
    after it, and no total. *)
Theorem listing_stops_at_bad_record :
  forall (w : DeviceMapper.world) (devices : dict value)
         (before after : list (string * value)) (ip : string) (info : value),
    getitem (DeviceMapper.data w) "devices" = Ok (VDict devices) ->
    DeviceMapper.sorted_items devices = (before ++ (ip, info) :: after)%list ->
    (forall ip' info', In (ip', info') before ->
       exists fields name device_type category,
         listable info' fields name device_type category) ->
    is_dict info = false ->
    exists rows,
      Commands.list_devices w
      = ((Commands.listing_header ++ rows)%list, Raise AttributeError)
      /\ Forall2 (fun kv row =>
                    exists fields name device_type category,
                      listable (snd kv) fields name device_type category
                      /\ row = listing_row (fst kv) name device_type category)
                 before rows.
Proof.
  intros w devices before after ip info Hdev Hsorted Hbefore Hbad.
  destruct (device_rows_ok before Hbefore) as (rows & E & Hrows).
  exists rows. split; [|exact Hrows].
  unfold Commands.list_devices. rewrite Hdev. cbn [DeviceMapper.items_method].
  rewrite Hsorted.
  rewrite (device_rows_stop before ip info after rows AttributeError E); [reflexivity|].
  destruct info; try discriminate; reflexivity.
Qed.

Lemma listing_stops_at_bad_record_witness :
  exists rows,
    Commands.list_devices (Samples.world_of Scenarios.damaged_registry Samples.no_files)
    = ((Commands.listing_header ++ rows)%list, Raise AttributeError)
    /\ Forall2 (fun kv row =>
                  exists fields name device_type category,
                    listable (snd kv) fields name device_type category
                    /\ row = listing_row (fst kv) name device_type category)
               [("10.0.0.1", Samples.printer)] rows.
Proof.
  apply (listing_stops_at_bad_record
           (Samples.world_of Scenarios.damaged_registry Samples.no_files)
           [("10.0.0.1", Samples.printer); ("10.0.0.2", VStr "damaged");
            ("10.0.0.3", Samples.tv)]
           [("10.0.0.1", Samples.printer)] [("10.0.0.3", Samples.tv)]
           "10.0.0.2" (VStr "damaged")).
  - reflexivity.
  - reflexivity.
  - intros ip' info' [H|[]]. injection H as <- <-.
    eexists; eexists; eexists; eexists; repeat split; reflexivity.
  - reflexivity.
Defined.

(** On the damaged sample registry: the header, the row of 10.0.0.1, and
    the exception. *)
Example listing_of_damaged_registry :
  Commands.list_devices (Samples.world_of Scenarios.damaged_registry Samples.no_files)
  = ((Commands.listing_header
      ++ ["10.0.0.1        Printer                   Office          Work           "])%list,
     Raise AttributeError).
Proof. reflexivity. Qed.

(** What the listing of the three sample devices looks like. *)
Example listing_of_three_devices :
  Commands.list_devices
    (Samples.world_of (Samples.registry_of Samples.three_devices) Samples.no_files)
  = ([String Json.newline "Device Routing Table:";
      "================================================================================";
      "IP Address      Name                      Type            Category       ";
      "--------------------------------------------------------------------------------";
      "10.0.0.10       Printer                   Office          Work           ";
      "10.0.0.9        Printer                   Office          Work           ";
      "192.168.1.50    Smart TV                  Entertainment   Media          ";
      String Json.newline "Total devices: 3"],
     Ok tt).
Proof. reflexivity. Qed.

(* ===================================================================== *)
(** ** Exporting the routing table *)
(* ===================================================================== *)

Section SerializableRows.

Import DeviceMapper Json.

Lemma serializable_list (xs : list value) :
  serializable (VList xs) = true <-> Forall (fun x => serializable x = true) xs.
Proof.
  change (serializable (VList xs)) with (all_serializable xs).
  induction xs as [|x xs IH]; simpl.
  - split; [constructor | reflexivity].
  - rewrite andb_true_iff. split.
    + intros [Hx Hrest]. constructor; [exact Hx | now apply IH].
    + intros H. inversion H; subst. split; [assumption | now apply IH].
Qed.

Lemma serializable_getitem v k x :
  serializable v = true -> getitem v k = Ok x -> serializable x = true.
Proof.
  unfold getitem. destruct v as [| | | | | |kvs]; try discriminate.
  intros Hs. destruct (dict_get k kvs) as [y|] eqn:E; [|discriminate].
  intros [= <-]. exact (serializable_dict_get _ _ _ Hs E).
Qed.

Lemma serializable_get_method v k default x :
  serializable v = true -> serializable default = true ->
  get_method v k default = Ok x -> serializable x = true.
Proof.
  unfold get_method, dict_get_default. destruct v as [| | | | | |kvs]; try discriminate.
  intros Hs Hd. destruct (dict_get k kvs) as [y|] eqn:E; intros [= <-];
    [exact (serializable_dict_get _ _ _ Hs E) | assumption].
Qed.

Lemma serializable_slice_to n v x :
  serializable v = true -> slice_to n v = Ok x -> serializable x = true.
Proof.
  unfold slice_to. destruct v as [| | | |s|xs|]; try discriminate.
  - intros _ [= <-]. reflexivity.
  - rewrite serializable_list. intros Hs [= <-]. rewrite serializable_list.
    rewrite <- (firstn_skipn n xs) in Hs. apply Forall_app in Hs. tauto.
Qed.

Lemma routing_entry_serializable ip info row :
  serializable info = true -> routing_entry ip info = Ok row ->
  serializable row = true.
Proof.
  intros Hs. unfold routing_entry.
  destruct (get_method info "name" (VStr "Unknown")) as [name|] eqn:E1; [|discriminate].
  destruct (get_method info "type" (VStr "Unknown")) as [type|] eqn:E2; [|discriminate].
  destruct (get_method info "category" (VStr "Unknown")) as [category|] eqn:E3;
    [|discriminate].
  destruct (get_method info "query_count" (VInt 0)) as [activity|] eqn:E4; [|discriminate].
  destruct (get_method info "common_domains" (VList [])) as [common|] eqn:E5;
    [|discriminate].
  destruct (slice_to 3 common) as [top|] eqn:E6; [|discriminate].
  destruct (get_method info "added" (VStr "Unknown")) as [added|] eqn:E7; [|discriminate].
  intros [= <-].
  pose proof (serializable_get_method _ _ (VStr "Unknown") _ Hs eq_refl E1).
  pose proof (serializable_get_method _ _ (VStr "Unknown") _ Hs eq_refl E2).
  pose proof (serializable_get_method _ _ (VStr "Unknown") _ Hs eq_refl E3).
  pose proof (serializable_get_method _ _ (VInt 0) _ Hs eq_refl E4).
  pose proof (serializable_get_method _ _ (VList []) _ Hs eq_refl E5) as E5'.
  pose proof (serializable_get_method _ _ (VStr "Unknown") _ Hs eq_refl E7).
  apply (serializable_slice_to _ _ _ E5') in E6.
  apply serializable_dict. split.
  - apply distinct_NoDup. reflexivity.
  - repeat constructor; assumption.
Qed.

Lemma routing_entries_serializable items rows :
  Forall (fun kv => serializable (snd kv) = true) items ->
  routing_entries items = Ok rows ->
  Forall (fun x => serializable x = true) rows.
Proof.
  revert rows. induction items as [|[ip info] items IH]; intros rows Hall; simpl.
  - intros [= <-]. constructor.
  - inversion Hall as [|? ? Hinfo Hrest]; subst.
    destruct (routing_entry ip info) as [row|] eqn:E; [|discriminate].
    destruct (routing_entries items) as [rows'|]; [|discriminate].
    intros [= <-]. constructor; [|now apply IH].
    exact (routing_entry_serializable _ _ _ Hinfo E).
Qed.

(** The routing table is built without a change to the world, and from a
    registry that can be written it can be written too. *)
Lemma generate_routing_table_pure w r w' :
  generate_routing_table w = (r, w') -> w' = w.
Proof.
  unfold generate_routing_table, bind, get_data, lift.
  destruct (getitem (data w) "devices") as [devices|]; [|now intros [= _ <-]].
  destruct (items_method devices); now intros [= _ <-].
Qed.

Lemma generate_routing_table_serializable w rows :
  serializable (data w) = true ->
  fst (generate_routing_table w) = Ok rows ->
  serializable (VList rows) = true.
Proof.
  intros Hs. unfold generate_routing_table, bind, get_data, lift.
  destruct (getitem (data w) "devices") as [devices|] eqn:Hdev; [|discriminate].
  apply (serializable_getitem _ _ _ Hs) in Hdev.
  destruct devices as [| | | | | |kvs]; try discriminate.
  cbn [items_method fst]. intros E. apply serializable_list.
  apply (routing_entries_serializable (sorted_items kvs)); [|exact E].
  apply serializable_dict in Hdev. destruct Hdev as [_ Hall].
  rewrite Forall_forall in *. intros kv Hin. apply Hall.
  exact (Permutation_in kv (sorted_items_perm kvs) Hin).
Qed.

End SerializableRows.

Section ExportFacts.

Import DeviceMapper Commands.

Variable isoformat_now : nat -> string.

(** The export, once the table is built and the file can be opened. *)
Lemma export_routing_table_opened output_file w rows :
  fst (generate_routing_table w) = Ok rows ->
  read_only w output_file = false ->
  let w2 := tick (with_files w (apply_effect (files w) (Truncate output_file))) in
  export_routing_table isoformat_now output_file w
  = match metadata_field "network_range" (data w) with
    | Raise _ => (Ok false, w2)
    | Ok network_range =>
        (Ok true,
         with_files w2
           (apply_effect (files w2)
              (Append output_file
                 (Json.dumps (exported (isoformat_now (clock_reads w))
                                network_range rows)))))
    end.
Proof.
  intros Hrows Hwritable w2. unfold export_routing_table, bind.
  destruct (generate_routing_table w) as [r w'] eqn:E.
  pose proof (generate_routing_table_pure _ _ _ E) as ->.
  cbn [fst] in Hrows. subst r. rewrite Hwritable.
  unfold metadata_field. cbn [data tick with_files clock_reads].
  destruct (getitem (data w) "metadata") as [metadata|]; [|reflexivity].
  destruct (getitem metadata "network_range"); reflexivity.
Qed.

(** Whatever its outcome, the export leaves the registry in memory as it
    was and writes to no file but the output file. *)
Lemma export_routing_table_frame output_file w r w' :
  export_routing_table isoformat_now output_file w = (r, w') ->
  data w' = data w /\ read_only w' = read_only w
  /\ forall p, p <> output_file -> files w' p = files w p.
Proof.
  unfold export_routing_table, bind.
  destruct (generate_routing_table w) as [[rows|e] w1] eqn:E;
    pose proof (generate_routing_table_pure _ _ _ E) as ->.
  2: { intros [= _ <-]. auto. }
  destruct (read_only w output_file); [intros [= _ <-]; auto|].
  assert (forall p, p <> output_file ->
            apply_effect (files w) (Truncate output_file) p = files w p) as Htrunc.
  { intros p Hp. simpl. apply String.eqb_neq in Hp. now rewrite Hp. }
  cbn [data tick with_files clock_reads files].
  destruct (getitem (data w) "metadata") as [metadata|];
    [|intros [= _ <-]; cbn; auto].
  destruct (getitem metadata "network_range");
    intros [= _ <-]; cbn [data tick with_files files read_only]; [|auto].
  repeat split. intros p Hp. simpl. pose proof Hp as Hp'.
  apply String.eqb_neq in Hp'. now rewrite Hp'.
Qed.

End ExportFacts.

(** The exported file reads back as the routing table.  When the registry
    holds nothing but JSON, the table can be built, the registry names its
    network range and the output file can be opened, the export reports
    success and the file then decodes to a dict of the time of the export,
    the number of entries of the table, the network range and the table
    itself, entry for entry.  The registry in memory is not changed. *)
Theorem exported_table_reads_back :
  forall (isoformat_now : nat -> string) (output_file : string)
         (w : DeviceMapper.world) (rows : list value) (network_range : value),
    Json.serializable (DeviceMapper.data w) = true ->
    fst (DeviceMapper.generate_routing_table w) = Ok rows ->
    metadata_field "network_range" (DeviceMapper.data w) = Ok network_range ->
    DeviceMapper.read_only w output_file = false ->
    exists w' text,
      Commands.export_routing_table isoformat_now output_file w = (Ok true, w')
      /\ DeviceMapper.data w' = DeviceMapper.data w
      /\ DeviceMapper.files w' output_file = Some text
      /\ Json.loads text
         = Ok (exported (isoformat_now (DeviceMapper.clock_reads w)) network_range rows)
      /\ getitem (exported (isoformat_now (DeviceMapper.clock_reads w))
                    network_range rows) "total_devices"
         = Ok (VInt (Z.of_nat (List.length rows))).
Proof.
  intros iso output_file w rows network_range Hs Hrows Hrange Hwritable.
  rewrite (export_routing_table_opened iso output_file w rows Hrows Hwritable).
  rewrite Hrange. eexists. eexists. split; [reflexivity|].
  cbn [DeviceMapper.data DeviceMapper.with_files DeviceMapper.tick DeviceMapper.files
       DeviceMapper.apply_effect].
  rewrite String.eqb_refl. cbn [append].
  split; [reflexivity|]. split; [reflexivity|]. split; [|reflexivity].
  apply loads_dumps. unfold exported. apply serializable_dict. split.
  - apply distinct_NoDup. reflexivity.
  - repeat constructor; cbn [snd].
    + unfold metadata_field in Hrange.
      destruct (getitem (DeviceMapper.data w) "metadata") as [metadata|] eqn:Hm;
        [|discriminate].
      apply (serializable_getitem _ _ _ Hs) in Hm.
      exact (serializable_getitem _ _ _ Hm Hrange).
    + exact (generate_routing_table_serializable w rows Hs Hrows).
Qed.

Lemma exported_table_reads_back_witness :
  exists w' text,
    Commands.export_routing_table (fun _ => "2024-03-07T09:05:00.250000")
      "device-routing-table.json" Samples.tv_world
    = (Ok true, w')
    /\ DeviceMapper.data w' = DeviceMapper.data Samples.tv_world
    /\ DeviceMapper.files w' "device-routing-table.json" = Some text
    /\ Json.loads text
       = Ok (exported "2024-03-07T09:05:00.250000" (VStr "192.168.1.0/24")
               [routing_row "192.168.1.50"
                  [("name", VStr "Smart TV"); ("type", VStr "Entertainment");
                   ("category", VStr "Media"); ("description", VStr "Living room TV");
                   ("added", VStr "2023-12-24 18:00:00");
                   ("query_count", VInt 40);
                   ("common_domains",
                    VList [VStr "a.tv"; VStr "b.tv"; VStr "c.tv"; VStr "d.tv"])]
                  [VStr "a.tv"; VStr "b.tv"; VStr "c.tv"; VStr "d.tv"]])
    /\ getitem (exported "2024-03-07T09:05:00.250000" (VStr "192.168.1.0/24")
                  [routing_row "192.168.1.50"
                     [("name", VStr "Smart TV"); ("type", VStr "Entertainment");
                      ("category", VStr "Media"); ("description", VStr "Living room TV");
                      ("added", VStr "2023-12-24 18:00:00");
                      ("query_count", VInt 40);
                      ("common_domains",
                       VList [VStr "a.tv"; VStr "b.tv"; VStr "c.tv"; VStr "d.tv"])]
                     [VStr "a.tv"; VStr "b.tv"; VStr "c.tv"; VStr "d.tv"]])
         "total_devices"
       = Ok (VInt 1).
Proof.
  apply (exported_table_reads_back (fun _ => "2024-03-07T09:05:00.250000")
           "device-routing-table.json" Samples.tv_world).
  - vm_compute. reflexivity.
  - vm_compute. reflexivity.
  - vm_compute. reflexivity.
  - reflexivity.
Defined.

(** An export that fails after it has opened the output file leaves that
    file empty.  When the registry does not name its network range (the
    metadata, or the field, is missing), the export reports failure; the
    output file was opened for writing before that was found out, so it
    now exists and is empty, whatever it held before. *)
Theorem failed_export_empties_output_file :
  forall (isoformat_now : nat -> string) (output_file : string)
         (w : DeviceMapper.world) (rows : list value) (e : exn),
    fst (DeviceMapper.generate_routing_table w) = Ok rows ->
    metadata_field "network_range" (DeviceMapper.data w) = Raise e ->
    DeviceMapper.read_only w output_file = false ->
    exists w',
      Commands.export_routing_table isoformat_now output_file w = (Ok false, w')
      /\ DeviceMapper.files w' output_file = Some EmptyString
      /\ DeviceMapper.data w' = DeviceMapper.data w.
Proof.
  intros iso output_file w rows e Hrows Hrange Hwritable.
  rewrite (export_routing_table_opened iso output_file w rows Hrows Hwritable).
  rewrite Hrange. eexists. split; [reflexivity|].
  cbn [DeviceMapper.data DeviceMapper.with_files DeviceMapper.tick DeviceMapper.files
       DeviceMapper.apply_effect].
  rewrite String.eqb_refl. split; reflexivity.
Qed.

Lemma failed_export_empties_output_file_witness :
  DeviceMapper.files Scenarios.no_range_world "device-routing-table.json"
  = Some "an earlier table"
  /\ exists w',
       Commands.export_routing_table Scenarios.isoformat_clock
         "device-routing-table.json" Scenarios.no_range_world
       = (Ok false, w')
       /\ DeviceMapper.files w' "device-routing-table.json" = Some EmptyString
       /\ DeviceMapper.data w' = DeviceMapper.data Scenarios.no_range_world.
Proof.
  split; [reflexivity|].
  apply (failed_export_empties_output_file Scenarios.isoformat_clock
           "device-routing-table.json" Scenarios.no_range_world
           [routing_row "192.168.1.50"
              [("name", VStr "Smart TV"); ("type", VStr "Entertainment");
               ("category", VStr "Media"); ("description", VStr "Living room TV");
               ("added", VStr "2023-12-24 18:00:00");
               ("query_count", VInt 40);
               ("common_domains",
                VList [VStr "a.tv"; VStr "b.tv"; VStr "c.tv"; VStr "d.tv"])]
              [VStr "a.tv"; VStr "b.tv"; VStr "c.tv"; VStr "d.tv"]]
           KeyError).
  - reflexivity.
  - reflexivity.
  - reflexivity.
Defined.

(* ===================================================================== *)
(** ** Reconciliation: the devices of the registry *)
(* ===================================================================== *)

Section ReconcileKeys.

Import DeviceMapper.

Variable now : nat -> datetime.
Variable set_order : pyset -> list string.

Lemma dict_mem_set {A} ip ip' (x : A) (devices : dict A) :
  ip <> ip' -> dict_mem ip' (dict_set ip x devices) = dict_mem ip' devices.
Proof. intros Hne. unfold dict_mem. now rewrite dict_get_set_ne. Qed.

Lemma reconcile_items_keys items domains w top devices :
  NoDup (dict_keys items) ->
  data w = VDict top ->
  dict_get "devices" top = Some (VDict devices) ->
  forallb (fun kv => is_dict (snd kv)) devices = true ->
  exists w' devices',
    reconcile_items now set_order items domains w = (Ok tt, w')
    /\ getitem (data w') "devices" = Ok (VDict devices')
    /\ dict_keys devices'
       = (dict_keys devices
          ++ filter (fun ip => negb (dict_mem ip devices)) (dict_keys items))%list.
Proof.
  unfold dict_keys.
  revert w top devices.
  induction items as [|[ip count] rest IH]; intros w top devices Hnd Hd Hdev Hall; simpl.
  - exists w, devices. rewrite List.app_nil_r. repeat split.
    rewrite Hd. unfold getitem. now rewrite Hdev.
  - inversion Hnd as [|? ? Hnot Hnd']; subst. unfold bind.
    assert (forall x,
              filter (fun ip' => negb (dict_mem ip' (dict_set ip x devices))) (map fst rest)
              = filter (fun ip' => negb (dict_mem ip' devices)) (map fst rest)) as Hrest.
    { intros x. apply filter_ext_in. intros ip' Hin.
      rewrite dict_mem_set; [reflexivity | congruence]. }
    destruct (dict_get ip devices) as [x|] eqn:Hip.
    + destruct (all_dicts_get _ _ _ Hall Hip) as [info ->].
      rewrite (reconcile_one_known _ _ _ _ _ _ _ _ _ Hd Hdev Hip).
      edestruct (IH (with_data w
                       (with_device ip
                          (observed count (top_domains set_order ip domains) info)
                          devices top)))
        as (w' & devices' & E & Hget & Hkeys);
        [exact Hnd' | reflexivity | apply dict_get_set_eq | now apply all_dicts_set |].
      exists w', devices'. split; [exact E|]. split; [exact Hget|].
      rewrite Hkeys, Hrest. unfold dict_mem at 2. rewrite Hip. cbn [negb].
      pose proof (dict_keys_set_present ip
                    (VDict (observed count (top_domains set_order ip domains) info))
                    devices) as Hk.
      unfold dict_keys in Hk. rewrite Hk by congruence. reflexivity.
    + rewrite (reconcile_one_new _ _ _ _ _ _ _ _ Hd Hdev Hip).
      edestruct (IH (with_data (tick w)
                       (with_device ip
                          (observed count (top_domains set_order ip domains)
                             (discovered ip count (now (clock_reads w))))
                          devices top)))
        as (w' & devices' & E & Hget & Hkeys);
        [exact Hnd' | reflexivity | apply dict_get_set_eq | now apply all_dicts_set |].
      exists w', devices'. split; [exact E|]. split; [exact Hget|].
      rewrite Hkeys, Hrest. unfold dict_mem at 2. rewrite Hip. cbn [negb].
      pose proof (dict_keys_set_absent ip
                    (VDict (observed count (top_domains set_order ip domains)
                              (discovered ip count (now (clock_reads w)))))
                    devices Hip) as Hk.
      unfold dict_keys in Hk. rewrite Hk. now rewrite <- List.app_assoc.
Qed.

End ReconcileKeys.

(** Reconciliation never removes a device and adds exactly the clients it
    did not know.  On a registry whose records are dicts, the devices after
    the run are the devices before it, in the same order, followed by the
    clients of the run that were not registered, in the order in which the
    log first showed them. *)
Theorem reconcile_keeps_devices_and_appends_new :
  forall (now : nat -> DeviceMapper.datetime) (set_order : pyset -> list string)
         (acc : DeviceMapper.activity) (w : DeviceMapper.world) (devices : dict value),
    getitem (DeviceMapper.data w) "devices" = Ok (VDict devices) ->
    registry_ok (DeviceMapper.data w) = true ->
    NoDup (dict_keys (DeviceMapper.device_activity acc)) ->
    exists w' devices',
      DeviceMapper.reconcile now set_order acc w = (Ok tt, w')
      /\ getitem (DeviceMapper.data w') "devices" = Ok (VDict devices')
      /\ dict_keys devices'
         = (dict_keys devices
            ++ filter (fun ip => negb (dict_mem ip devices))
                 (dict_keys (DeviceMapper.device_activity acc)))%list.
Proof.
  intros now set_order acc w devices Hget Hok Hnd.
  destruct (registry_ok_shape _ Hok) as (top & devices0 & Hd & Hdev & Hall).
  rewrite Hd in Hget. unfold getitem in Hget. rewrite Hdev in Hget.
  injection Hget as ->.
  exact (reconcile_items_keys now set_order _ (DeviceMapper.device_domains acc)
           w top devices Hnd Hd Hdev Hall).
Qed.

Lemma reconcile_keeps_devices_and_appends_new_witness :
  exists w' devices',
    DeviceMapper.reconcile Samples.clock Samples.insertion_order
      {| DeviceMapper.device_activity :=
           [("10.0.0.7", 1%Z); ("192.168.1.50", 7%Z); ("10.0.0.5", 2%Z)];
         DeviceMapper.device_domains := [] |}
      (Samples.world_of
         (Samples.registry_of
            [("192.168.1.60", Samples.printer); ("192.168.1.50", Samples.tv)])
         Samples.no_files)
    = (Ok tt, w')
    /\ getitem (DeviceMapper.data w') "devices" = Ok (VDict devices')
    /\ dict_keys devices'
       = ["192.168.1.60"; "192.168.1.50"; "10.0.0.7"; "10.0.0.5"].
Proof.
  apply (reconcile_keeps_devices_and_appends_new Samples.clock Samples.insertion_order
           {| DeviceMapper.device_activity :=
                [("10.0.0.7", 1%Z); ("192.168.1.50", 7%Z); ("10.0.0.5", 2%Z)];
              DeviceMapper.device_domains := [] |}
           (Samples.world_of
              (Samples.registry_of
                 [("192.168.1.60", Samples.printer); ("192.168.1.50", Samples.tv)])
              Samples.no_files)
           [("192.168.1.60", Samples.printer); ("192.168.1.50", Samples.tv)]).
  - reflexivity.
  - reflexivity.
  - apply distinct_NoDup. reflexivity.
Defined.

(* ===================================================================== *)
(** ** From the analysis to the routing table *)
(* ===================================================================== *)

Section AnalysisToTable.

Import DeviceMapper.

Variable now : nat -> datetime.
Variable set_order : pyset -> list string.

Lemma Forall2_In_left {A B} (R : A -> B -> Prop) l l' x :
  Forall2 R l l' -> In x l -> exists y, In y l' /\ R x y.
Proof.
  induction 1 as [|a b l l' Hab _ IH]; intros Hin; [destruct Hin|].
  destruct Hin as [<-|Hin].
  - exists b. split; [now left | assumption].
  - destruct (IH Hin) as (y & Hy & Hr). exists y. split; [now right | assumption].
Qed.

Lemma reconcile_one_distinct ip count domains w r w' :
  reconcile_one now set_order ip count domains w = (r, w') ->
  distinct_devices (data w) -> distinct_devices (data w').
Proof.
  intros E Hnd.
  destruct (reconcile_one_effect _ _ _ _ _ _ _ _ E)
    as (_ & _ & [-> | (top & devices & info & Hd & Hdev & ->)]); [assumption|].
  intros devices'. unfold with_device, getitem. rewrite dict_get_set_eq.
  intros [= <-]. apply dict_set_keys_NoDup. apply Hnd.
  rewrite Hd. unfold getitem. now rewrite Hdev.
Qed.

Lemma reconcile_items_distinct items domains w r w' :
  reconcile_items now set_order items domains w = (r, w') ->
  distinct_devices (data w) -> distinct_devices (data w').
Proof.
  revert w. induction items as [|[ip count] rest IH]; intros w; simpl.
  - now intros [= _ <-].
  - unfold bind.
    destruct (reconcile_one now set_order ip count domains w) as [[[]|e] w1] eqn:E.
    + intros E' Hnd. apply (IH _ E'). exact (reconcile_one_distinct _ _ _ _ _ _ E Hnd).
    + intros [= _ <-]. exact (reconcile_one_distinct _ _ _ _ _ _ E).
Qed.

End AnalysisToTable.

(** The routing table shows what the analysis found.  On a registry whose
    records are dicts with a list for common_domains (or none), the
    reconciliation of a run succeeds and the routing table generated
    afterwards has, for every client of the run, an entry with that IP, with
    activity equal to the number of its queries in the run, and with
    top_domains the first three of the domains the run kept for it. *)
Theorem routing_table_shows_analysis :
  forall (now : nat -> DeviceMapper.datetime) (set_order : pyset -> list string)
         (acc : DeviceMapper.activity) (w : DeviceMapper.world)
         (devices : dict value),
    getitem (DeviceMapper.data w) "devices" = Ok (VDict devices) ->
    NoDup (dict_keys devices) ->
    (forall ip info, In (ip, info) devices ->
       exists fields common, device_ok info fields common) ->
    NoDup (dict_keys (DeviceMapper.device_activity acc)) ->
    exists w' rows,
      DeviceMapper.reconcile now set_order acc w = (Ok tt, w')
      /\ DeviceMapper.generate_routing_table w' = (Ok rows, w')
      /\ forall ip c, In (ip, c) (DeviceMapper.device_activity acc) ->
           exists row,
             In row rows
             /\ getitem row "ip" = Ok (VStr ip)
             /\ getitem row "activity" = Ok (VInt c)
             /\ getitem row "top_domains"
                = Ok (VList
                        (map VStr
                           (firstn 3
                              (firstn 5
                                 (set_order
                                    (dict_get_default ip []
                                       (DeviceMapper.device_domains acc))))))).
Proof.
  intros now set_order acc w devices Hget Hdistinct Hrecords Hnd.
  assert (registry_ok (DeviceMapper.data w) = true) as Hok.
  { unfold registry_ok. rewrite Hget. apply forallb_forall. intros [ip info] Hin.
    destruct (Hrecords ip info Hin) as (fields & common & -> & _). reflexivity. }
  unfold DeviceMapper.reconcile.
  destruct (reconcile_items_succeeds now set_order _ (DeviceMapper.device_domains acc)
              w Hnd Hok) as (w' & E & Hok' & Hsettled).
  destruct (reconcile_items_frame _ _ _ _ _ _ _ E) as (_ & Hframe & _).
  destruct (registry_ok_shape _ Hok') as (top & devices' & Hd & Hdev & _).
  assert (getitem (DeviceMapper.data w') "devices" = Ok (VDict devices')) as Hget'.
  { rewrite Hd. unfold getitem. now rewrite Hdev. }
  assert (NoDup (dict_keys devices')) as Hdistinct'.
  { apply (reconcile_items_distinct now set_order _ _ _ _ _ E); [|exact Hget'].
    intros devices0 H0. rewrite Hget in H0. now injection H0 as <-. }
  assert (forall ip info, In (ip, info) devices' ->
            device ip (DeviceMapper.data w') = Ok info) as Hlookup.
  { intros ip info Hin. unfold device. rewrite Hget'. unfold getitem.
    now rewrite (In_dict_get _ _ _ Hdistinct' Hin). }
  assert (forall ip info, In (ip, info) devices' ->
            exists fields common, device_ok info fields common) as Hall.
  { intros ip info Hin. pose proof (Hlookup ip info Hin) as Hdevice.
    destruct (in_dec string_dec ip (dict_keys (DeviceMapper.device_activity acc)))
      as [Hobs|Hnot].
    - unfold dict_keys in Hobs. apply in_map_iff in Hobs.
      destruct Hobs as ([ip' c] & Hip & Hin'). simpl in Hip. subst ip'.
      destruct (Hsettled ip c Hin') as (fields & Hdevice' & _ & Hc).
      rewrite Hdevice in Hdevice'. injection Hdevice' as ->.
      eexists. eexists. split; [reflexivity|].
      unfold dict_get_default. rewrite Hc. reflexivity.
    - rewrite (Hframe ip Hnot) in Hdevice.
      unfold device in Hdevice. rewrite Hget in Hdevice. unfold getitem in Hdevice.
      destruct (dict_get ip devices) as [x|] eqn:Hx; [|discriminate].
      injection Hdevice as ->. apply (Hrecords ip info). now apply dict_get_In. }
  destruct (routing_entries_ok (DeviceMapper.sorted_items devices')) as (rows & Erows & Hrows).
  { intros ip info Hin. apply (Hall ip info).
    exact (Permutation_in _ (sorted_items_perm devices') Hin). }
  exists w', rows. split; [exact E|]. split.
  { unfold DeviceMapper.generate_routing_table, DeviceMapper.bind,
      DeviceMapper.get_data, DeviceMapper.lift.
    rewrite Hget'. simpl. now rewrite Erows. }
  intros ip c Hin.
  destruct (Hsettled ip c Hin) as (info & Hdevice & Hq & Hc).
  destruct (device_shape _ _ _ Hdevice) as (top0 & devices0 & Hd0 & Hdev0 & Hip).
  rewrite Hd in Hd0. injection Hd0 as <-. rewrite Hdev in Hdev0. injection Hdev0 as <-.
  apply dict_get_In in Hip.
  apply (Permutation_in _ (Permutation_sym (sorted_items_perm devices'))) in Hip.
  destruct (Forall2_In_left _ _ _ _ Hrows Hip) as (row & Hrow & fields & common & [Hf Hcommon] & ->).
  cbn [fst snd] in *. injection Hf as <-.
  exists (routing_row ip info common). split; [assumption|].
  unfold routing_row, getitem. cbn [dict_get String.eqb Ascii.eqb Bool.eqb].
  split; [reflexivity|]. split.
  - unfold dict_get_default. now rewrite Hq.
  - unfold dict_get_default in Hcommon. rewrite Hc in Hcommon.
    unfold DeviceMapper.top_domains in Hcommon. injection Hcommon as <-.
    now rewrite firstn_map.
Qed.

Lemma routing_table_shows_analysis_witness :
  exists w' rows,
    DeviceMapper.reconcile Samples.clock Samples.insertion_order
      {| DeviceMapper.device_activity := [("192.168.1.50", 7%Z); ("10.0.0.5", 2%Z)];
         DeviceMapper.device_domains :=
           [("192.168.1.50", ["a.com"; "b.com"; "c.com"; "d.com"]);
            ("10.0.0.5", ["y.com"])] |}
      (Samples.world_of (Samples.registry_of Samples.three_devices) Samples.no_files)
    = (Ok tt, w')
    /\ DeviceMapper.generate_routing_table w' = (Ok rows, w')
    /\ forall ip c, In (ip, c) [("192.168.1.50", 7%Z); ("10.0.0.5", 2%Z)] ->
         exists row,
           In row rows
           /\ getitem row "ip" = Ok (VStr ip)
           /\ getitem row "activity" = Ok (VInt c)
           /\ getitem row "top_domains"
              = Ok (VList
                      (map VStr
                         (firstn 3
                            (firstn 5
                               (Samples.insertion_order
                                  (dict_get_default ip []
                                     [("192.168.1.50", ["a.com"; "b.com"; "c.com"; "d.com"]);
                                      ("10.0.0.5", ["y.com"])])))))).
Proof.
  apply (routing_table_shows_analysis Samples.clock Samples.insertion_order
           {| DeviceMapper.device_activity := [("192.168.1.50", 7%Z); ("10.0.0.5", 2%Z)];
              DeviceMapper.device_domains :=
                [("192.168.1.50", ["a.com"; "b.com"; "c.com"; "d.com"]);
                 ("10.0.0.5", ["y.com"])] |}
           (Samples.world_of (Samples.registry_of Samples.three_devices) Samples.no_files)
           Samples.three_devices).
  - reflexivity.
  - apply distinct_NoDup. reflexivity.
  - exact sample_devices_ok.
  - apply distinct_NoDup. reflexivity.
Defined.

(* ===================================================================== *)
(** ** The command line: which files a run touches *)
(* ===================================================================== *)

Section RunFrames.

Import DeviceMapper Commands.

Variable now : nat -> datetime.
Variable set_order : pyset -> list string.

Lemma loads_raises_decode_error s e : Json.loads s = Raise e -> e = JSONDecodeError.
Proof.
  unfold Json.loads.
  destruct (Json.scan_once _ _) as [[v r]|]; [|now intros [= <-]].
  destruct (Json.skip_ws r); [discriminate | now intros [= <-]].
Qed.

(** Loading never fails and never writes: it answers what the file holds,
    or the empty map. *)
Lemma load_device_map_answers file w :
  exists d w0,
    _load_device_map file now w = (Ok d, w0)
    /\ files w0 = files w /\ read_only w0 = read_only w.
Proof.
  unfold _load_device_map.
  destruct (files w file) as [text|]; [|eexists; eexists; split; [reflexivity | auto]].
  destruct (Json.loads text) as [v|e] eqn:E.
  - exists v, w. auto.
  - rewrite (loads_raises_decode_error _ _ E).
    eexists. eexists. split; [reflexivity | auto].
Qed.

Lemma init_loads file w d w0 :
  _load_device_map file now w = (Ok d, w0) ->
  init file now w = (Ok tt, with_data w0 d).
Proof. intros E. unfold init, bind. now rewrite E. Qed.

Lemma init_frame file w r w' :
  init file now w = (r, w') ->
  r = Ok tt /\ files w' = files w /\ read_only w' = read_only w.
Proof.
  destruct (load_device_map_answers file w) as (d & w0 & E & Hf & Hr).
  rewrite (init_loads _ _ _ _ E). intros [= <- <-]. auto.
Qed.

Lemma add_device_frame ip name device_type category description w r w' :
  add_device now ip name device_type category description w = (r, w') ->
  files w' = files w /\ read_only w' = read_only w.
Proof.
  unfold add_device, bind at 1. unfold read_clock.
  destruct (setitem2_cases "devices" ip
              (VDict [("name", VStr name); ("type", VStr device_type);
                      ("category", VStr category); ("description", VStr description);
                      ("added", VStr (strftime_seconds (now (clock_reads w))))])
              (tick w))
    as [(top & inner & _ & _ & ->) | (e & ->)]; intros [= _ <-]; auto.
Qed.

Lemma save_upto_frame file steps w r w' :
  save_upto file now steps w = (r, w') ->
  read_only w' = read_only w
  /\ forall p, p <> file -> files w' p = files w p.
Proof.
  intros E.
  destruct (setitem2_cases "metadata" "last_updated"
              (VStr (strftime_date (now (clock_reads w)))) (tick w))
    as [(top & meta & Hd & Hmeta & E1) | (e & E1)].
  2: { revert E. unfold save_upto, bind at 1. unfold read_clock.
       unfold bind at 1. rewrite E1. intros [= _ <-]. auto. }
  simpl in Hd.
  destruct (dict_get "devices" top) as [devices|] eqn:Hdev.
  2: { revert E. unfold save_upto, bind at 1. unfold read_clock.
       unfold bind at 1. rewrite E1.
       unfold bind at 1. unfold get_data at 1. unfold bind at 1. unfold lift at 1.
       cbn [data with_data getitem]. rewrite dict_get_set_ne by discriminate.
       rewrite Hdev. intros [= _ <-]. auto. }
  destruct (len devices) as [n|e] eqn:Hlen.
  2: { revert E. unfold save_upto, bind at 1. unfold read_clock.
       unfold bind at 1. rewrite E1.
       unfold bind at 1. unfold get_data at 1. unfold bind at 1. unfold lift at 1.
       cbn [data with_data getitem]. rewrite dict_get_set_ne by discriminate.
       rewrite Hdev. unfold bind at 1. unfold lift at 1. rewrite Hlen.
       intros [= _ <-]. auto. }
  rewrite (save_upto_ok file now steps w top meta devices n Hd Hmeta Hdev Hlen) in E.
  cbv zeta in E. destruct (read_only w file); injection E as <- <-; [auto|].
  cbn [files with_files read_only with_data tick]. split; [reflexivity|].
  intros p Hp. apply run_effects_elsewhere. intros e He.
  assert (In e (save_effects file
                  (stamped (strftime_date (now (clock_reads w))) n meta top))) as He'.
  { destruct steps as [k|]; [exact (firstn_incl k _ e He) | exact He]. }
  destruct He' as [<-|[<-|[]]]; congruence.
Qed.

Lemma reconcile_items_read_only items domains w r w' :
  reconcile_items now set_order items domains w = (r, w') ->
  read_only w' = read_only w.
Proof.
  revert w. induction items as [|[ip count] rest IH]; intros w; simpl.
  - now intros [= _ <-].
  - unfold bind.
    destruct (reconcile_one now set_order ip count domains w) as [[[]|e] w1] eqn:E;
      destruct (reconcile_one_effect _ _ _ _ _ _ _ _ E) as (_ & Hr & _).
    + intros E'. rewrite (IH _ E'). exact Hr.
    + now intros [= _ <-].
Qed.

Lemma analyze_dns_log_frame log_file w r w' :
  analyze_dns_log now set_order log_file w = (r, w') ->
  files w' = files w /\ read_only w' = read_only w.
Proof.
  unfold analyze_dns_log.
  destruct (files w log_file) as [text|]; [|now intros [= _ <-]].
  destruct (scan_lines (readlines text) no_activity) as [acc|]; [|now intros [= _ <-]].
  unfold reconcile.
  destruct (reconcile_items now set_order (device_activity acc) (device_domains acc) w)
    as [[u|e] w1] eqn:E;
    intros [= _ <-];
    (split; [exact (proj1 (reconcile_items_frame _ _ _ _ _ _ _ E))
            | exact (reconcile_items_read_only _ _ _ _ _ E)]).
Qed.

End RunFrames.

(** A run of [main] writes to at most one file, and the first command given
    decides which: none for [--list] (whatever else is given) and for the
    usage text, the registry file for [--add] and for [--analyze], the
    output file for [--export].  Every other file (the log among them, unless
    it is that one file) holds after the run what it held before. *)
Theorem main_writes_only_its_target :
  forall (isoformat_now : nat -> string) (now : nat -> DeviceMapper.datetime)
         (set_order : pyset -> list string) (a : Commands.args)
         (w w' : DeviceMapper.world) (r : result unit) (p : string),
    Commands.main isoformat_now now set_order a w = (r, w') ->
    target a <> Some p ->
    DeviceMapper.files w' p = DeviceMapper.files w p.
Proof.
  intros iso now set_order a w w' r p. unfold Commands.main, target, DeviceMapper.bind at 1.
  destruct (DeviceMapper.init (Commands.arg_device_map a) now w) as [r0 w0] eqn:E0.
  destruct (init_frame now _ _ _ _ E0) as (-> & Hf0 & _).
  destruct (Commands.arg_list a).
  { intros [= _ <-] _. now rewrite Hf0. }
  destruct (Commands.arg_add a) as [[[[[ip name] ty] cat] desc]|].
  { unfold DeviceMapper.bind, DeviceMapper.save_device_map, DeviceMapper.ret.
    destruct (DeviceMapper.add_device now ip name ty cat desc w0) as [[[]|e] w1] eqn:E1;
      destruct (add_device_frame now _ _ _ _ _ _ _ _ E1) as (Hf1 & _).
    2: { intros [= _ <-] _. congruence. }
    destruct (DeviceMapper.save_upto (Commands.arg_device_map a) now None w1)
      as [[b|e] w2] eqn:E2;
      destruct (save_upto_frame now _ _ _ _ _ E2) as (_ & Hf2);
      intros [= _ <-] Hp; (rewrite Hf2 by congruence); congruence. }
  destruct (Commands.given (Commands.arg_analyze a)) as [log_file|].
  { unfold DeviceMapper.bind, DeviceMapper.save_device_map, DeviceMapper.ret.
    destruct (DeviceMapper.analyze_dns_log now set_order log_file w0)
      as [[[|]|e] w1] eqn:E1;
      destruct (analyze_dns_log_frame now set_order _ _ _ _ E1) as (Hf1 & _).
    2, 3: intros [= _ <-] _; congruence.
    destruct (DeviceMapper.save_upto (Commands.arg_device_map a) now None w1)
      as [[b|e] w2] eqn:E2;
      destruct (save_upto_frame now _ _ _ _ _ E2) as (_ & Hf2);
      intros [= _ <-] Hp; (rewrite Hf2 by congruence); congruence. }
  destruct (Commands.given (Commands.arg_export a)) as [output_file|].
  { unfold DeviceMapper.bind, DeviceMapper.ret.
    destruct (Commands.export_routing_table iso output_file w0) as [[b|e] w1] eqn:E1;
      destruct (export_routing_table_frame iso _ _ _ _ E1) as (_ & _ & Hf1);
      intros [= _ <-] Hp; (rewrite Hf1 by congruence); congruence. }
  unfold DeviceMapper.ret. intros [= _ <-] _. congruence.
Qed.

Lemma main_writes_only_its_target_witness :
  let out := Commands.main Scenarios.isoformat_clock Samples.clock
               Samples.insertion_order Scenarios.analyze_log
               (Scenarios.start Scenarios.tv_disk) in
  fst out = Ok tt
  /\ DeviceMapper.files (snd out) "ctrld.log"
     = DeviceMapper.files (Scenarios.start Scenarios.tv_disk) "ctrld.log".
Proof.
  intros out. split; [vm_compute; reflexivity|].
  apply (main_writes_only_its_target Scenarios.isoformat_clock Samples.clock
           Samples.insertion_order Scenarios.analyze_log
           (Scenarios.start Scenarios.tv_disk) (snd out) (fst out) "ctrld.log").
  - apply surjective_pairing.
  - vm_compute. discriminate.
Defined.

(* ===================================================================== *)
(** ** The command line: what the next run finds *)
(* ===================================================================== *)

Section Restart.

Import DeviceMapper Commands.

Variable device_map_file : string.
Variable now : nat -> datetime.
Variable set_order : pyset -> list string.

Lemma device_stamped ip date n meta top :
  device ip (stamped date n meta top) = device ip (VDict top).
Proof.
  unfold device, stamped, getitem. now rewrite dict_get_set_ne by discriminate.
Qed.

Lemma total_devices_stamped date n meta top :
  metadata_field "total_devices" (stamped date n meta top) = Ok (VInt n).
Proof.
  unfold metadata_field, stamped, getitem. now rewrite !dict_get_set_eq.
Qed.

(** A save that goes through, and what a later run loads from the file it
    wrote. *)
Lemma saved_registry_reloads w top meta devices n :
  data w = VDict top ->
  dict_get "metadata" top = Some (VDict meta) ->
  dict_get "devices" top = Some devices ->
  len devices = Ok n ->
  Json.serializable (data w) = true ->
  read_only w device_map_file = false ->
  exists w1,
    save_device_map device_map_file now w = (Ok true, w1)
    /\ forall w2,
         files w2 device_map_file = files w1 device_map_file ->
         init device_map_file now w2
         = (Ok tt,
            with_data w2 (stamped (strftime_date (now (clock_reads w))) n meta top)).
Proof.
  intros Hd Hmeta Hdev Hlen Hs Hwritable. unfold save_device_map.
  rewrite (save_upto_ok device_map_file now None w top meta devices n Hd Hmeta Hdev Hlen).
  cbv zeta. rewrite Hwritable. eexists. split; [reflexivity|].
  intros w2 Hfile. apply init_loads. unfold _load_device_map. rewrite Hfile.
  cbn [files with_files data with_data save_effects run_effects fold_left apply_effect].
  rewrite String.eqb_refl. cbn [append].
  rewrite loads_dumps; [reflexivity|].
  apply serializable_stamped; [|assumption]. now rewrite <- Hd.
Qed.

(** *** The reconciliation keeps the registry writable *)

Lemma serializable_strs (l : list string) : Json.serializable (VList (map VStr l)) = true.
Proof.
  apply serializable_list. induction l; constructor; [reflexivity | assumption].
Qed.

Lemma serializable_observed count (l : list string) info :
  Json.serializable (VDict info) = true ->
  Json.serializable (VDict (observed count (VList (map VStr l)) info)) = true.
Proof.
  intros H. unfold observed.
  apply serializable_dict_set; [|apply serializable_strs].
  apply serializable_dict_set; [assumption | reflexivity].
Qed.

Lemma serializable_with_device ip info devices top :
  Json.serializable (VDict top) = true ->
  dict_get "devices" top = Some (VDict devices) ->
  Json.serializable (VDict info) = true ->
  Json.serializable (with_device ip info devices top) = true.
Proof.
  intros Htop Hdev Hinfo. unfold with_device.
  apply serializable_dict_set; [assumption|].
  apply serializable_dict_set; [|assumption].
  exact (serializable_dict_get _ _ _ Htop Hdev).
Qed.

Lemma reconcile_one_serializable ip count domains w w' :
  registry_ok (data w) = true ->
  Json.serializable (data w) = true ->
  reconcile_one now set_order ip count domains w = (Ok tt, w') ->
  Json.serializable (data w') = true.
Proof.
  intros Hok Hs.
  destruct (registry_ok_shape _ Hok) as (top & devices & Hd & Hdev & Hall).
  rewrite Hd in Hs.
  destruct (dict_get ip devices) as [x|] eqn:Hip.
  - destruct (all_dicts_get _ _ _ Hall Hip) as [info ->].
    rewrite (reconcile_one_known _ _ _ _ _ _ _ _ _ Hd Hdev Hip).
    intros [= <-]. cbn [data with_data].
    apply serializable_with_device; [assumption | assumption |].
    apply serializable_observed.
    exact (serializable_dict_get _ _ _ (serializable_dict_get _ _ _ Hs Hdev) Hip).
  - rewrite (reconcile_one_new _ _ _ _ _ _ _ _ Hd Hdev Hip).
    intros [= <-]. cbn [data with_data].
    apply serializable_with_device; [assumption | assumption |].
    apply serializable_observed. reflexivity.
Qed.

(** On a registry of dicts that holds nothing but JSON, the loop succeeds
    and leaves such a registry; every IP of the run holds the run's
    figures, and the files and the rest of the registry are as before. *)
Lemma reconcile_items_writable items domains w :
  NoDup (dict_keys items) ->
  registry_ok (data w) = true ->
  Json.serializable (data w) = true ->
  exists w',
    reconcile_items now set_order items domains w = (Ok tt, w')
    /\ registry_ok (data w') = true
    /\ Json.serializable (data w') = true
    /\ (forall ip count, In (ip, count) items ->
          settled ip count (top_domains set_order ip domains) (data w')).
Proof.
  intros Hnd Hok Hs.
  destruct (reconcile_items_succeeds now set_order items domains w Hnd Hok)
    as (w' & E & Hok' & Hsettled).
  exists w'. split; [assumption|]. split; [assumption|]. split; [|assumption].
  clear Hsettled Hok' Hnd. revert w Hok Hs E.
  induction items as [|[ip count] rest IH]; intros w Hok Hs; simpl.
  - now intros [= <-].
  - unfold bind.
    destruct (reconcile_one_succeeds now set_order ip count domains w Hok)
      as (w1 & E1 & Hok1 & _).
    rewrite E1. apply IH; [assumption|].
    exact (reconcile_one_serializable _ _ _ _ _ Hok Hs E1).
Qed.

End Restart.

(** A device added from the command line is there at the next start.  When
    the registry file is absent or holds a registry (JSON with a dict of
    metadata and a dict of devices) and can be written, [main] with [--add]
    ends normally; a run started afterwards on that file finds, under the
    IP, the record with the five fields given and the time of the adding,
    finds every other device as the file held it before, and reads in
    total_devices the number of devices. *)
Theorem added_device_survives_restart :
  forall (isoformat_now : nat -> string) (now : nat -> DeviceMapper.datetime)
         (set_order : pyset -> list string) (a : Commands.args)
         (ip name device_type category description : string)
         (w w0 : DeviceMapper.world) (d : value) (meta devices : dict value),
    Commands.arg_list a = false ->
    Commands.arg_add a = Some (ip, name, device_type, category, description) ->
    DeviceMapper._load_device_map (Commands.arg_device_map a) now w = (Ok d, w0) ->
    Json.serializable d = true ->
    getitem d "metadata" = Ok (VDict meta) ->
    getitem d "devices" = Ok (VDict devices) ->
    DeviceMapper.read_only w (Commands.arg_device_map a) = false ->
    exists w1,
      Commands.main isoformat_now now set_order a w = (Ok tt, w1)
      /\ forall w2,
           DeviceMapper.files w2 (Commands.arg_device_map a)
           = DeviceMapper.files w1 (Commands.arg_device_map a) ->
           exists w3,
             DeviceMapper.init (Commands.arg_device_map a) now w2 = (Ok tt, w3)
             /\ Commands.get_device_info ip w3
                = (Ok (VDict (added_record name device_type category description
                                (DeviceMapper.strftime_seconds
                                   (now (DeviceMapper.clock_reads w0))))), w3)
             /\ (forall ip', ip' <> ip ->
                   device ip' (DeviceMapper.data w3) = device ip' d)
             /\ metadata_field "total_devices" (DeviceMapper.data w3)
                = Ok (VInt (Z.of_nat
                              (List.length
                                 (dict_set ip
                                    (VDict (added_record name device_type category
                                              description
                                              (DeviceMapper.strftime_seconds
                                                 (now (DeviceMapper.clock_reads w0)))))
                                    devices)))).
Proof.
  intros iso now set_order a ip name ty cat desc w w0 d meta devices
    Hlist Hadd Hload Hs Hmeta Hdev Hwritable.
  destruct (load_device_map_answers now (Commands.arg_device_map a) w)
    as (d' & w0' & E & _ & Hro).
  rewrite Hload in E. injection E as <- <-.
  unfold getitem in Hmeta, Hdev. destruct d as [| | | | | |top]; try discriminate.
  destruct (dict_get "metadata" top) as [m|] eqn:Hm; [|discriminate].
  injection Hmeta as ->.
  destruct (dict_get "devices" top) as [x|] eqn:Hd; [|discriminate].
  injection Hdev as ->.
  set (stamp := DeviceMapper.strftime_seconds (now (DeviceMapper.clock_reads w0))).
  set (record := added_record name ty cat desc stamp).
  set (top' := dict_set "devices" (VDict (dict_set ip (VDict record) devices)) top).
  set (wa := DeviceMapper.with_data (DeviceMapper.tick (DeviceMapper.with_data w0 (VDict top)))
               (VDict top')).
  assert (DeviceMapper.add_device now ip name ty cat desc
            (DeviceMapper.with_data w0 (VDict top)) = (Ok tt, wa)) as Eadd.
  { apply (add_device_replaces now ip name ty cat desc
             (DeviceMapper.with_data w0 (VDict top)) top devices eq_refl Hd). }
  destruct (saved_registry_reloads (Commands.arg_device_map a) now wa top' meta
              (VDict (dict_set ip (VDict record) devices))
              (Z.of_nat (List.length (dict_set ip (VDict record) devices))) eq_refl)
    as (w1 & Esave & Hreload).
  { unfold top'. now rewrite dict_get_set_ne by discriminate. }
  { unfold top'. apply dict_get_set_eq. }
  { reflexivity. }
  { unfold wa. cbn [DeviceMapper.data DeviceMapper.with_data].
    apply (serializable_with_device ip record devices top Hs Hd). reflexivity. }
  { unfold wa. cbn [DeviceMapper.read_only DeviceMapper.with_data DeviceMapper.tick].
    now rewrite Hro. }
  exists w1. split.
  - unfold Commands.main, DeviceMapper.bind at 1.
    rewrite (init_loads now _ _ _ _ Hload), Hlist, Hadd.
    unfold DeviceMapper.bind, DeviceMapper.ret. now rewrite Eadd, Esave.
  - intros w2 Hfile. eexists. split; [exact (Hreload w2 Hfile)|].
    set (D := stamped _ _ meta top').
    assert (getitem D "devices" = Ok (VDict (dict_set ip (VDict record) devices))) as HD.
    { unfold D, stamped, getitem. rewrite dict_get_set_ne by discriminate.
      unfold top'. now rewrite dict_get_set_eq. }
    split; [|split].
    + rewrite (get_device_info_ok ip (DeviceMapper.with_data w2 D) _ HD).
      unfold dict_get_default. now rewrite dict_get_set_eq.
    + intros ip' Hne. cbn [DeviceMapper.data DeviceMapper.with_data].
      unfold device. fold D. rewrite HD. cbn [getitem]. rewrite Hd.
      now rewrite dict_get_set_ne by congruence.
    + cbn [DeviceMapper.data DeviceMapper.with_data]. apply total_devices_stamped.
Qed.

Lemma added_device_survives_restart_witness :
  exists w1,
    Commands.main Scenarios.isoformat_clock Samples.clock Samples.insertion_order
      Scenarios.add_printer (Scenarios.start Scenarios.tv_disk)
    = (Ok tt, w1)
    /\ forall w2,
         DeviceMapper.files w2 "device-map.json" = DeviceMapper.files w1 "device-map.json" ->
         exists w3,
           DeviceMapper.init "device-map.json" Samples.clock w2 = (Ok tt, w3)
           /\ Commands.get_device_info "192.168.1.60" w3
              = (Ok (VDict (added_record "Printer" "Office" "Work" "Laser printer"
                              "2024-03-07 09:05:00")), w3)
           /\ (forall ip', ip' <> "192.168.1.60" ->
                 device ip' (DeviceMapper.data w3)
                 = device ip' (Samples.registry_of [("192.168.1.50", Samples.tv)]))
           /\ metadata_field "total_devices" (DeviceMapper.data w3) = Ok (VInt 2).
Proof.
  apply (added_device_survives_restart Scenarios.isoformat_clock Samples.clock
           Samples.insertion_order Scenarios.add_printer
           "192.168.1.60" "Printer" "Office" "Work" "Laser printer"
           (Scenarios.start Scenarios.tv_disk) (Scenarios.start Scenarios.tv_disk)
           (Samples.registry_of [("192.168.1.50", Samples.tv)])
           [("last_updated", VStr "2023-12-24");
            ("network_range", VStr "192.168.1.0/24");
            ("total_devices", VInt 0);
            ("source", VStr "Control D DNS log analysis")]
           [("192.168.1.50", Samples.tv)]).
  - reflexivity.
  - reflexivity.
  - vm_compute. reflexivity.
  - vm_compute. reflexivity.
  - reflexivity.
  - reflexivity.
  - reflexivity.
Defined.

(** Without a dict of metadata nothing can be saved.  When the registry
    file holds JSON with a dict of devices but no dict under metadata (the
    key is missing, or holds something else), [main] with [--add] adds the
    device in memory and then stops with the exception the save raises
    before it opens the file (KeyError when the key is missing): no file is
    changed, and the device is lost with the run. *)
Theorem add_without_metadata_is_lost :
  forall (isoformat_now : nat -> string) (now : nat -> DeviceMapper.datetime)
         (set_order : pyset -> list string) (a : Commands.args)
         (ip name device_type category description : string)
         (w w0 : DeviceMapper.world) (d : value) (devices : dict value),
    Commands.arg_list a = false ->
    Commands.arg_add a = Some (ip, name, device_type, category, description) ->
    DeviceMapper._load_device_map (Commands.arg_device_map a) now w = (Ok d, w0) ->
    getitem d "devices" = Ok (VDict devices) ->
    (forall meta, getitem d "metadata" <> Ok (VDict meta)) ->
    exists e w',
      Commands.main isoformat_now now set_order a w = (Raise e, w')
      /\ DeviceMapper.files w' = DeviceMapper.files w
      /\ (getitem d "metadata" = Raise KeyError -> e = KeyError).
Proof.
  intros iso now set_order a ip name ty cat desc w w0 d devices
    Hlist Hadd Hload Hdev Hmeta.
  destruct (load_device_map_answers now (Commands.arg_device_map a) w)
    as (d' & w0' & E & Hf0 & _).
  rewrite Hload in E. injection E as <- <-.
  unfold getitem in Hdev, Hmeta. destruct d as [| | | | | |top]; try discriminate.
  destruct (dict_get "devices" top) as [x|] eqn:Hd; [|discriminate].
  injection Hdev as ->.
  unfold Commands.main, DeviceMapper.bind at 1.
  rewrite (init_loads now _ _ _ _ Hload), Hlist, Hadd.
  unfold DeviceMapper.bind at 1.
  rewrite (add_device_replaces now ip name ty cat desc
             (DeviceMapper.with_data w0 (VDict top)) top devices eq_refl Hd).
  unfold DeviceMapper.bind at 1.
  unfold DeviceMapper.save_device_map, DeviceMapper.save_upto, DeviceMapper.bind at 1.
  unfold DeviceMapper.read_clock. unfold DeviceMapper.bind at 1.
  unfold DeviceMapper.setitem2, DeviceMapper.bind at 1, DeviceMapper.get_data at 1.
  unfold DeviceMapper.bind at 1, DeviceMapper.lift at 1.
  cbn [DeviceMapper.data DeviceMapper.with_data DeviceMapper.tick with_device getitem].
  rewrite dict_get_set_ne by discriminate.
  destruct (dict_get "metadata" top) as [m|] eqn:Hm.
  - unfold DeviceMapper.bind at 1, DeviceMapper.lift at 1.
    destruct m as [| | | | | |meta]; cbn [setitem];
      try (eexists; eexists; split; [reflexivity|];
           split; [exact Hf0 | discriminate]).
    exfalso. exact (Hmeta meta eq_refl).
  - eexists. eexists. split; [reflexivity|]. split; [exact Hf0 | reflexivity].
Qed.

Lemma add_without_metadata_is_lost_witness :
  exists e w',
    Commands.main Scenarios.isoformat_clock Samples.clock Samples.insertion_order
      Scenarios.add_printer (Scenarios.start Scenarios.bare_disk)
    = (Raise e, w')
    /\ DeviceMapper.files w' = DeviceMapper.files (Scenarios.start Scenarios.bare_disk)
    /\ (getitem (VDict [("devices", VDict [("192.168.1.50", Samples.tv)])]) "metadata"
        = Raise KeyError -> e = KeyError).
Proof.
  apply (add_without_metadata_is_lost Scenarios.isoformat_clock Samples.clock
           Samples.insertion_order Scenarios.add_printer
           "192.168.1.60" "Printer" "Office" "Work" "Laser printer"
           (Scenarios.start Scenarios.bare_disk) (Scenarios.start Scenarios.bare_disk)
           (VDict [("devices", VDict [("192.168.1.50", Samples.tv)])])
           [("192.168.1.50", Samples.tv)]).
  - reflexivity.
  - reflexivity.
  - vm_compute. reflexivity.
  - reflexivity.
  - intros meta. discriminate.
Defined.

(** A failed analysis is not saved.  When [analyze_dns_log] reports failure
    (the log is missing or unreadable, or a record stopped the update half
    way), [main] ends without a save: no file is changed, so what the
    analysis had changed in memory before it failed is lost with the run. *)
Theorem failed_analysis_is_not_saved :
  forall (isoformat_now : nat -> string) (now : nat -> DeviceMapper.datetime)
         (set_order : pyset -> list string) (a : Commands.args) (log_file : string)
         (w : DeviceMapper.world),
    Commands.arg_list a = false ->
    Commands.arg_add a = None ->
    Commands.given (Commands.arg_analyze a) = Some log_file ->
    fst (DeviceMapper.analyze_dns_log now set_order log_file
           (snd (DeviceMapper.init (Commands.arg_device_map a) now w)))
    = Ok false ->
    exists w',
      Commands.main isoformat_now now set_order a w = (Ok tt, w')
      /\ DeviceMapper.files w' = DeviceMapper.files w.
Proof.
  intros iso now set_order a log_file w Hlist Hadd Hlog Hfail.
  unfold Commands.main, DeviceMapper.bind at 1.
  destruct (DeviceMapper.init (Commands.arg_device_map a) now w) as [r0 w0] eqn:E0.
  destruct (init_frame now _ _ _ _ E0) as (-> & Hf0 & _).
  rewrite Hlist, Hadd, Hlog. unfold DeviceMapper.bind. cbn [snd] in Hfail.
  destruct (DeviceMapper.analyze_dns_log now set_order log_file w0) as [r1 w1] eqn:E1.
  cbn [fst] in Hfail. subst r1.
  destruct (analyze_dns_log_frame now set_order _ _ _ _ E1) as (Hf1 & _).
  exists w1. split; [reflexivity | congruence].
Qed.

Lemma failed_analysis_is_not_saved_witness :
  exists w',
    Commands.main Scenarios.isoformat_clock Samples.clock Samples.insertion_order
      Scenarios.analyze_log (Scenarios.start Scenarios.damaged_disk)
    = (Ok tt, w')
    /\ DeviceMapper.files w' = DeviceMapper.files (Scenarios.start Scenarios.damaged_disk).
Proof.
  apply (failed_analysis_is_not_saved Scenarios.isoformat_clock Samples.clock
           Samples.insertion_order Scenarios.analyze_log "ctrld.log"
           (Scenarios.start Scenarios.damaged_disk)).
  - reflexivity.
  - reflexivity.
  - reflexivity.
  - vm_compute. reflexivity.
Defined.

(** An analysis run from the command line is there at the next start.  When
    the registry file holds a registry whose records are dicts (or is
    absent), can be written, and the log can be read to its end, [main] with
    [--analyze] ends normally; a run started afterwards on the registry
    file finds every client of the log with its number of queries, finds
    every device the log does not mention as the file held it before, and
    reads in total_devices the number of devices. *)
Theorem analysis_survives_restart :
  forall (isoformat_now : nat -> string) (now : nat -> DeviceMapper.datetime)
         (set_order : pyset -> list string) (a : Commands.args)
         (log_file text : string) (acc : DeviceMapper.activity)
         (w w0 : DeviceMapper.world) (d : value) (meta : dict value),
    Commands.arg_list a = false ->
    Commands.arg_add a = None ->
    Commands.given (Commands.arg_analyze a) = Some log_file ->
    DeviceMapper._load_device_map (Commands.arg_device_map a) now w = (Ok d, w0) ->
    Json.serializable d = true ->
    registry_ok d = true ->
    getitem d "metadata" = Ok (VDict meta) ->
    DeviceMapper.read_only w (Commands.arg_device_map a) = false ->
    DeviceMapper.files w log_file = Some text ->
    DeviceMapper.scan_lines (DeviceMapper.readlines text) DeviceMapper.no_activity
    = Ok acc ->
    exists w1,
      Commands.main isoformat_now now set_order a w = (Ok tt, w1)
      /\ forall w2,
           DeviceMapper.files w2 (Commands.arg_device_map a)
           = DeviceMapper.files w1 (Commands.arg_device_map a) ->
           exists w3 devices,
             DeviceMapper.init (Commands.arg_device_map a) now w2 = (Ok tt, w3)
             /\ (forall ip c, In (ip, c) (DeviceMapper.device_activity acc) ->
                   device_field ip "query_count" (DeviceMapper.data w3) = Ok (VInt c))
             /\ (forall ip, ~ In ip (dict_keys (DeviceMapper.device_activity acc)) ->
                   device ip (DeviceMapper.data w3) = device ip d)
             /\ getitem (DeviceMapper.data w3) "devices" = Ok (VDict devices)
             /\ metadata_field "total_devices" (DeviceMapper.data w3)
                = Ok (VInt (Z.of_nat (List.length devices))).
Proof.
  intros iso now set_order a log_file text acc w w0 d meta
    Hlist Hadd Hlog Hload Hs Hok Hmeta Hwritable Hfile Hscan.
  destruct (load_device_map_answers now (Commands.arg_device_map a) w)
    as (d' & w0' & E & Hf0 & Hro).
  rewrite Hload in E. injection E as <- <-.
  destruct (scan_lines_ok _ _ _ Hscan no_activity_ok) as [Hkeys _].
  set (wa := DeviceMapper.with_data w0 d).
  destruct (reconcile_items_writable now set_order (DeviceMapper.device_activity acc)
              (DeviceMapper.device_domains acc) wa Hkeys Hok Hs)
    as (wb & Erec & Hokb & Hsb & Hsettled).
  destruct (reconcile_items_frame _ _ _ _ _ _ _ Erec) as (Hfb & Hdevb & Htopb).
  pose proof (reconcile_items_read_only _ _ _ _ _ _ _ Erec) as Hrob.
  destruct (registry_ok_shape _ Hokb) as (top & devices & Hdb & Hdevs & _).
  assert (dict_get "metadata" top = Some (VDict meta)) as Hmb.
  { pose proof (Htopb "metadata" ltac:(discriminate)) as H. rewrite Hdb in H.
    unfold wa in H. cbn [DeviceMapper.data DeviceMapper.with_data] in H.
    rewrite Hmeta in H. unfold getitem in H.
    destruct (dict_get "metadata" top) as [x|]; [|discriminate].
    now injection H as ->. }
  destruct (saved_registry_reloads (Commands.arg_device_map a) now wb top meta
              (VDict devices) (Z.of_nat (List.length devices)) Hdb Hmb Hdevs eq_refl Hsb)
    as (w1 & Esave & Hreload).
  { rewrite Hrob. unfold wa. cbn [DeviceMapper.read_only DeviceMapper.with_data].
    now rewrite Hro. }
  exists w1. split.
  - unfold Commands.main, DeviceMapper.bind at 1.
    rewrite (init_loads now _ _ _ _ Hload), Hlist, Hadd, Hlog.
    unfold DeviceMapper.bind, DeviceMapper.ret, DeviceMapper.analyze_dns_log.
    fold wa. change (DeviceMapper.files wa log_file) with (DeviceMapper.files w0 log_file).
    rewrite Hf0, Hfile, Hscan. unfold DeviceMapper.reconcile. rewrite Erec.
    now rewrite Esave.
  - intros w2 Hfile2. eexists. exists devices. split; [exact (Hreload w2 Hfile2)|].
    cbn [DeviceMapper.data DeviceMapper.with_data].
    split; [|split; [|split]].
    + intros ip c Hin. destruct (Hsettled ip c Hin) as (info & Hdevice & Hq & _).
      unfold device_field. rewrite device_stamped, <- Hdb, Hdevice.
      unfold getitem. now rewrite Hq.
    + intros ip Hnot. rewrite device_stamped, <- Hdb. now apply Hdevb.
    + unfold stamped, getitem. rewrite dict_get_set_ne by discriminate.
      now rewrite Hdevs.
    + apply total_devices_stamped.
Qed.

Lemma analysis_survives_restart_witness :
  exists w1,
    Commands.main Scenarios.isoformat_clock Samples.clock Samples.insertion_order
      Scenarios.analyze_log (Scenarios.start Scenarios.tv_disk)
    = (Ok tt, w1)
    /\ forall w2,
         DeviceMapper.files w2 "device-map.json" = DeviceMapper.files w1 "device-map.json" ->
         exists w3 devices,
           DeviceMapper.init "device-map.json" Samples.clock w2 = (Ok tt, w3)
           /\ (forall ip c, In (ip, c) [("192.168.1.10", 2%Z)] ->
                 device_field ip "query_count" (DeviceMapper.data w3) = Ok (VInt c))
           /\ (forall ip, ~ In ip ["192.168.1.10"] ->
                 device ip (DeviceMapper.data w3)
                 = device ip (Samples.registry_of [("192.168.1.50", Samples.tv)]))
           /\ getitem (DeviceMapper.data w3) "devices" = Ok (VDict devices)
           /\ metadata_field "total_devices" (DeviceMapper.data w3)
              = Ok (VInt (Z.of_nat (List.length devices))).
Proof.
  apply (analysis_survives_restart Scenarios.isoformat_clock Samples.clock
           Samples.insertion_order Scenarios.analyze_log "ctrld.log"
           Samples.two_queries_log
           {| DeviceMapper.device_activity := [("192.168.1.10", 2%Z)];
              DeviceMapper.device_domains := [("192.168.1.10", ["x.com"; "y.com"])] |}
           (Scenarios.start Scenarios.tv_disk) (Scenarios.start Scenarios.tv_disk)
           (Samples.registry_of [("192.168.1.50", Samples.tv)])
           [("last_updated", VStr "2023-12-24");
            ("network_range", VStr "192.168.1.0/24");
            ("total_devices", VInt 0);
            ("source", VStr "Control D DNS log analysis")]).
  - reflexivity.
  - reflexivity.
  - reflexivity.
  - vm_compute. reflexivity.
  - vm_compute. reflexivity.
  - reflexivity.
  - reflexivity.
  - reflexivity.
  - reflexivity.
  - vm_compute. reflexivity.
Defined.

(* ===================================================================== *)
(** ** The tables of the analyzer *)
(* ===================================================================== *)

Section AnalyzerTables.

Import DNSTrafficAnalyzer.

(** A line leaves the analyzer as it was, or has its query recorded. *)
Lemma parse_log_line_cases line self :
  snd (parse_log_line line self) = self
  \/ exists m timestamp level,
       parse_log_line line self
       = (Ok (Some (built_query m timestamp level)),
          record (built_query m timestamp level) m self).
Proof.
  unfold parse_log_line.
  destruct (Json.loads (strip line)) as [log_entry|[]]; try (left; reflexivity).
  destruct (get_method log_entry "message" (VStr "")) as [msg|]; [|left; reflexivity].
  destruct (contains msg "QUERY") as [[]|]; try (left; reflexivity).
  destruct (getitem log_entry "message") as [[]|]; try (left; reflexivity).
  destruct (Re.search s) as [m|]; [|left; reflexivity].
  destruct (get_method log_entry "time" (VStr "")) as [timestamp|]; [|left; reflexivity].
  destruct (get_method log_entry "level" (VStr "info")) as [level|]; [|left; reflexivity].
  right. exists m, timestamp, level. reflexivity.
Qed.

(** What recording a query keeps, the whole loop keeps. *)
Lemma parse_lines_invariant (P : analyzer -> Prop) :
  (forall m timestamp level self,
      P self -> P (record (built_query m timestamp level) m self)) ->
  forall lines self, P self -> P (snd (parse_lines lines self)).
Proof.
  intros Hrecord lines. induction lines as [|line rest IH]; intros self H; [exact H|].
  cbn [parse_lines].
  assert (P (snd (parse_log_line line self))) as H1.
  { destruct (parse_log_line_cases line self) as [-> | (m & t & l & ->)];
      [assumption | now apply Hrecord]. }
  destruct (parse_log_line line self) as [[o|e] self1]; [apply IH|]; exact H1.
Qed.

Lemma analyze_log_file_invariant (P : analyzer -> Prop) :
  (forall m timestamp level self,
      P self -> P (record (built_query m timestamp level) m self)) ->
  forall files log_file self, P self -> P (snd (analyze_log_file files log_file self)).
Proof.
  intros Hrecord files log_file self H. unfold analyze_log_file.
  destruct (files log_file) as [text|]; [|exact H].
  pose proof (parse_lines_invariant P Hrecord (DeviceMapper.readlines text) self H) as H1.
  destruct (parse_lines (DeviceMapper.readlines text) self) as [[o|e] self1]; exact H1.
Qed.

Lemma filter_last {A} (p : A -> bool) (l : list A) (x : A) :
  filter p (l ++ [x])%list = (filter p l ++ (if p x then [x] else []))%list.
Proof. rewrite filter_app. reflexivity. Qed.

Lemma count_up_get k k' (c : dict Z) :
  dict_get_default k' 0%Z (count_up k c)
  = (dict_get_default k' 0 c + (if (k =? k')%string then 1 else 0))%Z.
Proof.
  unfold count_up, dict_get_default at 1.
  destruct (k =? k')%string eqn:E.
  - apply String.eqb_eq in E. subst k'. now rewrite dict_get_set_eq.
  - apply String.eqb_neq in E. rewrite dict_get_set_ne by assumption.
    unfold dict_get_default. destruct (dict_get k' c); lia.
Qed.

Lemma count_where_last field s qs q :
  count_where field s (qs ++ [q])%list
  = (count_where field s qs + (if field_is field s q then 1 else 0))%Z.
Proof.
  unfold count_where. rewrite filter_last, length_app.
  destruct (field_is field s q); simpl; lia.
Qed.

Lemma record_consistent m timestamp level self :
  tables_consistent self ->
  tables_consistent (record (built_query m timestamp level) m self).
Proof.
  intros (Hclients & Hdomains & Htypes). unfold record.
  split; [|split]; cbn [queries client_stats domain_stats query_types].
  - intros ip. rewrite filter_last. unfold dict_get_default at 1.
    change (field_is "client_ip" ip (built_query m timestamp level))
      with (Re.client_ip m =? ip)%string.
    destruct (Re.client_ip m =? ip)%string eqn:E.
    + apply String.eqb_eq in E. subst ip. rewrite dict_get_set_eq. now rewrite Hclients.
    + apply String.eqb_neq in E. rewrite dict_get_set_ne by assumption.
      rewrite List.app_nil_r. apply Hclients.
  - intros dom. rewrite count_up_get, count_where_last, Hdomains. reflexivity.
  - intros qtype. rewrite count_up_get, count_where_last, Htypes. reflexivity.
Qed.

Lemma sum_counts_count_up k c : sum_counts (count_up k c) = (sum_counts c + 1)%Z.
Proof.
  unfold count_up, sum_counts, dict_get_default.
  induction c as [|[k' v'] c IH]; simpl.
  - reflexivity.
  - destruct (k' =? k)%string eqn:E; simpl.
    + lia.
    + destruct (dict_get k c); simpl in IH |- *; lia.
Qed.

Lemma count_up_ok k c : counter_ok c -> counter_ok (count_up k c).
Proof.
  intros [Hkeys Hall]. unfold count_up. split.
  - now apply dict_set_keys_NoDup.
  - apply dict_set_Forall; [assumption|].
    assert (0 <= dict_get_default k 0 c)%Z; [|lia].
    apply (dict_get_default_Forall (fun v => 0 <= v)%Z); [|lia].
    eapply Forall_impl; [|exact Hall]. simpl. intros; lia.
Qed.

Lemma record_ok q m self : tables_ok self -> tables_ok (record q m self).
Proof.
  intros (Hkeys & Hfull & Hdom & Htyp & Hsd & Hst). unfold record, tables_ok.
  cbn [queries client_stats domain_stats query_types].
  rewrite !sum_counts_count_up, length_app, Hsd, Hst. cbn [List.length].
  repeat split; try lia.
  - now apply dict_set_keys_NoDup.
  - apply (dict_set_Forall (fun qs : list value => qs <> [])); [assumption|].
    now destruct (dict_get_default (Re.client_ip m) [] (client_stats self)).
  - now apply count_up_ok.
  - now apply count_up_ok.
  - now apply count_up_ok.
  - now apply count_up_ok.
Qed.

Lemma new_analyzer_consistent : tables_consistent new_analyzer.
Proof. repeat split. Qed.

Lemma new_analyzer_ok : tables_ok new_analyzer.
Proof. repeat split; constructor. Qed.

End AnalyzerTables.

(** The tables of the analyzer never disagree with its list of queries.
    However the analysis of a log ends (the file may be missing, a line may
    raise), [client_stats] holds for each client exactly the queries of
    that client, in the order of the log; [domain_stats] and [query_types]
    hold for each domain and each query type the number of queries; and the
    total the report divides by is the number of queries. *)
Theorem analyzer_tables_agree_with_queries :
  forall (files : DeviceMapper.filesystem) (log_file : string),
    let self := snd (DNSTrafficAnalyzer.analyze_log_file files log_file
                       DNSTrafficAnalyzer.new_analyzer) in
    tables_consistent self
    /\ TrafficReport.total_queries self
       = Z.of_nat (List.length (DNSTrafficAnalyzer.queries self))
    /\ sum_counts (DNSTrafficAnalyzer.domain_stats self)
       = Z.of_nat (List.length (DNSTrafficAnalyzer.queries self)).
Proof.
  intros files log_file self. split.
  - apply analyze_log_file_invariant; [|exact new_analyzer_consistent].
    intros m t l s. apply record_consistent.
  - assert (tables_ok self) as (_ & _ & _ & _ & Hsd & Hst).
    { apply analyze_log_file_invariant; [|exact new_analyzer_ok].
      intros m t l s. apply record_ok. }
    split; assumption.
Qed.

(* ===================================================================== *)
(** ** The rankings of the report *)
(* ===================================================================== *)

Section Ranking.

Import TrafficReport.

Lemma insert_by_count_perm kv l : Permutation (insert_by_count kv l) (kv :: l).
Proof.
  induction l as [|kv' l IH]; simpl; [apply Permutation_refl|].
  destruct (snd kv' <=? snd kv)%Z; [apply Permutation_refl|].
  eapply Permutation_trans; [apply perm_skip, IH | apply perm_swap].
Qed.

Lemma sorted_by_count_perm l : Permutation (sorted_by_count l) l.
Proof.
  induction l as [|kv l IH]; simpl; [constructor|].
  eapply Permutation_trans; [apply insert_by_count_perm | now apply perm_skip].
Qed.

Lemma insert_by_count_sorted kv l :
  StronglySorted count_ge l -> StronglySorted count_ge (insert_by_count kv l).
Proof.
  induction l as [|kv' l IH]; intros Hs; simpl.
  - constructor; constructor.
  - inversion Hs as [|? ? Hs' Hall]; subst.
    destruct (snd kv' <=? snd kv)%Z eqn:E.
    + apply Z.leb_le in E. constructor; [assumption|]. constructor; [exact E|].
      rewrite Forall_forall in *. intros x Hx. specialize (Hall x Hx).
      unfold count_ge in *. lia.
    + apply Z.leb_gt in E. constructor; [now apply IH|].
      rewrite Forall_forall in *. intros x Hx.
      apply (Permutation_in x (insert_by_count_perm kv l)) in Hx.
      destruct Hx as [<-|Hx]; [unfold count_ge; lia | now apply Hall].
Qed.

Lemma sorted_by_count_sorted l : StronglySorted count_ge (sorted_by_count l).
Proof.
  induction l as [|kv l IH]; simpl; [constructor | now apply insert_by_count_sorted].
Qed.

(** The sort is stable: among the items of one count, an item put in front
    of a list stays in front. *)
Lemma insert_by_count_stable c kv l :
  filter (has_count c) (insert_by_count kv l) = filter (has_count c) (kv :: l).
Proof.
  induction l as [|kv' l IH]; [reflexivity|].
  cbn [insert_by_count].
  destruct (snd kv' <=? snd kv)%Z eqn:E; [reflexivity|].
  apply Z.leb_gt in E. cbn [filter] in *. rewrite IH.
  unfold has_count.
  destruct (snd kv' =? c)%Z eqn:E1; destruct (snd kv =? c)%Z eqn:E2; try reflexivity.
  apply Z.eqb_eq in E1, E2. lia.
Qed.

Lemma sorted_by_count_stable c l :
  filter (has_count c) (sorted_by_count l) = filter (has_count c) l.
Proof.
  induction l as [|kv l IH]; [reflexivity|].
  cbn [sorted_by_count fold_right]. rewrite insert_by_count_stable.
  cbn [filter]. fold (sorted_by_count l). now rewrite IH.
Qed.

Lemma firstn_sorted_ranking n items :
  ranking_of n items (firstn n (sorted_by_count items)).
Proof.
  split.
  - rewrite length_firstn. now rewrite (Permutation_length (sorted_by_count_perm items)).
  - exists (skipn n (sorted_by_count items)). rewrite firstn_skipn.
    split; [apply sorted_by_count_perm|].
    split; [apply sorted_by_count_sorted|].
    intros c. apply sorted_by_count_stable.
Qed.

End Ranking.

(** The report ranks by count and breaks ties by the order of the table.
    The clients it lists are the first ten, the domains the first twenty
    and the query types all of a ranking that holds every entry of the
    table once, by descending count, entries of equal count in the order
    they have in the table (that of their first insertion). *)
Theorem report_ranks_by_count_then_first_seen :
  forall self : DNSTrafficAnalyzer.analyzer,
    ranking_of 10 (TrafficReport.client_counts self) (TrafficReport.top_clients self)
    /\ ranking_of 20 (DNSTrafficAnalyzer.domain_stats self)
         (TrafficReport.top_domains_queried self)
    /\ ranking_of (List.length (DNSTrafficAnalyzer.query_types self))
         (DNSTrafficAnalyzer.query_types self)
         (TrafficReport.query_type_distribution self).
Proof.
  intros self. split; [apply firstn_sorted_ranking|]. split; [apply firstn_sorted_ranking|].
  unfold TrafficReport.query_type_distribution, TrafficReport.most_common.
  replace (TrafficReport.sorted_by_count (DNSTrafficAnalyzer.query_types self))
    with (firstn (List.length (DNSTrafficAnalyzer.query_types self))
            (TrafficReport.sorted_by_count (DNSTrafficAnalyzer.query_types self))).
  - apply firstn_sorted_ranking.
  - apply firstn_all2. now rewrite (Permutation_length (sorted_by_count_perm _)).
Qed.

(** Two domains with three queries each: the one the log showed first is
    ranked first. *)
Example ranking_of_a_tie :
  TrafficReport.most_common (Some 2) [("a.com", 3%Z); ("b.com", 3%Z); ("c.com", 1%Z)]
  = [("a.com", 3%Z); ("b.com", 3%Z)]
  /\ TrafficReport.most_common None [("c.com", 1%Z); ("b.com", 3%Z); ("a.com", 3%Z)]
     = [("b.com", 3%Z); ("a.com", 3%Z); ("c.com", 1%Z)].
Proof. split; reflexivity. Qed.

Section ReportCounts.

Import DNSTrafficAnalyzer TrafficReport.

Lemma ranked_In n items kv : In kv (firstn n (sorted_by_count items)) -> In kv items.
Proof.
  intros H. apply (Permutation_in kv (sorted_by_count_perm items)).
  exact (firstn_incl n _ kv H).
Qed.

Lemma ranked_keys_NoDup n (items : dict Z) :
  NoDup (dict_keys items) -> NoDup (dict_keys (firstn n (sorted_by_count items))).
Proof.
  intros H. unfold dict_keys. rewrite <- firstn_map. apply firstn_NoDup.
  apply (Permutation_NoDup (l := map fst items)); [|exact H].
  apply Permutation_map, Permutation_sym, sorted_by_count_perm.
Qed.

Lemma client_counts_keys self : dict_keys (client_counts self) = dict_keys (client_stats self).
Proof. unfold client_counts, dict_keys. rewrite map_map. reflexivity. Qed.

End ReportCounts.

(** The counts the report prints are counts of queries.  After the analysis
    of a log, however it ended, a client listed with [n] has [n] queries in
    the list of queries, a domain listed with [n] was asked for [n] times,
    [n] is at least one, and no client and no domain is listed twice. *)
Theorem report_counts_are_query_counts :
  forall (files : DeviceMapper.filesystem) (log_file : string),
    let self := snd (DNSTrafficAnalyzer.analyze_log_file files log_file
                       DNSTrafficAnalyzer.new_analyzer) in
    (forall ip n, In (ip, n) (TrafficReport.top_clients self) ->
       n = count_where "client_ip" ip (DNSTrafficAnalyzer.queries self) /\ (1 <= n)%Z)
    /\ (forall dom n, In (dom, n) (TrafficReport.top_domains_queried self) ->
          n = count_where "domain" dom (DNSTrafficAnalyzer.queries self) /\ (1 <= n)%Z)
    /\ NoDup (dict_keys (TrafficReport.top_clients self))
    /\ NoDup (dict_keys (TrafficReport.top_domains_queried self)).
Proof.
  intros files log_file self.
  assert (tables_consistent self) as (Hclients & Hdomains & _).
  { apply analyze_log_file_invariant; [|exact new_analyzer_consistent].
    intros m t l s. apply record_consistent. }
  assert (tables_ok self) as (Hkeys & Hfull & [Hdk Hdpos] & _).
  { apply analyze_log_file_invariant; [|exact new_analyzer_ok].
    intros m t l s. apply record_ok. }
  split; [|split; [|split]].
  - intros ip n Hin. apply ranked_In in Hin.
    unfold TrafficReport.client_counts in Hin. apply in_map_iff in Hin.
    destruct Hin as ([ip' qs] & [= -> <-] & Hin). simpl.
    pose proof (In_dict_get _ _ _ Hkeys Hin) as Hget.
    specialize (Hclients ip). unfold dict_get_default in Hclients.
    rewrite Hget in Hclients. unfold count_where. rewrite <- Hclients.
    split; [reflexivity|].
    rewrite Forall_forall in Hfull. specialize (Hfull _ Hin). simpl in Hfull.
    destruct qs; [congruence | simpl; lia].
  - intros dom n Hin. apply ranked_In in Hin.
    pose proof (In_dict_get _ _ _ Hdk Hin) as Hget.
    specialize (Hdomains dom). unfold dict_get_default in Hdomains.
    rewrite Hget in Hdomains. split; [assumption|].
    rewrite Forall_forall in Hdpos. exact (Hdpos _ Hin).
  - apply ranked_keys_NoDup. now rewrite client_counts_keys.
  - apply ranked_keys_NoDup. assumption.
Qed.

(* ===================================================================== *)
(** ** The two readers of the log *)
(* ===================================================================== *)

Section TwoReaders.

Import DeviceMapper DNSTrafficAnalyzer.

(** Both programs take a line the same way: they leave it, raise the same
    exception, or find the same query. *)
Lemma line_read_alike line :
  (forall acc self,
      scan_line line acc = Ok acc /\ parse_log_line line self = (Ok None, self))
  \/ (exists e, forall acc self,
        scan_line line acc = Raise e /\ parse_log_line line self = (Raise e, self))
  \/ (exists m timestamp level, forall acc self,
        scan_line line acc = Ok (record_query (Re.client_ip m) (Re.domain m) acc)
        /\ parse_log_line line self
           = (Ok (Some (built_query m timestamp level)),
              record (built_query m timestamp level) m self)).
Proof.
  unfold scan_line, parse_log_line.
  destruct (Json.loads (strip line)) as [log_entry|e].
  2: { destruct e; try (right; left; eexists; split; reflexivity).
       left. split; reflexivity. }
  destruct log_entry as [| | | | | |kvs];
    try (right; left; eexists; split; reflexivity).
  cbn [get_method].
  destruct (contains (dict_get_default "message" (VStr "") kvs) "QUERY") as [[]|e];
    [ | left; split; reflexivity | right; left; eexists; split; reflexivity].
  destruct (getitem (VDict kvs) "message") as [[]|e];
    try (right; left; eexists; split; reflexivity).
  destruct (Re.search s) as [m|]; [|left; split; reflexivity].
  right. right. exists m. eexists. eexists. split; reflexivity.
Qed.

Lemma dict_get_map {A B} (h : A -> B) k (d : dict A) :
  dict_get k (map (fun kv => (fst kv, h (snd kv))) d) = option_map h (dict_get k d).
Proof.
  induction d as [|[k' v] d IH]; simpl; [reflexivity|].
  destruct (k' =? k)%string; [reflexivity | exact IH].
Qed.

Lemma dict_set_map {A B} (h : A -> B) k v (d : dict A) :
  map (fun kv => (fst kv, h (snd kv))) (dict_set k v d)
  = dict_set k (h v) (map (fun kv => (fst kv, h (snd kv))) d).
Proof.
  induction d as [|[k' v'] d IH]; simpl; [reflexivity|].
  destruct (k' =? k)%string; simpl; [reflexivity | now rewrite IH].
Qed.

Lemma dict_get_default_map {A B} (h : A -> B) k a (d : dict A) :
  dict_get_default k (h a) (map (fun kv => (fst kv, h (snd kv))) d)
  = h (dict_get_default k a d).
Proof.
  unfold dict_get_default. rewrite dict_get_map. now destruct (dict_get k d).
Qed.

Lemma domains_of_last qs m timestamp level :
  domains_of (qs ++ [built_query m timestamp level])%list
  = set_add (Re.domain m) (domains_of qs).
Proof. unfold domains_of. rewrite fold_left_app. reflexivity. Qed.

Lemma record_alike m timestamp level acc self :
  gathered_alike acc self ->
  gathered_alike (record_query (Re.client_ip m) (Re.domain m) acc)
        (record (built_query m timestamp level) m self).
Proof.
  intros [Hcounts Hdomains]. unfold gathered_alike, record_query, record.
  cbn [device_activity device_domains client_stats].
  rewrite Hcounts, Hdomains. split.
  - rewrite (dict_set_map (fun qs : list value => Z.of_nat (List.length qs))).
    f_equal.
    rewrite (dict_get_default_map (fun qs : list value => Z.of_nat (List.length qs))
               _ []).
    rewrite length_app. simpl. lia.
  - rewrite (dict_set_map domains_of). f_equal.
    rewrite (dict_get_default_map domains_of _ []).
    now rewrite domains_of_last.
Qed.

Lemma lines_read_alike lines :
  forall acc self,
    gathered_alike acc self ->
    match scan_lines lines acc, parse_lines lines self with
    | Ok acc', (Ok _, self') => gathered_alike acc' self'
    | Raise e, (Raise e', _) => e = e'
    | _, _ => False
    end.
Proof.
  induction lines as [|line rest IH]; intros acc self H; [exact H|].
  cbn [scan_lines parse_lines].
  destruct (line_read_alike line) as [Hsame | [(e & Hraise) | (m & t & l & Hrec)]].
  - destruct (Hsame acc self) as [-> ->]. now apply IH.
  - destruct (Hraise acc self) as [-> ->]. reflexivity.
  - destruct (Hrec acc self) as [-> ->]. apply IH. now apply record_alike.
Qed.

End TwoReaders.

(** The mapper and the analyzer read a log alike.  On the same lines both
    come to the end or both stop with the same exception; when they come to
    the end, the mapper's [device_activity] holds for each client of the
    analyzer, in the same order, the number of its queries, and
    [device_domains] the domains of these queries, each once. *)
Theorem mapper_and_analyzer_read_alike :
  forall lines : list string,
    match DeviceMapper.scan_lines lines DeviceMapper.no_activity,
          DNSTrafficAnalyzer.parse_lines lines DNSTrafficAnalyzer.new_analyzer with
    | Ok acc, (Ok _, self) =>
        DeviceMapper.device_activity acc = TrafficReport.client_counts self
        /\ DeviceMapper.device_domains acc
           = map (fun kv => (fst kv, domains_of (snd kv)))
               (DNSTrafficAnalyzer.client_stats self)
    | Raise e, (Raise e', _) => e = e'
    | _, _ => False
    end.
Proof.
  intros lines. apply lines_read_alike. split; reflexivity.
Qed.

(** The log of two queries of one client, read by both programs. *)
Example two_readers_of_two_queries :
  let lines := DeviceMapper.readlines Samples.two_queries_log in
  DeviceMapper.scan_lines lines DeviceMapper.no_activity
  = Ok {| DeviceMapper.device_activity := [("192.168.1.10", 2%Z)];
          DeviceMapper.device_domains := [("192.168.1.10", ["x.com"; "y.com"])] |}
  /\ TrafficReport.client_counts
       (snd (DNSTrafficAnalyzer.parse_lines lines DNSTrafficAnalyzer.new_analyzer))
     = [("192.168.1.10", 2%Z)]
  /\ TrafficReport.top_domains_queried
       (snd (DNSTrafficAnalyzer.parse_lines lines DNSTrafficAnalyzer.new_analyzer))
     = [("x.com", 1%Z); ("y.com", 1%Z)].
Proof. vm_compute. repeat split. Qed.
